(** * TripAdvisor scraper: pagination and extraction, embedded and verified

    A shallow embedding of the Python modules [search_responses.py],
    [scrape_search.py] and [scrape_reviews.py].  Python values are modelled
    by the data the code manipulates: [str] as [string] (code points below
    256), [int] as [Z], [float] as the IEEE 754 binary64 values of
    [SpecFloat.spec_float], decoded JSON as an inductive type, raised
    exceptions as the [Raise] branch of [result].  The HTTP client and the
    HTML selector library are collaborators of the program: a [World]
    answers requests, and a [Response] carries the node lists the
    selectors of the program return on its body; that the client answers
    every request is an assumption of the model.  [scrape_hotel.py] holds
    a shorter copy of [parse_hotel_page], without the reviews. *)

From Stdlib Require Import ZArith List String Ascii Bool Lia Permutation.
From Stdlib Require Import DecimalString DecimalZ DecimalPos SpecFloat FinFun.
Import ListNotations.

Open Scope string_scope.
Open Scope Z_scope.

(** ** Python primitives *)

Module Py.

(** The exception classes the modelled code can raise. *)
Inductive exn : Type :=
| IndexError
| KeyError
| TypeError
| AttributeError
| ValueError
| JSONDecodeError
| UnicodeDecodeError
| RecursionError
| AssertionError
| OverflowError
| ZeroDivisionError.

(** Outcome of a Python expression: a value, or a raised exception. *)
Inductive result (A : Type) : Type :=
| Ok (a : A)
| Raise (e : exn).

Arguments Ok {A} a.
Arguments Raise {A} e.

Definition bind {A B : Type} (m : result A) (f : A -> result B) : result B :=
  match m with
  | Ok a => f a
  | Raise e => Raise e
  end.

(** [for x in l: acc = body(acc, x)], stopping at the first exception. *)
Fixpoint for_each {A S : Type} (body : S -> A -> result S) (l : list A) (acc : S)
  : result S :=
  match l with
  | [] => Ok acc
  | x :: l' => bind (body acc x) (for_each body l')
  end.

(** *** [str] *)

Definition is_digit (c : ascii) : bool :=
  let n := nat_of_ascii c in (48 <=? n)%nat && (n <=? 57)%nat.

(** [str.isspace] on one code point below 256: TAB, LF, VT, FF, CR,
    FS, GS, RS, US, SPACE, NEL and NBSP. *)
Definition is_space (c : ascii) : bool :=
  let n := nat_of_ascii c in
  ((9 <=? n)%nat && (n <=? 13)%nat) || ((28 <=? n)%nat && (n <=? 32)%nat)
  || (n =? 133)%nat || (n =? 160)%nat.

Fixpoint lstrip (s : string) : string :=
  match s with
  | EmptyString => EmptyString
  | String c s' => if is_space c then lstrip s' else s
  end.

Fixpoint rstrip (s : string) : string :=
  match s with
  | EmptyString => EmptyString
  | String c s' =>
      match rstrip s' with
      | EmptyString => if is_space c then EmptyString else String c EmptyString
      | r => String c r
      end
  end.

(** [s.strip()] *)
Definition strip (s : string) : string := rstrip (lstrip s).

(** [s.startswith(p)] *)
Definition startswith (p s : string) : bool := String.prefix p s.

(** [s[n:]] *)
Fixpoint drop (n : nat) (s : string) : string :=
  match n, s with
  | O, _ => s
  | S n', EmptyString => EmptyString
  | S n', String _ s' => drop n' s'
  end.

(** [s.replace(old, new)] for a non-empty [old]: every occurrence of [old],
    found from the left without overlap, is replaced by [new].  [skip]
    counts the characters of a matched occurrence still to be passed. *)
Fixpoint replace_from (old new : string) (skip : nat) (s : string) : string :=
  match s with
  | EmptyString => EmptyString
  | String c s' =>
      match skip with
      | S k => replace_from old new k s'
      | O =>
          if startswith old s
          then new ++ replace_from old new (String.length old - 1) s'
          else String c (replace_from old new 0 s')
      end
  end.

Definition replace (old new s : string) : string := replace_from old new 0 s.

(** [old in s] *)
Fixpoint contains (old s : string) : bool :=
  startswith old s ||
  match s with
  | EmptyString => false
  | String _ s' => contains old s'
  end.

(** [s.split(sep)] for a non-empty [sep]; [cur] is the piece being read. *)
Fixpoint split_from (sep : string) (skip : nat) (cur : string) (s : string)
  : list string :=
  match s with
  | EmptyString => [cur]
  | String c s' =>
      match skip with
      | S k => split_from sep k cur s'
      | O =>
          if startswith sep s
          then cur :: split_from sep (String.length sep - 1) EmptyString s'
          else split_from sep 0 (cur ++ String c EmptyString) s'
      end
  end.

Definition split (sep s : string) : list string := split_from sep 0 EmptyString s.

(** [l[0]] and [l[1]] and [l[-1]] on a list *)
Definition index0 {A : Type} (l : list A) : result A :=
  match l with
  | x :: _ => Ok x
  | [] => Raise IndexError
  end.

Definition index1 {A : Type} (l : list A) : result A :=
  match l with
  | _ :: x :: _ => Ok x
  | _ => Raise IndexError
  end.

Fixpoint index_last {A : Type} (l : list A) : result A :=
  match l with
  | [] => Raise IndexError
  | [x] => Ok x
  | _ :: l' => index_last l'
  end.

(** [str(n)] and the f-string field [{n}] for an [int].  The offsets the
    program formats, a page size times a page index below [2^1024], stay
    far below the number of digits at which [str] refuses an [int]. *)
Definition str (n : Z) : string := NilZero.string_of_int (Z.to_int n).

(** [int(s)] for a [str]: surrounding white space is dropped (for [int]
    that is TAB, LF, VT, FF, CR, SPACE, NEL and NBSP), one sign is allowed,
    and single underscores may separate the decimal digits.  A literal of
    more than [int_max_str_digits] digits, leading zeros counted, is
    refused with [ValueError] like a malformed one. *)
Definition int_max_str_digits : nat := 4300.

Fixpoint count_digits (s : string) : nat :=
  match s with
  | EmptyString => O
  | String c s' => ((if is_digit c then 1 else 0) + count_digits s')%nat
  end.

Definition is_int_space (c : ascii) : bool :=
  let n := nat_of_ascii c in
  ((9 <=? n)%nat && (n <=? 13)%nat) || (n =? 32)%nat
  || (n =? 133)%nat || (n =? 160)%nat.

Fixpoint int_lstrip (s : string) : string :=
  match s with
  | EmptyString => EmptyString
  | String c s' => if is_int_space c then int_lstrip s' else s
  end.

Fixpoint int_rstrip (s : string) : string :=
  match s with
  | EmptyString => EmptyString
  | String c s' =>
      match int_rstrip s' with
      | EmptyString => if is_int_space c then EmptyString else String c EmptyString
      | r => String c r
      end
  end.

Fixpoint digits_value (acc : Z) (prev_digit : bool) (s : string) : option Z :=
  match s with
  | EmptyString => if prev_digit then Some acc else None
  | String c s' =>
      if is_digit c
      then digits_value (10 * acc + (Z.of_nat (nat_of_ascii c) - 48)) true s'
      else if Ascii.eqb c "_"
           then if prev_digit then digits_value acc false s' else None
           else None
  end.

Definition int_of_str (s : string) : result Z :=
  let literal := int_rstrip (int_lstrip s) in
  let body :=
    match literal with
    | String "-" r => option_map Z.opp (digits_value 0 false r)
    | String "+" r => digits_value 0 false r
    | r => digits_value 0 false r
    end in
  match body with
  | Some n => if (count_digits literal <=? int_max_str_digits)%nat then Ok n
              else Raise ValueError
  | None => Raise ValueError
  end.

(** [range(1, n)] *)
Definition range1 (n : Z) : list Z :=
  map (fun k => Z.of_nat (S k)) (seq 0 (Z.to_nat (n - 1))).

(** [len(set(l)) == len(l)] on a list of strings *)
Fixpoint all_distinct (l : list string) : bool :=
  match l with
  | [] => true
  | x :: l' => negb (existsb (String.eqb x) l') && all_distinct l'
  end.

(** *** [float]: IEEE 754 binary64 *)

(** Nearest integer to [a / b] for [b > 0], ties to the even one. *)
Definition round_half_even (a b : Z) : Z :=
  let q := a / b in
  match 2 * (a mod b) ?= b with
  | Lt => q
  | Gt => q + 1
  | Eq => if Z.even q then q else q + 1
  end.

(** Numerator and denominator of [a / (b * 2^e)]. *)
Definition scale_num (a e : Z) : Z := if e <? 0 then a * 2 ^ (- e) else a.
Definition scale_den (b e : Z) : Z := if e <? 0 then b else b * 2 ^ e.

(** The exponent of the binary64 significand of [a / b] ([a, b > 0]): the
    [e] with [2^52 <= a / (b * 2^e) < 2^53], not below that of the
    subnormal numbers. *)
Definition float_exponent (a b : Z) : Z :=
  let k := Z.log2 a - Z.log2 b in
  let e :=
    if scale_num a (k - 52) / scale_den b (k - 52) <? 2 ^ 52
    then k - 53 else k - 52 in
  Z.max e (-1074).

(** [a / b] on two [int]s: the binary64 value nearest to the exact
    quotient. *)
Definition truediv (a b : Z) : result spec_float :=
  if b =? 0 then Raise ZeroDivisionError
  else if a =? 0 then Ok (S754_zero (b <? 0))
  else
    let s := xorb (a <? 0) (b <? 0) in
    let e := float_exponent (Z.abs a) (Z.abs b) in
    let m := round_half_even (scale_num (Z.abs a) e) (scale_den (Z.abs b) e) in
    if 2 ^ (1024 - e) <=? m then Raise OverflowError
    else match m with
         | Zpos p => Ok (S754_finite s p e)
         | _ => Ok (S754_zero s)
         end.

(** [math.ceil(x)] *)
Definition ceil (x : spec_float) : result Z :=
  match x with
  | S754_zero _ => Ok 0
  | S754_infinity _ => Raise OverflowError
  | S754_nan => Raise ValueError
  | S754_finite s m e =>
      let n := if s then Zneg m else Zpos m in
      Ok (if e <? 0 then - ((- n) / 2 ^ (- e)) else n * 2 ^ e)
  end.

(** [int(x)] for a [float]: truncation towards zero. *)
Definition int_of_float (x : spec_float) : result Z :=
  match x with
  | S754_zero _ => Ok 0
  | S754_infinity _ => Raise OverflowError
  | S754_nan => Raise ValueError
  | S754_finite s m e =>
      let n := if s then Zneg m else Zpos m in
      Ok (if e <? 0 then Z.quot n (2 ^ (- e)) else n * 2 ^ e)
  end.

End Py.

Import Py.

Notation "x <- m ;; k" := (Py.bind m (fun x => k))
  (at level 61, m at next level, right associativity).

(** ** Decoded JSON, with the Python operations the code applies to it *)

Module Json.

#[warnings="-register-all"]
Inductive json : Type :=
| JNull
| JBool (b : bool)
| JInt (n : Z)
| JFloat (x : spec_float)
| JStr (s : string)
| JArr (l : list json)
| JObj (fields : list (string * json)).

Fixpoint lookup (k : string) (fields : list (string * json)) : option json :=
  match fields with
  | [] => None
  | (k', v) :: rest => if String.eqb k k' then Some v else lookup k rest
  end.

(** [x[0]] *)
Definition getitem0 (x : json) : result json :=
  match x with
  | JArr l => index0 l
  | JStr (String c _) => Ok (JStr (String c EmptyString))
  | JStr EmptyString => Raise IndexError
  | JObj _ => Raise KeyError
  | _ => Raise TypeError
  end.

(** [x["k"]] *)
Definition getitem (k : string) (x : json) : result json :=
  match x with
  | JObj fields =>
      match lookup k fields with
      | Some v => Ok v
      | None => Raise KeyError
      end
  | _ => Raise TypeError
  end.

(** [x.get("k")] *)
Definition dict_get (k : string) (x : json) : result json :=
  match x with
  | JObj fields =>
      match lookup k fields with
      | Some v => Ok v
      | None => Ok JNull
      end
  | _ => Raise AttributeError
  end.

Fixpoint chars (s : string) : list json :=
  match s with
  | EmptyString => []
  | String c s' => JStr (String c EmptyString) :: chars s'
  end.

(** The items [for r in x] visits. *)
Definition iterate (x : json) : result (list json) :=
  match x with
  | JArr l => Ok l
  | JObj fields => Ok (map (fun kv => JStr (fst kv)) fields)
  | JStr s => Ok (chars s)
  | _ => Raise TypeError
  end.

Definition float_is_zero (x : spec_float) : bool :=
  match x with
  | S754_zero _ => true
  | _ => false
  end.

(** Truth value of [x] in [if x:] *)
Definition truthy (x : json) : bool :=
  match x with
  | JNull => false
  | JBool b => b
  | JInt n => negb (n =? 0)
  | JFloat f => negb (float_is_zero f)
  | JStr s => negb (String.eqb s EmptyString)
  | JArr l => match l with [] => false | _ => true end
  | JObj fields => match fields with [] => false | _ => true end
  end.

(** [int(x)] *)
Definition int (x : json) : result Z :=
  match x with
  | JInt n => Ok n
  | JBool b => Ok (if b then 1 else 0)
  | JFloat f => int_of_float f
  | JStr s => int_of_str s
  | _ => Raise TypeError
  end.

(** [prefix + x] for a [str] prefix *)
Definition str_add (prefix : string) (x : json) : result string :=
  match x with
  | JStr s => Ok (prefix ++ s)
  | _ => Raise TypeError
  end.

(** What [json.loads] makes of a text: the decoded document, or the
    reason of its refusal. *)
Inductive document : Type :=
| Decoded (data : json)
  (** not a JSON document *)
| Malformed
  (** an integer of more digits than [int] accepts *)
| LongInteger
  (** arrays or objects nested deeper than the interpreter recurses *)
| DeepNesting.

(** [json.loads(s)] for a [str] *)
Definition loads (s : document) : result json :=
  match s with
  | Decoded data => Ok data
  | Malformed => Raise JSONDecodeError
  | LongInteger => Raise ValueError
  | DeepNesting => Raise RecursionError
  end.

(** [json.loads(b)] for [bytes]: [None] stands for bytes that are not
    text in the encoding detected. *)
Definition loads_bytes (b : option document) : result json :=
  match b with
  | Some s => loads s
  | None => Raise UnicodeDecodeError
  end.

End Json.

Import Json.

(** ** The selector library on a response body *)

Module Parsel.

(** One [span.listItem] box of a search page. *)
Record ListItem : Type := {
  (** [box.css("div[data-automation=hotel-card-title] a ::text").getall()] *)
  card_title_texts : list string;
  (** [box.css("div[data-automation=hotel-card-title] a::attr(href)").get()] *)
  card_title_href : option string
}.

(** One [div.listing_title>a] anchor of a search page. *)
Record ListingTitle : Type := {
  (** [box.xpath("@href").get()] *)
  listing_href : option string;
  (** [box.xpath("text()").get()] *)
  listing_text : option string
}.

(** One [//div[@data-reviewid]] container of a hotel page. *)
Record ReviewDiv : Type := {
  (** [.//div[@data-test-target='review-title']/a/span/span/text()], first match *)
  review_title : option string;
  (** the [span] holding the review body, serialised, first match *)
  review_body : option string;
  (** [.//div[@data-test-target='review-rating']/svg/title/text()], first match *)
  review_rating : option string;
  (** [.//span[span[contains(text(),'Date of stay')]]/text()], first match *)
  review_stay : option string
}.

(** An HTTP response, with what each selector of the program finds in
    its body.  [url] is the address that was answered, never empty. *)
Record Response : Type := {
  status_code : Z;
  url : string;
  (** [selector.css("span.listItem")] *)
  list_items : list ListItem;
  (** [selector.css("div.listing_title>a")] *)
  listing_titles : list ListingTitle;
  (** [selector.xpath("//span/text()")] *)
  span_texts : list string;
  (** [selector.css('a[aria-label="Next page"]::attr(href)').get()] *)
  next_page_href : option string;
  (** [selector.xpath("//script[contains(text(),'aggregateRating')]/text()").get()],
      as [json.loads] reads it: [None] when no script matches. *)
  aggregate_rating : option document;
  (** [selector.css("div.fIrGe._T::text").get()] *)
  description_text : option string;
  (** [selector.xpath("//div[contains(@data-test-target, 'amenity')]/text()")] *)
  amenity_texts : list string;
  (** [selector.xpath("//div[@data-reviewid]")] *)
  review_divs : list ReviewDiv
}.

(** *** The two regular expressions of the program *)

Fixpoint take_while (p : ascii -> bool) (s : string) : string :=
  match s with
  | EmptyString => EmptyString
  | String c s' => if p c then String c (take_while p s') else EmptyString
  end.

Definition is_comma (c : ascii) : bool := Ascii.eqb c ",".

Definition nonempty (s : string) : bool :=
  match s with
  | EmptyString => false
  | _ => true
  end.

(** A match of [(\d*\,*\d+) properties] at the start of [s]: the group
    and the length of the match.  The digits, then the commas, then the
    digits are read greedily; with no comma the first run of digits is the
    group. *)
Definition match_properties (s : string) : option (string * nat) :=
  let d1 := take_while is_digit s in
  let r1 := drop (String.length d1) s in
  let c := take_while is_comma r1 in
  let r2 := drop (String.length c) r1 in
  let d2 := take_while is_digit r2 in
  let r3 := drop (String.length d2) r2 in
  match c with
  | EmptyString =>
      if nonempty d1 && startswith " properties" r1
      then Some (d1, (String.length d1 + 11)%nat)
      else None
  | _ =>
      if nonempty d2 && startswith " properties" r3
      then Some (d1 ++ c ++ d2,
                 (String.length d1 + String.length c + String.length d2 + 11)%nat)
      else None
  end.

(** [re.findall] of that expression: the groups of the matches, found
    from the left without overlap. *)
Fixpoint findall_properties_from (skip : nat) (s : string) : list string :=
  match s with
  | EmptyString => []
  | String _ s' =>
      match skip with
      | S k => findall_properties_from k s'
      | O =>
          match match_properties s with
          | Some (g, n) => g :: findall_properties_from (n - 1) s'
          | None => findall_properties_from 0 s'
          end
      end
  end.

(** [nodes.re(r"(\d*\,*\d+) properties")] on a list of text nodes *)
Definition re_properties (nodes : list string) : list string :=
  flat_map (findall_properties_from 0) nodes.

(** Length of a match of [[^>]+>] at the start of [s]. *)
Fixpoint tag_rest (s : string) : option nat :=
  match s with
  | EmptyString => None
  | String c s' =>
      if Ascii.eqb c ">" then Some 1%nat else option_map S (tag_rest s')
  end.

(** [re.sub(r'<[^>]+>', '', s)] *)
Fixpoint sub_tags_from (skip : nat) (s : string) : string :=
  match s with
  | EmptyString => EmptyString
  | String c s' =>
      match skip with
      | S k => sub_tags_from k s'
      | O =>
          if Ascii.eqb c "<"
          then match tag_rest s' with
               | Some (S (S k)) => sub_tags_from (S (S k)) s'
               | _ => String c (sub_tags_from 0 s')
               end
          else String c (sub_tags_from 0 s')
      end
  end.

Definition sub_tags (s : string) : string := sub_tags_from 0 s.

End Parsel.

Import Parsel.

(** ** The HTTP client *)

Module Httpx.

Inductive request : Type :=
| GET (url : string)
| POST (query : string).

(** What the outside answers: the response to a [client.get]; the body of
    the reply to the location query, as [json.loads] reads its bytes;
    [urllib.parse.urljoin] on two non-empty strings, [None] when it raises
    [ValueError] on an address it cannot split; the order in which
    [asyncio.as_completed], which puts its coroutines in a set, starts the
    fetches of a list of addresses; and the order in which their responses
    arrive. *)
Record World : Type := {
  client_get : string -> Response;
  client_post : string -> option document;
  urljoin_ref : string -> string -> option string;
  started : list string -> list string;
  started_perm : forall l, Permutation (started l) l;
  as_completed : list Response -> list Response;
  as_completed_perm : forall l, Permutation (as_completed l) l
}.

(** A coroutine of the program: the requests it issued, in order, and its
    outcome. *)
Definition io (A : Type) : Type := (list request * result A)%type.

Definition ret {A : Type} (a : A) : io A := ([], Ok a).

Definition lift {A : Type} (r : result A) : io A := ([], r).

Definition bind_io {A B : Type} (m : io A) (f : A -> io B) : io B :=
  match m with
  | (t, Ok a) => let (t', r) := f a in ((t ++ t')%list, r)
  | (t, Raise e) => (t, Raise e)
  end.

(** [await client.get(url)] *)
Definition get (w : World) (u : string) : io Response :=
  ([GET u], Ok (client_get w u)).

(** [json.loads((await client.post(...)).content)] for the location query *)
Definition post_json (w : World) (query : string) : io json :=
  ([POST query], loads_bytes (client_post w query)).

(** The [client.get] requests among [t]. *)
Definition pages_fetched (t : list request) : list string :=
  flat_map (fun r => match r with GET u => [u] | POST _ => [] end) t.

(** [urljoin(base, url)], where [url] may be [None] and [base] is not
    empty. *)
Definition urljoin (w : World) (base : string) (u : option string)
  : result string :=
  match u with
  | None => Ok base
  | Some EmptyString => Ok base
  | Some u' =>
      match urljoin_ref w base u' with
      | Some joined => Ok joined
      | None => Raise ValueError
      end
  end.

End Httpx.

Import Httpx.

Notation "x <~ m ;; k" := (Httpx.bind_io m (fun x => k))
  (at level 61, m at next level, right associativity).

(** ** search_responses.py *)

Module SearchResponses.

(** The loop of [scrape_location_data] over the raw results: a result
    with a true ["details"] is kept, the others are dropped. *)
Definition sanitize (sanitized : list json) (r : json) : result (list json) :=
  details <- dict_get "details" r ;;
  Ok (if truthy details then (sanitized ++ [details])%list else sanitized).

Definition scrape_location_data (w : World) (query : string) : io (list json) :=
  data <~ post_json w query ;;
  lift (
    d0 <- getitem0 data ;;
    d1 <- getitem "data" d0 ;;
    d2 <- getitem "Typeahead_autocomplete" d1 ;;
    results <- getitem "results" d2 ;;
    items <- iterate results ;;
    for_each sanitize items []).

End SearchResponses.

Import SearchResponses.

(** ** scrape_search.py *)

Module ScrapeSearch.

Record Preview : Type := {
  preview_url : string;
  preview_name : string
}.

(** Body of the loop over location #1. *)
Definition parse_list_item (w : World) (response : Response)
    (parsed : list Preview) (box : ListItem) : result (list Preview) :=
  title <- index1 (card_title_texts box) ;;
  joined <- urljoin w (url response) (card_title_href box) ;;
  Ok (parsed ++ [ {| preview_url := joined; preview_name := title |} ])%list.

(** Body of the loop over location #2. *)
Definition parse_listing_title (w : World) (response : Response)
    (parsed : list Preview) (box : ListingTitle) : result (list Preview) :=
  joined <- urljoin w (url response) (listing_href box) ;;
  name <- index_last (split ". " (match listing_text box with
                                  | Some t => t
                                  | None => EmptyString
                                  end)) ;;
  Ok (parsed ++ [ {| preview_url := joined; preview_name := name |} ])%list.

Definition parse_search_page (w : World) (response : Response)
  : result (list Preview) :=
  parsed <- for_each (parse_list_item w response) (list_items response) [] ;;
  match parsed with
  | _ :: _ => Ok parsed
  | [] => for_each (parse_listing_title w response) (listing_titles response) parsed
  end.

(** [if max_pages and total_pages > max_pages: total_pages = max_pages] *)
Definition clamp_pages (max_pages : option Z) (total_pages : Z) : Z :=
  match max_pages with
  | Some m => if negb (m =? 0) && (total_pages >? m) then m else total_pages
  | None => total_pages
  end.

(** [int(math.ceil(total_results / page_size))] *)
Definition count_pages (total page_size : Z) : result Z :=
  x <- truediv total page_size ;;
  ceil x.

(** The list comprehension building [other_page_urls]. *)
Definition other_page_urls (next_page_url : string) (page_size total_pages : Z)
  : list string :=
  map (fun i => replace ("oa" ++ str page_size) ("oa" ++ str (page_size * i))
                        next_page_url)
      (range1 total_pages).

(** The loop [for response in asyncio.as_completed(to_scrape)]. *)
Definition extend_results (w : World) (results : list Preview) (response : Response)
  : result (list Preview) :=
  more <- parse_search_page w response ;;
  Ok (results ++ more)%list.

(** [scrape_search_hotel_urls] from the first page on.  The follow-up
    fetches are all started, in the order [asyncio.as_completed] gives
    them, when the loop over the responses begins: they are in the trace
    whatever the loop does then. *)
Definition scrape_from_first_page (w : World) (hotel_search_url : string)
    (max_pages : option Z) : io (list Preview) :=
  first_page <~ get w hotel_search_url ;;
  if negb (status_code first_page =? 200) then ret []
  else
    results <~ lift (parse_search_page w first_page) ;;
    match results with
    | [] => ret []
    | _ :: _ =>
        let page_size := Z.of_nat (List.length results) in
        total_results <~ lift (m <- index0 (re_properties (span_texts first_page)) ;;
                               int_of_str (replace "," "" m)) ;;
        next_page_url <~ lift (urljoin w hotel_search_url
                                       (next_page_href first_page)) ;;
        total_pages <~ lift (count_pages total_results page_size) ;;
        let total_pages := clamp_pages max_pages total_pages in
        let urls := other_page_urls next_page_url page_size total_pages in
        if negb (all_distinct urls) then lift (Raise AssertionError)
        else
          (map GET (started w urls),
           for_each (extend_results w) (as_completed w (map (client_get w) urls))
                    results)
    end.

Definition scrape_search_hotel_urls (w : World) (query : string)
    (max_pages : option Z) : io (list Preview) :=
  match scrape_location_data w query with
  | (t, located) =>
      match l <- located ;; index0 l with
      | Raise IndexError => (t, Ok [])
      | Raise e => (t, Raise e)
      | Ok location_data =>
          _ <~ ((t, Ok tt) : io unit) ;;
          hotel_search_url <~ lift (h <- getitem "HOTELS_URL" location_data ;;
                                    str_add "https://www.tripadvisor.com" h) ;;
          scrape_from_first_page w hotel_search_url max_pages
      end
  end.

End ScrapeSearch.

(** ** scrape_reviews.py *)

Module ScrapeReviews.

Record Review : Type := {
  title : option string;
  text : string;
  rate : option string;
  tripDate : string
}.

Record HotelData : Type := {
  basic_data : json;
  description : option string;
  featues : list string;
  reviews : list Review
}.

(** [json.loads(selector.xpath(...).get())] *)
Definition load_basic_data (response : Response) : result json :=
  match aggregate_rating response with
  | None => Raise TypeError
  | Some script => loads script
  end.

(** Body of the loop over the review containers. *)
Definition parse_review (parsed : list Review) (review : ReviewDiv)
  : result (list Review) :=
  let title := review_title review in
  text <- match review_body review with
          | Some t => Ok (strip (sub_tags t))
          | None => Raise TypeError
          end ;;
  rate <- match review_rating review with
          | Some (String c r) =>
              first <- index0 (split "." (String c r)) ;;
              Ok (Some first)
          | _ => Ok None
          end ;;
  trip_data <- match review_stay review with
               | Some d => Ok (strip d)
               | None => Raise AttributeError
               end ;;
  Ok (parsed ++ [ {| title := title; text := text; rate := rate;
                     tripDate := trip_data |} ])%list.

Definition parse_hotel_page (response : Response) : result HotelData :=
  basic_data <- load_basic_data response ;;
  let description := description_text response in
  let amenities := fold_left (fun acc feature => (acc ++ [feature])%list)
                             (amenity_texts response) [] in
  reviews <- for_each parse_review (review_divs response) [] ;;
  Ok {| basic_data := basic_data; description := description;
        featues := amenities; reviews := reviews |}.

Definition _review_page_size : Z := 10.

(** [if max_review_pages and max_review_pages < total_review_pages] *)
Definition clamp_review_pages (max_review_pages : option Z) (total_review_pages : Z)
  : Z :=
  match max_review_pages with
  | Some m => if negb (m =? 0) && (m <? total_review_pages) then m
              else total_review_pages
  | None => total_review_pages
  end.

(** [math.ceil(total_reviews / _review_page_size)] *)
Definition count_review_pages (total_reviews : Z) : result Z :=
  x <- truediv total_reviews _review_page_size ;;
  ceil x.

(** The list comprehension building [review_urls]. *)
Definition review_urls (url : string) (total_review_pages : Z) : list string :=
  map (fun i => replace "-Reviews-"
                        ("-Reviews-or" ++ str (_review_page_size * i) ++ "-") url)
      (range1 total_review_pages).

(** The loop [for response in responses]. *)
Definition extend_reviews (hotel_data : HotelData) (response : Response)
  : result HotelData :=
  data <- parse_hotel_page response ;;
  Ok {| basic_data := basic_data hotel_data;
        description := description hotel_data;
        featues := featues hotel_data;
        reviews := (reviews hotel_data ++ reviews data)%list |}.

Definition scrape_hotel_reviews (w : World) (url : string)
    (max_review_pages : option Z) : io HotelData :=
  first_page <~ get w url ;;
  if negb (status_code first_page =? 200) then lift (Raise AssertionError)
  else
    hotel_data <~ lift (parse_hotel_page first_page) ;;
    total_reviews <~ lift (a <- getitem "aggregateRating" (basic_data hotel_data) ;;
                           c <- getitem "reviewCount" a ;;
                           Json.int c) ;;
    total_review_pages <~ lift (count_review_pages total_reviews) ;;
    let total_review_pages := clamp_review_pages max_review_pages total_review_pages in
    let urls := review_urls url total_review_pages in
    (map GET urls,
     for_each extend_reviews (map (client_get w) urls) hotel_data).

End ScrapeReviews.

Import ScrapeSearch ScrapeReviews.

(** ** Sample sites

    Small concrete worlds, on which the functions above are run. *)

Module Samples.

Definition site_root : string := "https://www.tripadvisor.com".

(** A page with no node of interest to any selector. *)
Definition blank (status : Z) (u : string) : Response :=
  {| status_code := status; url := u; list_items := []; listing_titles := [];
     span_texts := []; next_page_href := None; aggregate_rating := None;
     description_text := None; amenity_texts := []; review_divs := [] |}.

Definition search_page (u : string) (items : list ListItem)
    (titles : list ListingTitle) (spans : list string) (next : option string)
  : Response :=
  {| status_code := 200; url := u; list_items := items; listing_titles := titles;
     span_texts := spans; next_page_href := next; aggregate_rating := None;
     description_text := None; amenity_texts := []; review_divs := [] |}.

Definition hotel_page (u : string) (data : json) (divs : list ReviewDiv) : Response :=
  {| status_code := 200; url := u; list_items := []; listing_titles := [];
     span_texts := []; next_page_href := None;
     aggregate_rating := Some (Decoded data);
     description_text := Some "A quiet hotel by the sea.";
     amenity_texts := ["Free parking"; "Pool"]; review_divs := divs |}.

(** The site: the listed pages, and a 404 page for any other address. *)
Fixpoint serve (pages : list Response) (u : string) : Response :=
  match pages with
  | [] => blank 404 u
  | p :: rest => if String.eqb (url p) u then p else serve rest u
  end.

(** [urljoin] on the links of the sample pages: a root-relative link is
    joined to the site root, and a link that opens a bracketed host
    without closing it cannot be split. *)
Definition join_to_root (u : string) : option string :=
  if startswith "//[" u then None else Some (site_root ++ u).

(** A world serving [pages], answering the location query with [reply]
    or, without one, with a text that is not JSON, and both starting
    concurrent fetches and delivering their responses
    last first. *)
Definition world (reply : option json) (pages : list Response) : World :=
  {| client_get := serve pages;
     client_post := fun _ => Some (match reply with
                                   | Some data => Decoded data
                                   | None => Malformed
                                   end);
     urljoin_ref := fun _ u => join_to_root u;
     started := @rev string;
     started_perm := fun l => Permutation_sym (Permutation_rev l);
     as_completed := @rev Response;
     as_completed_perm := fun l => Permutation_sym (Permutation_rev l) |}.

(** *** Location replies *)

Definition typeahead (results : list json) : json :=
  JArr [JObj [("data",
    JObj [("Typeahead_autocomplete", JObj [("results", JArr results)])])]].

Definition goa_details : json :=
  JObj [("localizedName", JStr "Goa");
        ("HOTELS_URL", JStr "/Hotels-g297604-Goa-Hotels.html");
        ("placeType", JStr "STATE")].

Definition goa_reply : json :=
  typeahead [JObj [("details", goa_details)];
             JObj [("text", JStr "Goa airport")];
             JObj [("details", JObj [("localizedName", JStr "Goa Velha")])]].

(** A reply whose only candidates are stubs without details. *)
Definition stub_reply : json :=
  typeahead [JObj [("text", JStr "Atlantis")]; JObj [("details", JNull)]].

(** A reply whose only candidate is a text. *)
Definition text_reply : json := typeahead [JStr "Atlantis"].

(** *** Search pages: 5 properties, 2 on a page *)

Definition card (name href : string) : ListItem :=
  {| card_title_texts := ["1. "; name]; card_title_href := Some href |}.

Definition goa_url_1 : string := "https://www.tripadvisor.com/Hotels-g297604-Goa-Hotels.html".
Definition goa_url_2 : string := "https://www.tripadvisor.com/Hotels-g297604-oa2-Goa-Hotels.html".
Definition goa_url_3 : string := "https://www.tripadvisor.com/Hotels-g297604-oa4-Goa-Hotels.html".

Definition goa_page_1 : Response :=
  search_page goa_url_1
    [card "Taj" "/Hotel_Review-d1-Reviews-Taj.html";
     card "Leela" "/Hotel_Review-d2-Reviews-Leela.html"]
    [] ["Goa Hotels"; "5 properties"] (Some "/Hotels-g297604-oa2-Goa-Hotels.html").

Definition goa_page_2 : Response :=
  search_page goa_url_2
    [card "Alila" "/Hotel_Review-d3-Reviews-Alila.html";
     card "Grand" "/Hotel_Review-d4-Reviews-Grand.html"]
    [] ["5 properties"] (Some "/Hotels-g297604-oa4-Goa-Hotels.html").

(** The last page is rendered in the second layout. *)
Definition goa_page_3 : Response :=
  search_page goa_url_3 []
    [ {| listing_href := Some "/Hotel_Review-d5-Reviews-Cidade.html";
         listing_text := Some "5. Cidade" |} ]
    ["5 properties"] None.

Definition goa_world : World :=
  world (Some goa_reply) [goa_page_1; goa_page_2; goa_page_3].

(** The same first page without the count of properties. *)
Definition goa_page_uncounted : Response :=
  search_page goa_url_1 (list_items goa_page_1) [] ["Goa Hotels"]
              (next_page_href goa_page_1).

Definition goa_world_uncounted : World :=
  world (Some goa_reply) [goa_page_uncounted; goa_page_2; goa_page_3].

(** The same first page without its link to the next page. *)
Definition goa_page_unlinked : Response :=
  search_page goa_url_1 (list_items goa_page_1) [] (span_texts goa_page_1) None.

Definition goa_world_unlinked : World :=
  world (Some goa_reply) [goa_page_unlinked; goa_page_2; goa_page_3].

(** The site answering the first search page with a 403. *)
Definition goa_world_blocked : World :=
  world (Some goa_reply) [blank 403 goa_url_1].

(** *** Hotel pages *)

Definition aggregate (review_count : json) : json :=
  JObj [("name", JStr "Le Soleil");
        ("aggregateRating",
         JObj [("ratingValue", JStr "4.5"); ("reviewCount", review_count)])].

Definition full_review (n : string) : ReviewDiv :=
  {| review_title := Some ("Stay " ++ n);
     review_body := Some "<span>Lovely <b>pool</b><br/>and staff</span>";
     review_rating := Some "5.0 of 5 bubbles";
     review_stay := Some " March 2024 " |}.

Definition review_without_title : ReviewDiv :=
  {| review_title := None;
     review_body := review_body (full_review "1");
     review_rating := None;
     review_stay := Some " May 2024" |}.

Definition review_without_stay : ReviewDiv :=
  {| review_title := Some "No date";
     review_body := review_body (full_review "1");
     review_rating := Some "4.0 of 5 bubbles";
     review_stay := None |}.

Definition soleil_url : string :=
  "https://www.tripadvisor.com/Hotel_Review-g190327-d264936-Reviews-Le_Soleil.html".
Definition soleil_url_10 : string :=
  "https://www.tripadvisor.com/Hotel_Review-g190327-d264936-Reviews-or10-Le_Soleil.html".
Definition soleil_url_20 : string :=
  "https://www.tripadvisor.com/Hotel_Review-g190327-d264936-Reviews-or20-Le_Soleil.html".

(** 25 reviews declared; the pages hold 2, 2 and 1 of them. *)
Definition soleil_world : World :=
  world None
    [hotel_page soleil_url (aggregate (JInt 25)) [full_review "1"; review_without_title];
     hotel_page soleil_url_10 (aggregate (JInt 25)) [full_review "3"; full_review "4"];
     hotel_page soleil_url_20 (aggregate (JInt 25)) [full_review "5"]].

(** One review declared, two shown. *)
Definition crowded_world : World :=
  world None
    [hotel_page soleil_url (aggregate (JStr "1")) [full_review "1"; full_review "2"]].

(** A hotel address without the [-Reviews-] segment. *)
Definition plain_url : string := "https://www.tripadvisor.com/Hotel-d264936.html".

Definition plain_world : World :=
  world None [hotel_page plain_url (aggregate (JInt 25)) [full_review "1"]].

(** A page with a review container lacking its date of stay. *)
Definition undated_page : Response :=
  hotel_page soleil_url (aggregate (JInt 2)) [full_review "1"; review_without_stay].

Definition blocked_world : World := world None [blank 403 soleil_url].

End Samples.

Import Samples.

(** ** The search-page strategies, as the specification words them *)

Module Spec.

(** [f] on every element, in order; the first exception wins. *)
Fixpoint traverse {A B : Type} (f : A -> result B) (l : list A) : result (list B) :=
  match l with
  | [] => Ok []
  | x :: l' => y <- f x ;; ys <- traverse f l' ;; Ok (y :: ys)
  end.

(** Primary strategy: one preview per [span.listItem] box, named by the
    second text node of its title link. *)
Definition primary_preview (w : World) (response : Response) (box : ListItem)
  : result Preview :=
  name <- index1 (card_title_texts box) ;;
  joined <- urljoin w (url response) (card_title_href box) ;;
  Ok {| preview_url := joined; preview_name := name |}.

Definition primary_strategy (w : World) (response : Response)
  : result (list Preview) :=
  traverse (primary_preview w response) (list_items response).

(** Secondary strategy: one preview per [div.listing_title>a] anchor,
    named by its text after the rank. *)
Definition secondary_preview (w : World) (response : Response) (a : ListingTitle)
  : result Preview :=
  joined <- urljoin w (url response) (listing_href a) ;;
  Ok {| preview_url := joined;
        preview_name :=
          List.last (split ". " (match listing_text a with
                                 | Some t => t
                                 | None => EmptyString
                                 end)) EmptyString |}.

Definition secondary_strategy (w : World) (response : Response)
  : result (list Preview) :=
  traverse (secondary_preview w response) (listing_titles response).

(** First non-empty wins: the second strategy is attempted when the first
    one yields nothing. *)
Definition first_non_empty (first : list Preview) (second : result (list Preview))
  : result (list Preview) :=
  match first with
  | [] => second
  | _ :: _ => Ok first
  end.

End Spec.

Import Spec.

(** ** scrape_reviews.py: naming and writing the CSV file *)

Module ReviewFiles.

(** [(.*?)-] read from the start of [s]: the characters before the first
    [-]; there is no match when a line feed or the end of [s] comes
    first, as [.] does not match a line feed. *)
Fixpoint lazy_group (s : string) : option string :=
  match s with
  | EmptyString => None
  | String c s' =>
      if Ascii.eqb c "-" then Some EmptyString
      else if Ascii.eqb c "010" then None
      else option_map (String c) (lazy_group s')
  end.

(** [re.search(r'Reviews-(.*?)-', s)]: group 1 of the leftmost match. *)
Fixpoint search_reviews (s : string) : option string :=
  match (if startswith "Reviews-" s then lazy_group (drop 8 s) else None) with
  | Some g => Some g
  | None =>
      match s with
      | EmptyString => None
      | String _ s' => search_reviews s'
      end
  end.

(** A character of [[A-Za-z0-9]]. *)
Definition is_alnum (c : ascii) : bool :=
  let n := nat_of_ascii c in
  ((48 <=? n)%nat && (n <=? 57)%nat) || ((65 <=? n)%nat && (n <=? 90)%nat)
  || ((97 <=? n)%nat && (n <=? 122)%nat).

(** [re.sub(r'[^A-Za-z0-9]+', '_', s)]; [in_run] tells that the run of
    other characters being read is replaced already. *)
Fixpoint sub_non_alnum (in_run : bool) (s : string) : string :=
  match s with
  | EmptyString => EmptyString
  | String c s' =>
      if is_alnum c then String c (sub_non_alnum false s')
      else if in_run then sub_non_alnum true s'
           else String "_" (sub_non_alnum true s')
  end.

Fixpoint lstrip_dash (s : string) : string :=
  match s with
  | EmptyString => EmptyString
  | String c s' => if Ascii.eqb c "-" then lstrip_dash s' else s
  end.

Fixpoint rstrip_dash (s : string) : string :=
  match s with
  | EmptyString => EmptyString
  | String c s' =>
      match rstrip_dash s' with
      | EmptyString => if Ascii.eqb c "-" then EmptyString else String c EmptyString
      | r => String c r
      end
  end.

(** [s.strip('-')] *)
Definition strip_dash (s : string) : string := rstrip_dash (lstrip_dash s).

Definition extract_hotel_name_from_url (url : string) : string :=
  match search_reviews url with
  | Some group1 => strip_dash (sub_non_alnum false group1)
  | None => "hotel"
  end.

(** What [save_to_csv] hands to the file system and to [csv.writer]: the
    folder and the name joined into the path of the file, and the rows
    written, a [None] field being written empty. *)
Record CsvFile : Type := {
  folder : string;
  file_name : string;
  rows : list (list (option string))
}.

Definition review_row (review : Review) : list (option string) :=
  [title review; Some (text review); rate review; Some (tripDate review)].

(** [save_to_csv(hotel_data, url)]: the file written and the name
    returned. *)
Definition save_to_csv (hotel_data : HotelData) (url : string) : CsvFile * string :=
  let hotel_name := extract_hotel_name_from_url url in
  let filename := hotel_name ++ "_reviews.csv" in
  ({| folder := "datasets";
      file_name := filename;
      rows := [Some "Title"; Some "Text"; Some "Rating"; Some "Trip Date"]
              :: map review_row (reviews hotel_data) |},
   filename).

End ReviewFiles.

Import ReviewFiles.

(** ** scrape_hotel.py *)

Module ScrapeHotel.

Record HotelBasics : Type := {
  basic_data : json;
  description : option string;
  features : list string
}.

Definition parse_hotel_page (response : Response) : result HotelBasics :=
  basic_data <- load_basic_data response ;;
  let description := description_text response in
  let amenities := fold_left (fun acc feature => (acc ++ [feature])%list)
                             (amenity_texts response) [] in
  Ok {| basic_data := basic_data; description := description;
        features := amenities |}.

Definition scrape_hotel (w : World) (url : string) : io HotelBasics :=
  first_page <~ get w url ;;
  if negb (status_code first_page =? 200) then lift (Raise AssertionError)
  else lift (parse_hotel_page first_page).

End ScrapeHotel.

(** ** Vocabulary of the statements *)

Module Facts.

Fixpoint all_chars (p : ascii -> bool) (s : string) : bool :=
  match s with
  | EmptyString => true
  | String c s' => p c && all_chars p s'
  end.

Definition first_char (s : string) : option ascii :=
  match s with
  | EmptyString => None
  | String c _ => Some c
  end.

Fixpoint last_char (s : string) : option ascii :=
  match s with
  | EmptyString => None
  | String c EmptyString => Some c
  | String _ s' => last_char s'
  end.

(** No white space at either end. *)
Definition trimmed (s : string) : Prop :=
  (forall c, first_char s = Some c -> is_space c = false) /\
  (forall c, last_char s = Some c -> is_space c = false).

(** [re.search(r'<[^>]+>', s) is None]: at no [<] of [s] does a tag
    start. *)
Fixpoint tag_free (s : string) : bool :=
  match s with
  | EmptyString => true
  | String c s' =>
      (if Ascii.eqb c "<"
       then match tag_rest s' with
            | Some (S (S _)) => false
            | _ => true
            end
       else true) && tag_free s'
  end.

(** The address [h] of a link found on [response] can be joined to the
    address of the page. *)
Definition joins (w : World) (response : Response) (h : option string) : bool :=
  match urljoin w (url response) h with
  | Ok _ => true
  | Raise _ => false
  end.

(** A [span.listItem] box with fewer than two text nodes in its title
    link. *)
Definition short_box (box : ListItem) : bool :=
  (List.length (card_title_texts box) <? 2)%nat.

(** A box of which the first loop of [parse_search_page] makes a
    preview. *)
Definition sound_box (w : World) (response : Response) (box : ListItem) : bool :=
  negb (short_box box) && joins w response (card_title_href box).

(** The characters a file name made by [save_to_csv] may hold. *)
Definition is_name_char (c : ascii) : bool :=
  is_alnum c || Ascii.eqb c "_" || Ascii.eqb c ".".

(** The search paginator has resolved the location of [query] to the
    path [h], read [results] on the first page, no list empty, and parsed
    the count [T]. *)
Definition counted (w : World) (query h : string) (results : list Preview)
    (T : Z) : Prop :=
  let first_page := client_get w ("https://www.tripadvisor.com" ++ h) in
  (exists loc rest,
     scrape_location_data w query = ([POST query], Ok (loc :: rest)) /\
     getitem "HOTELS_URL" loc = Ok (JStr h)) /\
  status_code first_page = 200 /\
  parse_search_page w first_page = Ok results /\
  results <> [] /\
  (exists m ms, re_properties (span_texts first_page) = m :: ms /\
                int_of_str (replace "," "" m) = Ok T).

(** It has then resolved the link to the next page to the address [next]
    and computed [P] pages from the count. *)
Definition paginating (w : World) (query h : string) (results : list Preview)
    (T P : Z) (next : string) : Prop :=
  let u := "https://www.tripadvisor.com" ++ h in
  counted w query h results T /\
  urljoin w u (next_page_href (client_get w u)) = Ok next /\
  count_pages T (Z.of_nat (List.length results)) = Ok P.

(** The review paginator has read the record [data] on the first page of
    [url], the declared count [rc], and computed [P] pages from it. *)
Definition reviewing (w : World) (url : string) (data : HotelData) (rc P : Z)
  : Prop :=
  status_code (client_get w url) = 200 /\
  parse_hotel_page (client_get w url) = Ok data /\
  (exists agg c, getitem "aggregateRating" (ScrapeReviews.basic_data data) = Ok agg /\
                 getitem "reviewCount" agg = Ok c /\
                 Json.int c = Ok rc) /\
  count_review_pages rc = Ok P.

(** A review container with its body node and its date-of-stay node. *)
Definition has_body_and_stay (d : ReviewDiv) : bool :=
  match review_body d, review_stay d with
  | Some _, Some _ => true
  | _, _ => false
  end.

(** A decoded JSON object. *)
Definition is_object (r : json) : bool :=
  match r with
  | JObj _ => true
  | _ => false
  end.

(** What the resolver keeps of one raw result. *)
Definition kept_details (r : json) : list json :=
  match r with
  | JObj fields =>
      match lookup "details" fields with
      | Some details => if truthy details then [details] else []
      | None => []
      end
  | _ => []
  end.

(** The record without its reviews. *)
Definition basics (data : HotelData) : ScrapeHotel.HotelBasics :=
  {| ScrapeHotel.basic_data := ScrapeReviews.basic_data data;
     ScrapeHotel.description := ScrapeReviews.description data;
     ScrapeHotel.features := featues data |}.

End Facts.

Import Facts.

(** ** Further sample values *)

Module MoreSamples.

(** The raw results of [goa_reply]: the second one is a stub. *)
Definition goa_raw_results : list json :=
  [JObj [("details", goa_details)];
   JObj [("text", JStr "Goa airport")];
   JObj [("details", JObj [("localizedName", JStr "Goa Velha")])]].

(** The previews of the pages of [goa_world]. *)
Definition preview_taj : Preview :=
  {| preview_url := "https://www.tripadvisor.com/Hotel_Review-d1-Reviews-Taj.html";
     preview_name := "Taj" |}.
Definition preview_leela : Preview :=
  {| preview_url := "https://www.tripadvisor.com/Hotel_Review-d2-Reviews-Leela.html";
     preview_name := "Leela" |}.
Definition preview_alila : Preview :=
  {| preview_url := "https://www.tripadvisor.com/Hotel_Review-d3-Reviews-Alila.html";
     preview_name := "Alila" |}.
Definition preview_grand : Preview :=
  {| preview_url := "https://www.tripadvisor.com/Hotel_Review-d4-Reviews-Grand.html";
     preview_name := "Grand" |}.
Definition preview_cidade : Preview :=
  {| preview_url := "https://www.tripadvisor.com/Hotel_Review-d5-Reviews-Cidade.html";
     preview_name := "Cidade" |}.

Definition goa_first_previews : list Preview := [preview_taj; preview_leela].

(** The second page of the search with a card whose title link holds a
    single text node. *)
Definition goa_page_2_broken : Response :=
  search_page goa_url_2
    [card "Alila" "/Hotel_Review-d3-Reviews-Alila.html";
     {| card_title_texts := ["Grand"];
        card_title_href := Some "/Hotel_Review-d4-Reviews-Grand.html" |}]
    [] ["5 properties"] (Some "/Hotels-g297604-oa4-Goa-Hotels.html").

Definition goa_world_broken : World :=
  world (Some goa_reply) [goa_page_1; goa_page_2_broken; goa_page_3].

(** The first page of the search with a link to the next page that
    [urljoin] cannot split. *)
Definition goa_page_unsplit : Response :=
  search_page goa_url_1 (list_items goa_page_1) [] (span_texts goa_page_1)
              (Some "//[").

Definition goa_world_unsplit : World :=
  world (Some goa_reply) [goa_page_unsplit; goa_page_2; goa_page_3].

(** A page rendered in both layouts, whose only box has a title link with
    a single text node. *)
Definition goa_page_mixed : Response :=
  search_page goa_url_3
    [ {| card_title_texts := ["Cidade"];
         card_title_href := Some "/Hotel_Review-d5-Reviews-Cidade.html" |} ]
    [ {| listing_href := Some "/Hotel_Review-d5-Reviews-Cidade.html";
         listing_text := Some "5. Cidade" |} ]
    ["5 properties"] None.

(** The reviews of the first page of [soleil_world]. *)
Definition soleil_first_reviews : list Review :=
  [ {| title := Some "Stay 1"; text := "Lovely pooland staff";
       rate := Some "5"; tripDate := "March 2024" |};
    {| title := None; text := "Lovely pooland staff";
       rate := None; tripDate := "May 2024" |} ].

Definition soleil_first_record : HotelData :=
  {| ScrapeReviews.basic_data := aggregate (JInt 25);
     ScrapeReviews.description := Some "A quiet hotel by the sea.";
     featues := ["Free parking"; "Pool"];
     reviews := soleil_first_reviews |}.

(** The hotel site answering the last page of reviews with a page that
    has no aggregate script. *)
Definition soleil_world_interrupted : World :=
  world None
    [hotel_page soleil_url (aggregate (JInt 25)) [full_review "1"; review_without_title];
     hotel_page soleil_url_10 (aggregate (JInt 25)) [full_review "3"; full_review "4"];
     blank 403 soleil_url_20].

(** A site answering the location query with bytes that are not text. *)
Definition garbled_world : World :=
  {| client_get := serve [];
     client_post := fun _ => None;
     urljoin_ref := fun _ u => join_to_root u;
     started := @rev string;
     started_perm := fun l => Permutation_sym (Permutation_rev l);
     as_completed := @rev Response;
     as_completed_perm := fun l => Permutation_sym (Permutation_rev l) |}.

(** A hotel page whose script holds an integer of more digits than [int]
    accepts. *)
Definition long_count_page : Response :=
  {| status_code := 200; url := soleil_url; list_items := []; listing_titles := [];
     span_texts := []; next_page_href := None;
     aggregate_rating := Some LongInteger;
     description_text := None; amenity_texts := []; review_divs := [] |}.

(** [n] times the digit 9. *)
Definition nines (n : Z) : string :=
  String.concat "" (List.repeat "9" (Z.to_nat n)).

(** A record without reviews. *)
Definition empty_record : HotelData :=
  {| ScrapeReviews.basic_data := JNull; ScrapeReviews.description := None;
     featues := []; reviews := [] |}.

(** A place known to the site, without hotels. *)
Definition atlantis_details : json :=
  JObj [("localizedName", JStr "Atlantis"); ("HOTELS_URL", JNull)].

Definition atlantis_world : World :=
  world (Some (typeahead [JObj [("details", atlantis_details)]])) [].

End MoreSamples.

Import MoreSamples.

(** * Properties *)

Arguments Py.startswith : simpl never.

(** Closed facts are settled by running the functions. *)
Ltac by_run := repeat split; vm_compute; reflexivity.

(** ** The primitives on sample values

    The right-hand sides are what the Python interpreter returns. *)

Lemma findall_properties_samples :
  findall_properties_from 0 "1,234 properties" = ["1,234"] /\
  findall_properties_from 0 "12,,34 properties" = ["12,,34"] /\
  findall_properties_from 0 "a,34 properties" = [",34"] /\
  findall_properties_from 0 "12 34 properties" = ["34"] /\
  findall_properties_from 0 "12, properties" = [] /\
  findall_properties_from 0 "1 properties 22 properties" = ["1"; "22"] /\
  findall_properties_from 0 "1,2,3 properties" = ["2,3"] /\
  findall_properties_from 0 "over 1,050 properties found" = ["1,050"].
Proof. by_run. Qed.

Lemma sub_tags_samples :
  sub_tags "<span>Lovely <b>pool</b><br/>and staff</span>" = "Lovely pooland staff" /\
  sub_tags "a <> b" = "a <> b" /\
  sub_tags "<<a>>" = ">" /\
  sub_tags "1 < 2 and 3 > 2" = "1  2" /\
  sub_tags "a<b" = "a<b".
Proof. by_run. Qed.

Lemma replace_samples :
  replace "oa30" "oa60" "/Hotels-g1-oa30-Goa-oa30.html" = "/Hotels-g1-oa60-Goa-oa60.html" /\
  replace "aa" "b" "aaaaa" = "bba" /\
  replace "oa30" "oa60" "/Hotels-g1-Goa.html" = "/Hotels-g1-Goa.html".
Proof. by_run. Qed.

Lemma split_samples :
  split ". " "1. Hotel. Goa" = ["1"; "Hotel"; "Goa"] /\
  split "." "5.0 of 5 bubbles" = ["5"; "0 of 5 bubbles"] /\
  split "." "" = [""] /\
  split "aa" "aaaaa" = [""; ""; "a"].
Proof. by_run. Qed.

Lemma int_of_str_samples :
  int_of_str " 1_000 " = Ok 1000 /\
  int_of_str "-5" = Ok (-5) /\
  int_of_str "" = Raise ValueError /\
  int_of_str "1__0" = Raise ValueError /\
  int_of_str "007" = Ok 7 /\
  int_of_str "+ 5" = Raise ValueError /\
  int_of_str "12a" = Raise ValueError /\
  int_of_str "1,234" = Raise ValueError.
Proof. by_run. Qed.

(** The longest literal [int] accepts has 4300 digits. *)
Lemma int_of_str_limit :
  int_of_str (nines 4300) = Ok (10 ^ 4300 - 1) /\
  int_of_str (nines 4301) = Raise ValueError /\
  int_of_str ("-" ++ nines 4300) = Ok (1 - 10 ^ 4300) /\
  int_of_str ("0" ++ nines 4300) = Raise ValueError.
Proof. split; [|split; [|split]]; vm_compute; reflexivity. Qed.

Lemma truediv_ceil_samples :
  (x <- truediv (47) 10 ;; ceil x) = Ok (5) /\
  (x <- truediv (25) 10 ;; ceil x) = Ok (3) /\
  (x <- truediv (0) 10 ;; ceil x) = Ok (0) /\
  (x <- truediv (-5) 10 ;; ceil x) = Ok (0) /\
  (x <- truediv (100000000000000001) 10 ;; ceil x) = Ok (10000000000000000) /\
  (x <- truediv (9007199254740993) 1 ;; ceil x) = Ok (9007199254740992) /\
  (x <- truediv (1) 3 ;; ceil x) = Ok (1).
Proof. by_run. Qed.

(** [truediv] against the division of [SpecFloat] at binary64. *)
Lemma truediv_SFdiv_samples :
  truediv 47 10
    = Ok (SFdiv 53 1024 (S754_finite false 47 0) (S754_finite false 10 0)) /\
  truediv 1 3
    = Ok (SFdiv 53 1024 (S754_finite false 1 0) (S754_finite false 3 0)) /\
  truediv (-25) 10
    = Ok (SFdiv 53 1024 (S754_finite true 25 0) (S754_finite false 10 0)) /\
  truediv 100000000000000001 10
    = Ok (SFdiv 53 1024 (S754_finite false 100000000000000001 0)
                        (S754_finite false 10 0)) /\
  truediv 7 100000000000000000000000
    = Ok (SFdiv 53 1024 (S754_finite false 7 0)
                        (S754_finite false 100000000000000000000000 0)).
Proof. by_run. Qed.

(** ** Strings *)

Lemma append_nil_r (s : string) : s ++ "" = s.
Proof. induction s; simpl; congruence. Qed.

Lemma append_assoc (a b c : string) : (a ++ b) ++ c = a ++ b ++ c.
Proof. induction a; simpl; congruence. Qed.

Lemma length_append (a b : string) :
  String.length (a ++ b) = (String.length a + String.length b)%nat.
Proof. induction a; simpl; congruence. Qed.

Lemma append_inv_head (a b c : string) : a ++ b = a ++ c -> b = c.
Proof. induction a; simpl; intros H; [assumption|]. injection H. auto. Qed.

Lemma append_inj_length (a b c d : string) :
  String.length a = String.length c -> a ++ b = c ++ d -> a = c.
Proof.
  revert c. induction a as [|x a IH]; intros [|y c]; simpl; try discriminate; auto.
  intros L E. injection L as L. injection E as -> E. f_equal. eauto.
Qed.

Lemma startswith_append (x b : string) : startswith x (x ++ b) = true.
Proof.
  unfold startswith. induction x as [|c x IH]; simpl.
  - destruct b; reflexivity.
  - destruct (ascii_dec c c); [assumption|congruence].
Qed.

Lemma contains_append (x a b : string) : contains x (a ++ x ++ b) = true.
Proof.
  induction a as [|c a IH]; simpl.
  - assert (U : forall s, startswith x s = true -> contains x s = true).
    { intros s H. destruct s; cbn [contains]; rewrite H; reflexivity. }
    apply U, startswith_append.
  - rewrite IH. apply orb_true_r.
Qed.

Lemma split_from_nonempty sep skip cur s : split_from sep skip cur s <> [].
Proof.
  revert skip cur. induction s as [|c s IH]; intros skip cur; simpl.
  - discriminate.
  - destruct skip; [|apply IH].
    destruct (startswith sep (String c s)); [discriminate|apply IH].
Qed.

(** [s.replace(old, new)] is [new.join(s.split(old))]. *)
Lemma replace_from_join old new skip cur s :
  String.concat new (split_from old skip cur s) = cur ++ replace_from old new skip s.
Proof.
  revert skip cur. induction s as [|c s IH]; intros skip cur; simpl.
  - symmetry. apply append_nil_r.
  - destruct skip; [|apply IH].
    destruct (startswith old (String c s)).
    + specialize (IH (String.length old - 1)%nat "").
      destruct (split_from old (String.length old - 1) "" s) eqn:E.
      * exfalso. eapply split_from_nonempty, E.
      * change (String.concat new (cur :: s0 :: l))
          with (cur ++ new ++ String.concat new (s0 :: l)).
        rewrite IH. reflexivity.
    + rewrite IH, append_assoc. reflexivity.
Qed.

Lemma replace_join old new s :
  replace old new s = String.concat new (split old s).
Proof. unfold replace, split. rewrite replace_from_join. reflexivity. Qed.

Lemma split_from_absent old cur s :
  contains old s = false -> split_from old 0 cur s = [cur ++ s].
Proof.
  revert cur. induction s as [|c s IH]; intros cur H; simpl in *.
  - rewrite append_nil_r. reflexivity.
  - apply orb_false_iff in H. destruct H as [H1 H2].
    rewrite H1, IH, append_assoc by assumption. reflexivity.
Qed.

Lemma split_from_present old cur s :
  old <> "" -> contains old s = true ->
  exists p q l, split_from old 0 cur s = p :: q :: l.
Proof.
  intros Hold. revert cur. induction s as [|c s IH]; intros cur H; simpl in *.
  - destruct old; [congruence|discriminate].
  - destruct (startswith old (String c s)) eqn:E.
    + destruct (split_from old (String.length old - 1) "" s) eqn:E2.
      * exfalso. eapply split_from_nonempty, E2.
      * eauto.
    + apply IH. assumption.
Qed.

(** Without an occurrence of [old], [replace] changes nothing. *)
Lemma replace_absent old new s : contains old s = false -> replace old new s = s.
Proof.
  intros H. rewrite replace_join. unfold split. rewrite split_from_absent by assumption.
  reflexivity.
Qed.

Lemma length_concat sep l :
  String.length (String.concat sep l) =
  (String.length (String.concat "" l) + (List.length l - 1) * String.length sep)%nat.
Proof.
  induction l as [|x l IH]; simpl; [reflexivity|].
  destruct l as [|y l].
  - simpl. lia.
  - rewrite !length_append, IH. simpl. lia.
Qed.

Lemma concat_sep_inj (n1 n2 p q : string) (l : list string) :
  String.concat n1 (p :: q :: l) = String.concat n2 (p :: q :: l) -> n1 = n2.
Proof.
  intros E.
  assert (L : String.length n1 = String.length n2).
  { apply (f_equal String.length) in E. rewrite (length_concat n1), (length_concat n2) in E.
    apply Nat.add_cancel_l in E.
    change (List.length (p :: q :: l) - 1)%nat with (S (List.length l)) in E.
    apply Nat.mul_cancel_l in E; [assumption|discriminate]. }
  simpl in E. apply append_inv_head in E.
  eapply append_inj_length; eassumption.
Qed.

(** Two different replacement texts give two different strings, when
    there is something to replace. *)
Lemma replace_inj old n1 n2 s :
  old <> "" -> contains old s = true ->
  replace old n1 s = replace old n2 s -> n1 = n2.
Proof.
  intros Hold Hc. rewrite !replace_join. unfold split.
  destruct (split_from_present old "" s Hold Hc) as (p & q & l & ->).
  apply concat_sep_inj.
Qed.

(** The replacement text occurs in the result. *)
Lemma replace_contains old new s :
  old <> "" -> contains old s = true -> contains new (replace old new s) = true.
Proof.
  intros Hold Hc. rewrite replace_join. unfold split.
  destruct (split_from_present old "" s Hold Hc) as (p & q & l & ->).
  simpl. apply contains_append.
Qed.

Lemma str_inj a b : str a = str b -> a = b.
Proof.
  unfold str. intros E. apply DecimalZ.to_int_inj.
  assert (N : forall z, NilZero.int_of_string (NilZero.string_of_int (Z.to_int z))
                        = Some (Z.to_int z)).
  { intros z. apply NilZero.isi; destruct z; simpl; try discriminate;
      intros [= H]; eapply DecimalPos.Unsigned.to_uint_nonnil, H. }
  apply (f_equal NilZero.int_of_string) in E. rewrite !N in E. congruence.
Qed.

(** ** Lists *)

Lemma length_range1 n : List.length (range1 n) = Z.to_nat (n - 1).
Proof. unfold range1. rewrite length_map, length_seq. reflexivity. Qed.

Lemma nth_error_range1 n i :
  1 <= i < n -> nth_error (range1 n) (Z.to_nat (i - 1)) = Some i.
Proof.
  intros H. unfold range1. rewrite nth_error_map.
  rewrite nth_error_seq.
  destruct (Nat.ltb_spec (Z.to_nat (i - 1)) (Z.to_nat (n - 1))); [|lia].
  simpl. f_equal. lia.
Qed.

Lemma in_range1 n i : In i (range1 n) <-> 1 <= i < n.
Proof.
  unfold range1. rewrite in_map_iff. split.
  - intros (k & <- & Hk). apply in_seq in Hk. lia.
  - intros H. exists (Z.to_nat (i - 1)). split; [lia|]. apply in_seq. lia.
Qed.

Lemma NoDup_range1 n : NoDup (range1 n).
Proof.
  unfold range1. apply Injective_map_NoDup; [|apply seq_NoDup].
  intros x y H. lia.
Qed.

Lemma all_distinct_NoDup l : all_distinct l = true <-> NoDup l.
Proof.
  induction l as [|x l IH]; simpl.
  - split; [constructor|reflexivity].
  - rewrite andb_true_iff, negb_true_iff, IH. split.
    + intros [H1 H2]. constructor; [|assumption]. intros Hin.
      assert (existsb (String.eqb x) l = true); [|congruence].
      apply existsb_exists. exists x. split; [assumption|apply String.eqb_refl].
    + intros H. inversion H as [|? ? Hn Hd]; subst. split; [|assumption].
      apply not_true_is_false. intros Hex. apply existsb_exists in Hex.
      destruct Hex as (y & Hy & Heq). apply String.eqb_eq in Heq. subst. auto.
Qed.

(** ** Floating-point division followed by [math.ceil] *)

Lemma round_half_even_cases a b :
  round_half_even a b = a / b \/ round_half_even a b = a / b + 1.
Proof.
  unfold round_half_even.
  destruct (2 * (a mod b) ?= b); [destruct (Z.even (a / b))| |]; auto.
Qed.

Lemma round_half_even_exact a b :
  0 < b -> a mod b = 0 -> round_half_even a b = a / b.
Proof.
  intros Hb Hr. unfold round_half_even. rewrite Hr.
  change (2 * 0) with 0. destruct (Z.compare_spec 0 b); try lia; reflexivity.
Qed.

Lemma round_half_even_up a b :
  b < 2 * (a mod b) -> round_half_even a b = a / b + 1.
Proof.
  intros H. unfold round_half_even.
  destruct (Z.compare_spec (2 * (a mod b)) b); try lia; reflexivity.
Qed.

(** Below [2^53] the exponent of the quotient is not positive, and the
    scaled quotient has its 53 bits. *)
Lemma float_exponent_small a b :
  0 < a < 2 ^ 53 -> 0 < b < 2 ^ 53 ->
  exists s, 0 <= s <= 105 /\ float_exponent a b = - s /\
            scale_num a (- s) = a * 2 ^ s /\ scale_den b (- s) = b /\
            2 ^ 52 * b <= a * 2 ^ s.
Proof.
  intros Ha Hb.
  assert (La := Z.log2_spec a ltac:(lia)).
  assert (Lb := Z.log2_spec b ltac:(lia)).
  assert (La0 := Z.log2_nonneg a). assert (Lb0 := Z.log2_nonneg b).
  assert (La53 : Z.log2 a < 53) by (apply Z.log2_lt_pow2; lia).
  assert (Lb53 : Z.log2 b < 53) by (apply Z.log2_lt_pow2; lia).
  set (la := Z.log2 a) in *. set (lb := Z.log2 b) in *.
  assert (Hsc : forall s, 0 <= s ->
                scale_num a (- s) = a * 2 ^ s /\ scale_den b (- s) = b).
  { intros s Hs. unfold scale_num, scale_den.
    destruct (Z.ltb_spec (- s) 0).
    - rewrite Z.opp_involutive. auto.
    - assert (s = 0) by lia. subst s. simpl. split; lia. }
  unfold float_exponent. fold la lb.
  assert (Hk : la - lb - 52 = - (52 - la + lb)) by lia.
  destruct (Z.ltb_spec (scale_num a (la - lb - 52) / scale_den b (la - lb - 52))
                       (2 ^ 52)) as [Hq|Hq].
  - exists (53 - la + lb). replace (la - lb - 53) with (- (53 - la + lb)) by lia.
    destruct (Hsc (53 - la + lb) ltac:(lia)) as [-> ->].
    repeat split; try lia.
    replace (53 - la + lb) with ((lb + 1) + (52 - la)) by lia.
    rewrite Z.pow_add_r by lia.
    assert (P : 2 ^ 52 = 2 ^ la * 2 ^ (52 - la)).
    { rewrite <- Z.pow_add_r by lia. f_equal. lia. }
    rewrite P.
    assert (0 < 2 ^ (52 - la)) by (apply Z.pow_pos_nonneg; lia).
    assert (0 < 2 ^ la) by (apply Z.pow_pos_nonneg; lia).
    replace (Z.succ lb) with (lb + 1) in Lb by lia.
    transitivity (a * 2 ^ (52 - la) * b); [nia|].
    transitivity (a * 2 ^ (52 - la) * 2 ^ (lb + 1)); [|lia].
    apply Z.mul_le_mono_nonneg_l; nia.
  - rewrite Hk in *.
    destruct (Hsc (52 - la + lb) ltac:(lia)) as [E1 E2].
    rewrite E1, E2 in Hq.
    exists (52 - la + lb). repeat split; try lia; auto.
    assert (M := Z.mul_div_le (a * 2 ^ (52 - la + lb)) b ltac:(lia)).
    nia.
Qed.

(** [ceil(m / 2^s) = c] from the bounds on [m]. *)
Lemma ceil_div_pow2 m s c :
  0 <= s -> (c - 1) * 2 ^ s < m <= c * 2 ^ s -> - ((- m) / 2 ^ s) = c.
Proof.
  intros Hs [Hlo Hhi].
  assert (P : 0 < 2 ^ s) by (apply Z.pow_pos_nonneg; lia).
  assert (E : (- m) / 2 ^ s = - c); [|lia].
  symmetry. apply (Z.div_unique_pos _ _ _ (c * 2 ^ s - m)); lia.
Qed.

(** [(a + b - 1) / b] is the ceiling of [a / b]. *)
Lemma ceil_quotient_spec a b :
  0 < b ->
  ((a + b - 1) / b - 1) * b < a <= (a + b - 1) / b * b.
Proof.
  intros Hb.
  assert (D := Z.div_mod (a + b - 1) b ltac:(lia)).
  assert (M := Z.mod_pos_bound (a + b - 1) b Hb).
  nia.
Qed.

(** On integers below [2^53], [math.ceil(a / b)] is the exact ceiling:
    the rounding of the quotient to binary64 never crosses an integer. *)
Lemma truediv_ceil_nonnegative a b :
  0 <= a < 2 ^ 53 -> 0 < b < 2 ^ 53 ->
  (x <- truediv a b ;; ceil x) = Ok ((a + b - 1) / b).
Proof.
  intros Ha Hb. unfold truediv.
  destruct (Z.eqb_spec b 0) as [|_]; [lia|].
  destruct (Z.eqb_spec a 0) as [->|Ha0].
  - simpl. f_equal. symmetry. apply Z.div_small. lia.
  - destruct (float_exponent_small a b ltac:(lia) Hb)
      as (s & Hs & He & Hn & Hd & Hlow).
    rewrite (Z.abs_eq a), (Z.abs_eq b) by lia.
    rewrite He, Hn, Hd.
    destruct (Z.ltb_spec a 0) as [|_]; [lia|].
    destruct (Z.ltb_spec b 0) as [|_]; [lia|]. simpl xorb.
    set (c := (a + b - 1) / b).
    destruct (ceil_quotient_spec a b ltac:(lia)) as [Clo Chi].
    fold c in Clo, Chi.
    assert (P : 0 < 2 ^ s) by (apply Z.pow_pos_nonneg; lia).
    set (A := a * 2 ^ s) in *.
    assert (D := Z.div_mod A b ltac:(lia)).
    assert (M := Z.mod_pos_bound A b ltac:(lia)).
    assert (Hs1 : b < 2 * 2 ^ s).
    { assert (A < 2 ^ 53 * 2 ^ s) by (unfold A; nia).
      change (2 ^ 53) with (2 * 2 ^ 52) in H. nia. }
    assert (Hm : (c - 1) * 2 ^ s < round_half_even A b <= c * 2 ^ s).
    { assert (Qhi : A / b <= c * 2 ^ s).
      { apply Z.div_le_upper_bound; [lia|]. unfold A. nia. }
      assert (Qlo : (c - 1) * 2 ^ s <= A / b).
      { apply Z.div_le_lower_bound; [lia|]. unfold A. nia. }
      split.
      - destruct (Z.eq_dec (A / b) ((c - 1) * 2 ^ s)) as [Eq|Ne].
        + rewrite round_half_even_up; [lia|].
          assert (2 ^ s <= A mod b); [|lia].
          assert (A - b * ((c - 1) * 2 ^ s) >= 2 ^ s) by (unfold A; nia).
          rewrite Eq in D. lia.
        + destruct (round_half_even_cases A b) as [-> | ->]; lia.
      - destruct (Z.eq_dec (A / b) (c * 2 ^ s)) as [Eq|Ne].
        + rewrite round_half_even_exact; [lia|lia|].
          rewrite Eq in D. unfold A in *. nia.
        + destruct (round_half_even_cases A b) as [-> | ->]; lia. }
    assert (Hc : 0 < c) by nia.
    assert (Hpos : 0 < round_half_even A b) by nia.
    assert (Hnov : round_half_even A b < 2 ^ (1024 - - s)).
    { assert (A / b <= A) by (apply Z.div_le_upper_bound; nia).
      destruct Hm as [_ Hm].
      assert (c <= a) by nia.
      assert (c * 2 ^ s < 2 ^ 53 * 2 ^ s) by nia.
      rewrite <- Z.pow_add_r in H1 by lia.
      eapply Z.lt_le_trans; [|apply Z.pow_le_mono_r with (b := 53 + s); lia]. lia. }
    destruct (Z.leb_spec (2 ^ (1024 - - s)) (round_half_even A b)) as [|_]; [lia|].
    destruct (round_half_even A b) as [|p|p] eqn:Ep; try lia.
    simpl bind. unfold ceil. f_equal.
    destruct (Z.ltb_spec (- s) 0).
    + rewrite Z.opp_involutive. change (Z.neg p) with (- Z.pos p).
      apply ceil_div_pow2; lia.
    + assert (s = 0) by lia. subst s. simpl in *. lia.
Qed.

(** The same for a negative numerator, where the ceiling is the opposite
    of a floor. *)
Lemma floor_div_pow2 m s f :
  0 <= s -> f * 2 ^ s <= m < (f + 1) * 2 ^ s -> m / 2 ^ s = f.
Proof.
  intros Hs H.
  assert (P : 0 < 2 ^ s) by (apply Z.pow_pos_nonneg; lia).
  symmetry. apply (Z.div_unique_pos _ _ _ (m - f * 2 ^ s)); lia.
Qed.

Lemma ceil_quotient_opp a b :
  0 < b -> (a + b - 1) / b = - ((- a) / b).
Proof.
  intros Hb.
  assert (D := Z.div_mod (- a) b ltac:(lia)).
  assert (M := Z.mod_pos_bound (- a) b Hb).
  symmetry. apply (Z.div_unique_pos _ _ _ (b - 1 - (- a) mod b)); lia.
Qed.

Lemma truediv_ceil_negative a b :
  - 2 ^ 53 < a < 0 -> 0 < b < 2 ^ 53 ->
  (x <- truediv a b ;; ceil x) = Ok ((a + b - 1) / b).
Proof.
  intros Ha Hb. rewrite ceil_quotient_opp by lia. unfold truediv.
  destruct (Z.eqb_spec b 0) as [|_]; [lia|].
  destruct (Z.eqb_spec a 0) as [|_]; [lia|].
  destruct (float_exponent_small (- a) b ltac:(lia) Hb)
    as (s & Hs & He & Hn & Hd & Hlow).
  rewrite (Z.abs_neq a), (Z.abs_eq b) by lia.
  rewrite He, Hn, Hd.
  destruct (Z.ltb_spec a 0) as [_|]; [|lia].
  destruct (Z.ltb_spec b 0) as [|_]; [lia|]. simpl xorb.
  set (a' := - a) in *. set (f := a' / b).
  assert (Df := Z.div_mod a' b ltac:(lia)).
  assert (Mf := Z.mod_pos_bound a' b ltac:(lia)). fold f in Df.
  assert (P : 0 < 2 ^ s) by (apply Z.pow_pos_nonneg; lia).
  set (A := a' * 2 ^ s) in *.
  assert (D := Z.div_mod A b ltac:(lia)).
  assert (M := Z.mod_pos_bound A b ltac:(lia)).
  assert (Hs1 : b < 2 * 2 ^ s).
  { assert (A < 2 ^ 53 * 2 ^ s) by (unfold A; nia).
    change (2 ^ 53) with (2 * 2 ^ 52) in H. nia. }
  assert (Qlo : f * 2 ^ s <= A / b).
  { apply Z.div_le_lower_bound; [lia|]. unfold A. nia. }
  assert (Qhi : A / b < (f + 1) * 2 ^ s).
  { apply Z.div_lt_upper_bound; [lia|]. unfold A. nia. }
  assert (Hm : f * 2 ^ s <= round_half_even A b < (f + 1) * 2 ^ s).
  { split.
    - destruct (round_half_even_cases A b) as [-> | ->]; lia.
    - destruct (Z.eq_dec (A / b) ((f + 1) * 2 ^ s - 1)) as [Eq|Ne].
      + assert (2 * (A mod b) < b).
        { assert (A <= (f + 1) * 2 ^ s * b - 2 ^ s) by (unfold A; nia).
          rewrite Eq in D. nia. }
        unfold round_half_even.
        destruct (Z.compare_spec (2 * (A mod b)) b); lia.
      + destruct (round_half_even_cases A b) as [-> | ->]; lia. }
  assert (Hpos : 0 < round_half_even A b).
  { assert (2 ^ 52 <= A / b) by (apply Z.div_le_lower_bound; lia).
    destruct (round_half_even_cases A b) as [-> | ->]; lia. }
  assert (Hnov : round_half_even A b < 2 ^ (1024 - - s)).
  { assert (f <= a').
    { apply Z.div_le_upper_bound; nia. }
    assert ((f + 1) * 2 ^ s <= 2 ^ 53 * 2 ^ s) by nia.
    rewrite <- Z.pow_add_r in H0 by lia.
    eapply Z.lt_le_trans; [|apply Z.pow_le_mono_r with (b := 53 + s); lia]. lia. }
  destruct (Z.leb_spec (2 ^ (1024 - - s)) (round_half_even A b)) as [|_]; [lia|].
  destruct (round_half_even A b) as [|p|p] eqn:Ep; try lia.
  simpl bind. unfold ceil. f_equal.
  destruct (Z.ltb_spec (- s) 0).
  + rewrite Z.opp_involutive. change (- Z.neg p) with (Z.pos p).
    f_equal. apply floor_div_pow2; lia.
  + assert (s = 0) by lia. subst s.
    change (- (0)) with 0. rewrite Z.pow_0_r in *. lia.
Qed.

Lemma truediv_ceil_exact a b :
  - 2 ^ 53 < a < 2 ^ 53 -> 0 < b < 2 ^ 53 ->
  (x <- truediv a b ;; ceil x) = Ok ((a + b - 1) / b).
Proof.
  intros Ha Hb. destruct (Z.lt_ge_cases a 0).
  - apply truediv_ceil_negative; lia.
  - apply truediv_ceil_nonnegative; lia.
Qed.

(** ** Loops and coroutines *)

Lemma index_last_last {A : Type} (l : list A) (d : A) :
  l <> [] -> index_last l = Ok (List.last l d).
Proof.
  induction l as [|x l IH]; [congruence|]. intros _.
  destruct l as [|y l]; [reflexivity|].
  change (index_last (x :: y :: l)) with (index_last (y :: l)).
  change (List.last (x :: y :: l) d) with (List.last (y :: l) d).
  apply IH. discriminate.
Qed.

(** The first loop of [parse_search_page] appends the previews of the
    primary strategy to its accumulator. *)
Lemma for_each_list_items w response l acc :
  for_each (parse_list_item w response) l acc =
  (ys <- traverse (primary_preview w response) l ;; Ok (acc ++ ys)%list).
Proof.
  revert acc. induction l as [|box l IH]; intros acc; simpl.
  - rewrite app_nil_r. reflexivity.
  - unfold parse_list_item at 1, primary_preview at 1.
    destruct (index1 (card_title_texts box)) as [name|e]; simpl; [|reflexivity].
    destruct (urljoin w (url response) (card_title_href box)) as [joined|e];
      simpl; [|reflexivity].
    rewrite IH.
    destruct (traverse (primary_preview w response) l) as [ys|e]; simpl;
      [|reflexivity].
    rewrite <- app_assoc. reflexivity.
Qed.

(** The second loop appends the previews of the secondary strategy: the
    name of an anchor is always found, its address may not join. *)
Lemma for_each_listing_titles w response l acc :
  for_each (parse_listing_title w response) l acc =
  (ys <- traverse (secondary_preview w response) l ;; Ok (acc ++ ys)%list).
Proof.
  revert acc. induction l as [|a l IH]; intros acc; simpl.
  - rewrite app_nil_r. reflexivity.
  - unfold parse_listing_title at 1, secondary_preview at 1.
    destruct (urljoin w (url response) (listing_href a)) as [joined|e];
      simpl; [|reflexivity].
    rewrite (index_last_last _ EmptyString) by apply split_from_nonempty.
    simpl. rewrite IH.
    destruct (traverse (secondary_preview w response) l) as [ys|e]; simpl;
      [|reflexivity].
    rewrite <- app_assoc. reflexivity.
Qed.

Lemma traverse_nil_iff {A B : Type} (f : A -> result B) (l : list A) :
  traverse f l = Ok [] <-> l = [].
Proof.
  split; [|intros ->; reflexivity].
  destruct l as [|x l]; [reflexivity|]. simpl.
  destruct (f x); simpl; [|discriminate].
  destruct (traverse f l); simpl; discriminate.
Qed.

(** [parse_search_page] is the primary strategy followed, when it yields
    nothing, by the secondary one. *)
Lemma parse_search_page_strategies (w : World) (response : Response) :
  parse_search_page w response =
    (p <- primary_strategy w response ;;
     first_non_empty p (secondary_strategy w response)).
Proof.
  unfold parse_search_page, primary_strategy, secondary_strategy.
  rewrite for_each_list_items.
  destruct (traverse (primary_preview w response) (list_items response))
    as [[|x p]|e]; simpl; [|reflexivity|reflexivity].
  rewrite for_each_listing_titles.
  destruct (traverse (secondary_preview w response) (listing_titles response));
    reflexivity.
Qed.

(** C8, amended.  On a page where the primary strategy completes,
    [parse_search_page] returns its previews when there are any, and
    otherwise, which is exactly when no [span.listItem] box is found, the
    outcome of the secondary strategy: the first non-empty of the two, in
    that order.  An exception of the primary strategy is the outcome of
    [parse_search_page]: the secondary strategy is not attempted then. *)
Theorem C8_parse_search_page_first_non_empty (w : World) (response : Response) :
  parse_search_page w response =
    (p <- primary_strategy w response ;;
     first_non_empty p (secondary_strategy w response))
  /\ (primary_strategy w response = Ok [] <-> list_items response = [])
  /\ (forall p, primary_strategy w response = Ok p -> p <> [] ->
                parse_search_page w response = Ok p)
  /\ (primary_strategy w response = Ok [] ->
      parse_search_page w response = secondary_strategy w response)
  /\ (forall e, primary_strategy w response = Raise e ->
                parse_search_page w response = Raise e).
Proof.
  split; [apply parse_search_page_strategies|].
  split; [apply traverse_nil_iff|].
  rewrite parse_search_page_strategies.
  split; [|split].
  - intros p -> Hp. destruct p; [congruence|reflexivity].
  - intros ->. reflexivity.
  - intros e ->. reflexivity.
Qed.

Lemma C8_parse_search_page_first_non_empty_witness :
  parse_search_page goa_world goa_page_1 = Ok goa_first_previews /\
  parse_search_page goa_world goa_page_3 = Ok [preview_cidade] /\
  parse_search_page goa_world goa_page_2_broken = Raise IndexError.
Proof.
  destruct (C8_parse_search_page_first_non_empty goa_world goa_page_1)
    as (_ & _ & H1 & _).
  destruct (C8_parse_search_page_first_non_empty goa_world goa_page_3)
    as (_ & _ & _ & H3 & _).
  destruct (C8_parse_search_page_first_non_empty goa_world goa_page_2_broken)
    as (_ & _ & _ & _ & H2).
  split; [|split].
  - apply H1; [reflexivity|discriminate].
  - rewrite H3; reflexivity.
  - apply H2. reflexivity.
Defined.

(** The claim as stated fails: on a page in both layouts whose first box
    has a title link with a single text node, the secondary strategy has a
    preview to return, and [parse_search_page] raises [IndexError]. *)
Lemma C8_counterexample :
  primary_strategy goa_world goa_page_mixed = Raise IndexError /\
  secondary_strategy goa_world goa_page_mixed = Ok [preview_cidade] /\
  parse_search_page goa_world goa_page_mixed = Raise IndexError /\
  (forall previews, parse_search_page goa_world goa_page_mixed <> Ok previews).
Proof. repeat split; try reflexivity. intros previews. vm_compute. discriminate. Qed.

(** The search paginator, once the location is resolved. *)
Lemma scrape_search_located w query max_pages t loc rest h :
  scrape_location_data w query = (t, Ok (loc :: rest)) ->
  getitem "HOTELS_URL" loc = Ok (JStr h) ->
  scrape_search_hotel_urls w query max_pages =
  (let (t', r) := scrape_from_first_page w ("https://www.tripadvisor.com" ++ h)
                                         max_pages in
   ((t ++ t')%list, r)).
Proof.
  intros Hloc Hh. unfold scrape_search_hotel_urls. rewrite Hloc.
  cbn [bind index0]. unfold bind_io, lift. rewrite Hh. cbn [bind str_add].
  set (u := "https://www.tripadvisor.com" ++ h).
  destruct (scrape_from_first_page w u max_pages). reflexivity.
Qed.

(** ** Review extraction *)

(** The three outcomes of the extraction on one review container. *)
Lemma parse_review_cases (acc : list Review) (d : ReviewDiv) :
  (review_body d = None /\ parse_review acc d = Raise TypeError) \/
  (review_body d <> None /\ review_stay d = None /\
   parse_review acc d = Raise AttributeError) \/
  (exists rv, review_body d <> None /\ review_stay d <> None /\
              parse_review acc d = Ok (acc ++ [rv])%list /\
              title rv = review_title d).
Proof.
  unfold parse_review.
  destruct (review_body d) as [body|]; [|left; auto]. right.
  assert (R : exists rate,
             match review_rating d with
             | Some (String c r) =>
                 first <- index0 (split "." (String c r)) ;; Ok (Some first)
             | _ => Ok None
             end = Ok rate).
  { destruct (review_rating d) as [[|c r]|]; eauto.
    unfold split.
    destruct (split_from "." 0 "" (String c r)) eqn:E; simpl; eauto.
    exfalso. eapply split_from_nonempty, E. }
  destruct R as [rate ->]. cbn [bind].
  destruct (review_stay d) as [stay|]; cbn [bind].
  - right. eexists. repeat split; try discriminate.
  - left. repeat split; discriminate.
Qed.

(** A container without body or date of stay makes the loop over the
    containers raise, wherever it stands in the page. *)
Lemma for_each_parse_review_raises (l : list ReviewDiv) (d : ReviewDiv) :
  In d l -> review_body d = None \/ review_stay d = None ->
  forall acc,
    for_each parse_review l acc = Raise TypeError \/
    for_each parse_review l acc = Raise AttributeError.
Proof.
  intros Hin Hbad. induction l as [|x l IH]; [contradiction|]. intros acc.
  cbn [for_each].
  destruct (parse_review_cases acc x)
    as [[_ E] | [(_ & _ & E) | (rv & Hb & Hs & E & _)]];
    rewrite E; cbn [bind]; auto.
  destruct Hin as [->|Hin]; [|apply IH; assumption].
  destruct Hbad; contradiction.
Qed.

(** When the loop returns, it has added one review per container. *)
Lemma for_each_parse_review_length (l : list ReviewDiv) :
  forall acc rs, for_each parse_review l acc = Ok rs ->
                 List.length rs = (List.length acc + List.length l)%nat.
Proof.
  induction l as [|x l IH]; intros acc rs; cbn [for_each].
  - intros [= <-]. simpl. lia.
  - destruct (parse_review_cases acc x)
      as [[_ E] | [(_ & _ & E) | (rv & _ & _ & E & _)]];
      rewrite E; cbn [bind]; try discriminate.
    intros H. apply IH in H. rewrite H, length_app. simpl. lia.
Qed.

(** C1 (the code departs from it).  A review container that lacks its
    body node or its date-of-stay node does not yield a null field:
    [parse_hotel_page] raises [TypeError] or [AttributeError], and no
    review of the page is returned. *)
Theorem C1_missing_node_aborts_page (r : Response) (data : json) (d : ReviewDiv) :
  aggregate_rating r = Some (Decoded data) ->
  In d (review_divs r) ->
  review_body d = None \/ review_stay d = None ->
  parse_hotel_page r = Raise TypeError \/ parse_hotel_page r = Raise AttributeError.
Proof.
  intros Hdata Hin Hbad. unfold parse_hotel_page, load_basic_data.
  rewrite Hdata. cbn [bind].
  destruct (for_each_parse_review_raises _ d Hin Hbad []) as [-> | ->]; auto.
Qed.

Lemma C1_missing_node_aborts_page_witness :
  parse_hotel_page undated_page = Raise TypeError \/
  parse_hotel_page undated_page = Raise AttributeError.
Proof.
  apply (C1_missing_node_aborts_page undated_page (aggregate (JInt 2))
                                     review_without_stay).
  - reflexivity.
  - simpl. auto.
  - right. reflexivity.
Defined.

(** On the same page the title and the rating are optional, as the
    claim says: a container without them yields nulls. *)
Lemma parse_review_title_rating_optional :
  parse_review [] review_without_title =
  Ok [ {| title := None; text := "Lovely pooland staff"; rate := None;
          tripDate := "May 2024" |} ].
Proof. vm_compute. reflexivity. Qed.

Lemma parse_hotel_page_undated : parse_hotel_page undated_page = Raise AttributeError.
Proof. vm_compute. reflexivity. Qed.

(** ** Location resolution *)

(** The resolver, once the reply is navigated down to its candidates. *)
Lemma scrape_location_data_navigated (w : World) (query : string)
    (data d0 d1 d2 results : json) (items : list json) :
  client_post w query = Some (Decoded data) ->
  getitem0 data = Ok d0 ->
  getitem "data" d0 = Ok d1 ->
  getitem "Typeahead_autocomplete" d1 = Ok d2 ->
  getitem "results" d2 = Ok results ->
  iterate results = Ok items ->
  scrape_location_data w query = ([POST query], for_each sanitize items []).
Proof.
  intros Hp H0 H1 H2 H3 Hi.
  unfold scrape_location_data, post_json, bind_io, lift. rewrite Hp.
  cbn [loads_bytes loads].
  rewrite H0. cbn [bind]. rewrite H1. cbn [bind]. rewrite H2. cbn [bind].
  rewrite H3. cbn [bind]. rewrite Hi. reflexivity.
Qed.

Lemma for_each_sanitize_objects (items : list json) :
  forallb is_object items = true ->
  forall acc, for_each sanitize items acc = Ok (acc ++ flat_map kept_details items)%list.
Proof.
  induction items as [|r items IH]; intros Hall acc; cbn [for_each flat_map].
  - rewrite app_nil_r. reflexivity.
  - cbn [forallb] in Hall. apply andb_true_iff in Hall. destruct Hall as [Hr Hall].
    destruct r as [| | | | |? |fields]; try discriminate.
    unfold sanitize at 1, dict_get, kept_details.
    destruct (lookup "details" fields) as [details|]; cbn [bind truthy].
    + destruct (truthy details); rewrite (IH Hall).
      * rewrite <- app_assoc. reflexivity.
      * reflexivity.
    + rewrite (IH Hall). reflexivity.
Qed.

Lemma for_each_sanitize_non_object (items : list json) :
  forallb is_object items = false ->
  forall acc, for_each sanitize items acc = Raise AttributeError.
Proof.
  induction items as [|r items IH]; intros Hall acc; cbn [for_each]; [discriminate|].
  cbn [forallb] in Hall.
  destruct r as [| | | | |? |fields]; try reflexivity.
  cbn [is_object andb] in Hall.
  unfold sanitize at 1, dict_get.
  destruct (lookup "details" fields) as [details|]; cbn [bind];
    apply IH; assumption.
Qed.

(** C6, amended.  Let the candidates of the reply leave nothing once
    those lacking a true ["details"] are dropped.  When they are all
    objects, the resolver returns the empty sequence without raising, and
    its caller [scrape_search_hotel_urls] returns no preview and fetches no
    page.  When one of them is not an object, the resolver raises
    [AttributeError], and so does its caller. *)
Theorem C6_no_location_is_empty (w : World) (query : string) (max_pages : option Z)
    (data d0 d1 d2 results : json) (items : list json) :
  client_post w query = Some (Decoded data) ->
  getitem0 data = Ok d0 ->
  getitem "data" d0 = Ok d1 ->
  getitem "Typeahead_autocomplete" d1 = Ok d2 ->
  getitem "results" d2 = Ok results ->
  iterate results = Ok items ->
  flat_map kept_details items = [] ->
  (forallb is_object items = true ->
   scrape_location_data w query = ([POST query], Ok []) /\
   scrape_search_hotel_urls w query max_pages = ([POST query], Ok []))
  /\ (forallb is_object items = false ->
      scrape_location_data w query = ([POST query], Raise AttributeError) /\
      scrape_search_hotel_urls w query max_pages
      = ([POST query], Raise AttributeError)).
Proof.
  intros Hp H0 H1 H2 H3 Hi Hnone.
  pose proof (scrape_location_data_navigated _ _ _ _ _ _ _ _ Hp H0 H1 H2 H3 Hi) as E.
  split; intros Hobj.
  - rewrite for_each_sanitize_objects, Hnone in E by assumption.
    split; [assumption|].
    unfold scrape_search_hotel_urls. rewrite E. reflexivity.
  - rewrite for_each_sanitize_non_object in E by assumption.
    split; [assumption|].
    unfold scrape_search_hotel_urls. rewrite E. reflexivity.
Qed.

Lemma C6_no_location_is_empty_witness :
  (scrape_location_data (world (Some stub_reply) []) "Atlantis"
     = ([POST "Atlantis"], Ok []) /\
   scrape_search_hotel_urls (world (Some stub_reply) []) "Atlantis" None
     = ([POST "Atlantis"], Ok [])) /\
  (scrape_location_data (world (Some text_reply) []) "Atlantis"
     = ([POST "Atlantis"], Raise AttributeError) /\
   scrape_search_hotel_urls (world (Some text_reply) []) "Atlantis" None
     = ([POST "Atlantis"], Raise AttributeError)).
Proof.
  split.
  - exact (proj1 (C6_no_location_is_empty (world (Some stub_reply) []) "Atlantis" None
                    stub_reply _ _ _ _
                    [JObj [("text", JStr "Atlantis")]; JObj [("details", JNull)]]
                    eq_refl eq_refl eq_refl eq_refl eq_refl eq_refl eq_refl) eq_refl).
  - exact (proj2 (C6_no_location_is_empty (world (Some text_reply) []) "Atlantis" None
                    text_reply _ _ _ _ [JStr "Atlantis"]
                    eq_refl eq_refl eq_refl eq_refl eq_refl eq_refl eq_refl) eq_refl).
Defined.

(** The claim as stated fails: on a reply made of stubs the resolver does
    not fail, it returns the empty list. *)
Lemma C6_counterexample :
  snd (scrape_location_data (world (Some stub_reply) []) "Atlantis") = Ok [] /\
  (forall e, snd (scrape_location_data (world (Some stub_reply) []) "Atlantis")
             <> Raise e).
Proof. split; [reflexivity|]. intros e. vm_compute. discriminate. Qed.

(** ** The search paginator after its first fetch *)

Lemma scrape_from_first_page_blocked w u max_pages :
  status_code (client_get w u) <> 200 ->
  scrape_from_first_page w u max_pages = ([GET u], Ok []).
Proof.
  intros H. unfold scrape_from_first_page, get, bind_io, ret.
  destruct (Z.eqb_spec (status_code (client_get w u)) 200); [contradiction|].
  reflexivity.
Qed.

Lemma scrape_from_first_page_uncounted w u max_pages results :
  status_code (client_get w u) = 200 ->
  parse_search_page w (client_get w u) = Ok results -> results <> [] ->
  re_properties (span_texts (client_get w u)) = [] ->
  scrape_from_first_page w u max_pages = ([GET u], Raise IndexError).
Proof.
  intros Hs Hp Hne Hre. unfold scrape_from_first_page, get, bind_io, ret, lift.
  rewrite Hs, Hp. cbn [Z.eqb Pos.eqb negb].
  destruct results as [|x results]; [congruence|].
  rewrite Hre. reflexivity.
Qed.

(** A link to the next page that [urljoin] cannot split ends the run
    after the first fetch, before the pages are counted. *)
Lemma scrape_from_first_page_unjoined w u max_pages results m ms T e :
  status_code (client_get w u) = 200 ->
  parse_search_page w (client_get w u) = Ok results -> results <> [] ->
  re_properties (span_texts (client_get w u)) = m :: ms ->
  int_of_str (replace "," "" m) = Ok T ->
  urljoin w u (next_page_href (client_get w u)) = Raise e ->
  scrape_from_first_page w u max_pages = ([GET u], Raise e).
Proof.
  intros Hs Hp Hne Hre Hint Hjoin.
  unfold scrape_from_first_page, get, bind_io, ret, lift.
  rewrite Hs, Hp. cbn [Z.eqb Pos.eqb negb].
  destruct results as [|x results]; [congruence|].
  rewrite Hre. cbn [index0 bind]. rewrite Hint, Hjoin. reflexivity.
Qed.

Lemma scrape_from_first_page_counted w u max_pages results m ms T P next :
  status_code (client_get w u) = 200 ->
  parse_search_page w (client_get w u) = Ok results -> results <> [] ->
  re_properties (span_texts (client_get w u)) = m :: ms ->
  int_of_str (replace "," "" m) = Ok T ->
  urljoin w u (next_page_href (client_get w u)) = Ok next ->
  count_pages T (Z.of_nat (List.length results)) = Ok P ->
  scrape_from_first_page w u max_pages =
    (let urls := other_page_urls next (Z.of_nat (List.length results))
                                 (clamp_pages max_pages P) in
     if all_distinct urls
     then (GET u :: map GET (started w urls),
           for_each (extend_results w) (as_completed w (map (client_get w) urls))
                    results)
     else ([GET u], Raise AssertionError)).
Proof.
  intros Hs Hp Hne Hre Hint Hjoin Hcount.
  unfold scrape_from_first_page, get, bind_io, ret, lift.
  rewrite Hs, Hp. cbn [Z.eqb Pos.eqb negb].
  destruct results as [|x results]; [congruence|].
  rewrite Hre. cbn [index0 bind]. rewrite Hint, Hjoin, Hcount.
  cbv zeta.
  destruct (all_distinct _); reflexivity.
Qed.

Lemma pages_fetched_app t t' :
  pages_fetched (t ++ t') = (pages_fetched t ++ pages_fetched t')%list.
Proof. unfold pages_fetched. apply flat_map_app. Qed.

Lemma pages_fetched_gets urls : pages_fetched (map GET urls) = urls.
Proof. induction urls; simpl; congruence. Qed.

(** C4, amended.  On a first response whose status is not 200 the review
    paginator raises at once ([AssertionError], "request is blocked") and
    the search paginator returns the empty list: either way that response
    is the only page fetched, nothing is retried and no partial result is
    returned. *)
Theorem C4_blocked_first_page (w : World) (query url : string)
    (max_pages : option Z) (t : list request) (loc : json) (rest : list json)
    (h : string) :
  (status_code (client_get w url) <> 200 ->
   scrape_hotel_reviews w url max_pages = ([GET url], Raise AssertionError))
  /\
  (scrape_location_data w query = (t, Ok (loc :: rest)) ->
   getitem "HOTELS_URL" loc = Ok (JStr h) ->
   status_code (client_get w ("https://www.tripadvisor.com" ++ h)) <> 200 ->
   scrape_search_hotel_urls w query max_pages =
   ((t ++ [GET ("https://www.tripadvisor.com" ++ h)])%list, Ok [])).
Proof.
  split.
  - intros H. unfold scrape_hotel_reviews, get, bind_io, lift.
    destruct (Z.eqb_spec (status_code (client_get w url)) 200); [contradiction|].
    reflexivity.
  - intros Hloc Hh Hs.
    rewrite (scrape_search_located _ _ _ _ _ _ _ Hloc Hh).
    rewrite scrape_from_first_page_blocked by assumption. reflexivity.
Qed.

Lemma C4_blocked_first_page_witness :
  scrape_hotel_reviews blocked_world soleil_url None
    = ([GET soleil_url], Raise AssertionError) /\
  scrape_search_hotel_urls goa_world_blocked "Goa" (Some 5)
    = ([POST "Goa"; GET goa_url_1], Ok []).
Proof.
  destruct (C4_blocked_first_page blocked_world "Goa" soleil_url None
              [] JNull [] "") as [H _].
  destruct (C4_blocked_first_page goa_world_blocked "Goa" soleil_url (Some 5)
              [POST "Goa"] goa_details
              [JObj [("localizedName", JStr "Goa Velha")]]
              "/Hotels-g297604-Goa-Hotels.html") as [_ H'].
  split.
  - apply H. vm_compute. discriminate.
  - apply H'; [reflexivity|reflexivity|]. vm_compute. discriminate.
Defined.

(** The claim as stated fails for the search paginator: a blocked first
    page gives a normal return of the empty list, not an error. *)
Lemma C4_counterexample :
  status_code (client_get goa_world_blocked goa_url_1) = 403 /\
  snd (scrape_search_hotel_urls goa_world_blocked "Goa" None) = Ok [] /\
  (forall e, snd (scrape_search_hotel_urls goa_world_blocked "Goa" None)
             <> Raise e).
Proof.
  split; [reflexivity|]. split; [reflexivity|]. intros e. vm_compute. discriminate.
Qed.

(** C9.  When the first search page has previews but no span text
    matching the count of properties, indexing the empty list of matches
    raises [IndexError]; nothing in [scrape_search_hotel_urls] catches it,
    and only the first page has been fetched. *)
Theorem C9_missing_count_raises (w : World) (query : string) (max_pages : option Z)
    (t : list request) (loc : json) (rest : list json) (h : string)
    (results : list Preview) :
  scrape_location_data w query = (t, Ok (loc :: rest)) ->
  getitem "HOTELS_URL" loc = Ok (JStr h) ->
  status_code (client_get w ("https://www.tripadvisor.com" ++ h)) = 200 ->
  parse_search_page w (client_get w ("https://www.tripadvisor.com" ++ h))
    = Ok results ->
  results <> [] ->
  re_properties (span_texts (client_get w ("https://www.tripadvisor.com" ++ h)))
    = [] ->
  scrape_search_hotel_urls w query max_pages =
  ((t ++ [GET ("https://www.tripadvisor.com" ++ h)])%list, Raise IndexError).
Proof.
  intros Hloc Hh Hs Hp Hne Hre.
  rewrite (scrape_search_located _ _ _ _ _ _ _ Hloc Hh).
  rewrite (scrape_from_first_page_uncounted _ _ _ _ Hs Hp Hne Hre). reflexivity.
Qed.

Lemma C9_missing_count_raises_witness :
  scrape_search_hotel_urls goa_world_uncounted "Goa" None =
  ([POST "Goa"; GET goa_url_1], Raise IndexError).
Proof.
  apply (C9_missing_count_raises goa_world_uncounted "Goa" None
           [POST "Goa"] goa_details
           [JObj [("localizedName", JStr "Goa Velha")]]
           "/Hotels-g297604-Goa-Hotels.html"
           [ {| preview_url := "https://www.tripadvisor.com/Hotel_Review-d1-Reviews-Taj.html";
                preview_name := "Taj" |};
             {| preview_url := "https://www.tripadvisor.com/Hotel_Review-d2-Reviews-Leela.html";
                preview_name := "Leela" |} ]);
    try reflexivity.
  discriminate.
Defined.

(** ** Offset addresses *)

Lemma append_inv_tail (a b c : string) : a ++ c = b ++ c -> a = b.
Proof.
  intros E. apply (append_inj_length a c b c); [|assumption].
  apply (f_equal String.length) in E. rewrite !length_append in E. lia.
Qed.

(** The address of a search page depends injectively on its index. *)
Lemma search_url_inj base page_size i j :
  1 <= page_size -> contains ("oa" ++ str page_size) base = true ->
  replace ("oa" ++ str page_size) ("oa" ++ str (page_size * i)) base =
  replace ("oa" ++ str page_size) ("oa" ++ str (page_size * j)) base ->
  i = j.
Proof.
  intros Hp Hc E. apply replace_inj in E; [|discriminate|assumption].
  apply append_inv_head, str_inj in E. nia.
Qed.

(** So does the address of a review page. *)
Lemma review_url_inj base i j :
  contains "-Reviews-" base = true ->
  replace "-Reviews-" ("-Reviews-or" ++ str (_review_page_size * i) ++ "-") base =
  replace "-Reviews-" ("-Reviews-or" ++ str (_review_page_size * j) ++ "-") base ->
  i = j.
Proof.
  intros Hc E. apply replace_inj in E; [|discriminate|assumption].
  apply append_inv_head, append_inv_tail, str_inj in E.
  unfold _review_page_size in E. lia.
Qed.

Lemma NoDup_map_range1 (f : Z -> string) n :
  (forall i j, f i = f j -> i = j) -> NoDup (map f (range1 n)).
Proof.
  intros Hf. apply Injective_map_NoDup; [exact Hf|apply NoDup_range1].
Qed.

Lemma constant_map_not_distinct (f : Z -> string) (base : string) n :
  (forall i, f i = base) -> 3 <= n -> all_distinct (map f (range1 n)) = false.
Proof.
  intros Hf Hn. unfold range1.
  destruct (Z.to_nat (n - 1)) as [|[|k]] eqn:E; try lia.
  cbn [seq map all_distinct existsb]. rewrite !Hf, String.eqb_refl. reflexivity.
Qed.

(** C2, amended.  Each pagination round generates [max (totalPages - 1) 0]
    addresses, the i-th (from 1) being the base address with the offset
    token replaced by the one of offset [pageSize * i] (for reviews
    [10 * i]).  When the token occurs in the base address, the addresses
    are pairwise distinct and the i-th contains its offset.  When it does
    not occur, every generated address is the base address itself: the
    pages are still requested, and in the search paginator the
    distinctness assertion fails once there are two of them. *)
Theorem C2_offset_urls (base : string) (page_size total_pages : Z) :
  1 <= page_size ->
  let token := "oa" ++ str page_size in
  let offset := fun i => "oa" ++ str (page_size * i) in
  let review_offset := fun i => "-Reviews-or" ++ str (10 * i) ++ "-" in
  let urls := other_page_urls base page_size total_pages in
  let rurls := review_urls base total_pages in
  (List.length urls = Z.to_nat (total_pages - 1) /\
   List.length rurls = Z.to_nat (total_pages - 1)) /\
  (forall i, 1 <= i < total_pages ->
     nth_error urls (Z.to_nat (i - 1)) = Some (replace token (offset i) base) /\
     nth_error rurls (Z.to_nat (i - 1))
       = Some (replace "-Reviews-" (review_offset i) base)) /\
  (contains token base = true ->
     NoDup urls /\
     forall i, contains (offset i) (replace token (offset i) base) = true) /\
  (contains "-Reviews-" base = true ->
     NoDup rurls /\
     forall i, contains (review_offset i)
                        (replace "-Reviews-" (review_offset i) base) = true) /\
  (contains token base = false ->
     (forall u, In u urls -> u = base) /\
     (3 <= total_pages -> all_distinct urls = false)) /\
  (contains "-Reviews-" base = false -> forall u, In u rurls -> u = base).
Proof.
  intros Hp token offset review_offset urls rurls.
  subst urls rurls. unfold other_page_urls, review_urls. fold token.
  repeat split.
  - rewrite length_map. apply length_range1.
  - rewrite length_map. apply length_range1.
  - rewrite nth_error_map, nth_error_range1 by assumption. reflexivity.
  - rewrite nth_error_map, nth_error_range1 by assumption. reflexivity.
  - apply NoDup_map_range1. intros i j. apply search_url_inj; assumption.
  - intros i. apply replace_contains; [discriminate|assumption].
  - apply NoDup_map_range1. intros i j. apply review_url_inj; assumption.
  - intros i. apply replace_contains; [discriminate|assumption].
  - intros u Hu. apply in_map_iff in Hu. destruct Hu as (i & <- & _).
    apply replace_absent. assumption.
  - intros Hn. apply (constant_map_not_distinct _ base); [|assumption].
    intros i. apply replace_absent. assumption.
  - intros Hc u Hu. apply in_map_iff in Hu. destruct Hu as (i & <- & _).
    apply replace_absent. assumption.
Qed.

Lemma C2_offset_urls_witness :
  other_page_urls goa_url_2 2 3 = [goa_url_2; goa_url_3] /\
  NoDup (other_page_urls goa_url_2 2 3) /\
  review_urls soleil_url 3 = [soleil_url_10; soleil_url_20] /\
  NoDup (review_urls soleil_url 3).
Proof.
  destruct (C2_offset_urls goa_url_2 2 3 ltac:(lia))
    as (_ & _ & Hs & _ & _ & _).
  destruct (C2_offset_urls soleil_url 2 3 ltac:(lia))
    as (_ & _ & _ & Hr & _ & _).
  split; [reflexivity|]. split; [apply Hs; reflexivity|].
  split; [reflexivity|]. apply Hr. reflexivity.
Defined.

(** The claim as stated fails on a hotel address without the [-Reviews-]
    segment: with 25 reviews declared the two follow-up addresses are the
    base address twice, and the page is fetched three times, not once.
    On a search page without a next-page link the paginator stops on its
    assertion. *)
Lemma C2_counterexample :
  contains "-Reviews-" plain_url = false /\
  review_urls plain_url 3 = [plain_url; plain_url] /\
  ~ NoDup (review_urls plain_url 3) /\
  pages_fetched (fst (scrape_hotel_reviews plain_world plain_url None))
    = [plain_url; plain_url; plain_url] /\
  scrape_search_hotel_urls goa_world_unlinked "Goa" None
    = ([POST "Goa"; GET goa_url_1], Raise AssertionError).
Proof.
  split; [reflexivity|]. split; [reflexivity|]. split.
  - intros H. apply all_distinct_NoDup in H. vm_compute in H. discriminate.
  - split; vm_compute; reflexivity.
Qed.

(** ** Page counts *)

(** The resolver issues the location query and nothing else. *)
Lemma scrape_location_data_requests w query :
  fst (scrape_location_data w query) = [POST query].
Proof.
  unfold scrape_location_data, post_json, bind_io, lift.
  destruct (client_post w query) as [[data| | |]|]; reflexivity.
Qed.

Lemma count_pages_exact total page_size :
  - 2 ^ 53 < total < 2 ^ 53 -> 0 < page_size < 2 ^ 53 ->
  count_pages total page_size = Ok ((total + page_size - 1) / page_size).
Proof. apply truediv_ceil_exact. Qed.

Lemma count_review_pages_exact total :
  - 2 ^ 53 < total < 2 ^ 53 ->
  count_review_pages total = Ok ((total + 9) / 10).
Proof.
  intros H. unfold count_review_pages, _review_page_size.
  rewrite truediv_ceil_exact by lia. do 2 f_equal. lia.
Qed.

(** C3, amended.  With [N > 0] previews on the first page and a parsed
    count [T], both below [2^53], the number of pages is the ceiling of
    [T / N]; it is replaced by [maxPages] when that is given, is not 0 and
    is smaller, and kept otherwise (a maximum of 0 counts as none).  When
    the link to the next page resolves and the follow-up addresses are
    pairwise distinct, the pages fetched are the first page and then one
    page per follow-up address, in the order the fetches are started:
    [totalPages] in all when [totalPages >= 1].  When the link does not
    resolve, or the addresses are not distinct, the run raises after the
    first page.  47 results by pages of 10 make 5 pages. *)
Theorem C3_search_page_count (w : World) (query : string) (max_pages : option Z)
    (t : list request) (loc : json) (rest : list json) (h : string)
    (results : list Preview) (m : string) (ms : list string) (T : Z) :
  let hotel_search_url := "https://www.tripadvisor.com" ++ h in
  let first_page := client_get w hotel_search_url in
  let N := Z.of_nat (List.length results) in
  let pages := (T + N - 1) / N in
  let total_pages := clamp_pages max_pages pages in
  let run := scrape_search_hotel_urls w query max_pages in
  scrape_location_data w query = (t, Ok (loc :: rest)) ->
  getitem "HOTELS_URL" loc = Ok (JStr h) ->
  status_code first_page = 200 ->
  parse_search_page w first_page = Ok results ->
  re_properties (span_texts first_page) = m :: ms ->
  int_of_str (replace "," "" m) = Ok T ->
  0 < N < 2 ^ 53 ->
  - 2 ^ 53 < T < 2 ^ 53 ->
  (count_pages T N = Ok pages /\ (pages - 1) * N < T <= pages * N) /\
  (forall mp, max_pages = Some mp -> mp <> 0 -> mp < pages -> total_pages = mp) /\
  (max_pages = None \/ max_pages = Some 0 \/
   (exists mp, max_pages = Some mp /\ pages <= mp) -> total_pages = pages) /\
  (forall next,
     urljoin w hotel_search_url (next_page_href first_page) = Ok next ->
     let urls := other_page_urls next N total_pages in
     (all_distinct urls = true ->
      pages_fetched (fst run) = hotel_search_url :: started w urls /\
      Permutation (started w urls) urls /\
      (1 <= total_pages ->
       Z.of_nat (List.length (pages_fetched (fst run))) = total_pages)) /\
     (all_distinct urls = false ->
      pages_fetched (fst run) = [hotel_search_url] /\
      snd run = Raise AssertionError)) /\
  (forall e,
     urljoin w hotel_search_url (next_page_href first_page) = Raise e ->
     pages_fetched (fst run) = [hotel_search_url] /\ snd run = Raise e) /\
  count_pages 47 10 = Ok 5.
Proof.
  intros hotel_search_url first_page N pages total_pages run
         Hloc Hh Hs Hp Hre Hint HN HT.
  assert (Hcount : count_pages T N = Ok pages) by (apply count_pages_exact; lia).
  split; [split; [assumption|apply ceil_quotient_spec; lia]|].
  split.
  { intros mp -> Hmp Hlt. unfold total_pages, clamp_pages.
    destruct (Z.eqb_spec mp 0); [contradiction|].
    destruct (Z.gtb_spec pages mp); [reflexivity|lia]. }
  split.
  { intros [-> | [-> | (mp & -> & Hle)]]; unfold total_pages, clamp_pages;
      try reflexivity.
    destruct (Z.gtb_spec pages mp); [lia|].
    rewrite andb_false_r. reflexivity. }
  assert (Hne : results <> []).
  { intros ->. simpl in N. lia. }
  assert (Ht : pages_fetched t = []).
  { change t with (fst (t, Ok (loc :: rest))). rewrite <- Hloc.
    rewrite scrape_location_data_requests. reflexivity. }
  split; [|split; [|apply count_pages_exact; lia]].
  - intros next Hjoin urls. unfold run.
    rewrite (scrape_search_located _ _ _ _ _ _ _ Hloc Hh).
    fold hotel_search_url.
    rewrite (scrape_from_first_page_counted w hotel_search_url max_pages
               results m ms T pages next Hs Hp Hne Hre Hint Hjoin Hcount).
    cbv zeta. fold N total_pages urls.
    split; intros Hd; rewrite Hd; cbn [fst snd]; rewrite pages_fetched_app, Ht.
    + assert (E : (([] : list string) ++ pages_fetched
                     (GET hotel_search_url :: map GET (started w urls)))%list
                  = hotel_search_url :: started w urls).
      { cbn [app pages_fetched flat_map]. f_equal. apply pages_fetched_gets. }
      rewrite E. split; [reflexivity|]. split; [apply started_perm|].
      intros H1. cbn [List.length].
      rewrite (Permutation_length (started_perm w urls)).
      unfold urls, other_page_urls. rewrite length_map, length_range1. lia.
    + split; reflexivity.
  - intros e Hjoin. unfold run.
    rewrite (scrape_search_located _ _ _ _ _ _ _ Hloc Hh).
    fold hotel_search_url.
    rewrite (scrape_from_first_page_unjoined w hotel_search_url max_pages
               results m ms T e Hs Hp Hne Hre Hint Hjoin).
    cbn [fst snd]. rewrite pages_fetched_app, Ht. split; reflexivity.
Qed.

Lemma C3_search_page_count_witness :
  count_pages 5 2 = Ok 3 /\
  pages_fetched (fst (scrape_search_hotel_urls goa_world "Goa" (Some 2)))
    = [goa_url_1; goa_url_2] /\
  pages_fetched (fst (scrape_search_hotel_urls goa_world "Goa" None))
    = [goa_url_1; goa_url_3; goa_url_2] /\
  (pages_fetched (fst (scrape_search_hotel_urls goa_world_unsplit "Goa" (Some 2)))
     = [goa_url_1] /\
   snd (scrape_search_hotel_urls goa_world_unsplit "Goa" (Some 2)) = Raise ValueError).
Proof.
  destruct (C3_search_page_count goa_world "Goa" (Some 2)
              [POST "Goa"] goa_details
              [JObj [("localizedName", JStr "Goa Velha")]]
              "/Hotels-g297604-Goa-Hotels.html" goa_first_previews "5" [] 5)
    as ((Hc & _) & _ & _ & Hf & _); try reflexivity; [simpl; lia|lia|].
  destruct (C3_search_page_count goa_world "Goa" None
              [POST "Goa"] goa_details
              [JObj [("localizedName", JStr "Goa Velha")]]
              "/Hotels-g297604-Goa-Hotels.html" goa_first_previews "5" [] 5)
    as (_ & _ & _ & Hg & _); try reflexivity; [simpl; lia|lia|].
  destruct (C3_search_page_count goa_world_unsplit "Goa" (Some 2)
              [POST "Goa"] goa_details
              [JObj [("localizedName", JStr "Goa Velha")]]
              "/Hotels-g297604-Goa-Hotels.html" goa_first_previews "5" [] 5)
    as (_ & _ & _ & _ & Hu & _); try reflexivity; [simpl; lia|lia|].
  split; [exact Hc|]. split; [|split].
  - exact (proj1 (proj1 (Hf goa_url_2 eq_refl) eq_refl)).
  - exact (proj1 (proj1 (Hg goa_url_2 eq_refl) eq_refl)).
  - exact (Hu ValueError eq_refl).
Defined.

(** The claim as stated fails in two places.  A maximum of 0 is given and
    smaller than the 3 pages computed, yet the count is not replaced and
    3 pages are fetched.  And the quotient is a binary64 number: for
    [10^17 + 1] results by pages of 10 the code counts [10^16] pages, one
    less than the ceiling. *)
Lemma C3_counterexample :
  clamp_pages (Some 0) 3 = 3 /\
  pages_fetched (fst (scrape_search_hotel_urls goa_world "Goa" (Some 0)))
    = [goa_url_1; goa_url_3; goa_url_2] /\
  count_pages (10 ^ 17 + 1) 10 = Ok (10 ^ 16) /\
  (10 ^ 17 + 1 + 10 - 1) / 10 = 10 ^ 16 + 1.
Proof. by_run. Qed.

(** ** The review paginator after its first fetch *)

Lemma scrape_hotel_reviews_counted w url max_review_pages data agg c rc P :
  status_code (client_get w url) = 200 ->
  parse_hotel_page (client_get w url) = Ok data ->
  getitem "aggregateRating" (basic_data data) = Ok agg ->
  getitem "reviewCount" agg = Ok c ->
  Json.int c = Ok rc ->
  count_review_pages rc = Ok P ->
  scrape_hotel_reviews w url max_review_pages =
    (let urls := review_urls url (clamp_review_pages max_review_pages P) in
     (GET url :: map GET urls,
      for_each extend_reviews (map (client_get w) urls) data)).
Proof.
  intros Hs Hp Ha Hc Hi Hcount.
  unfold scrape_hotel_reviews, get, bind_io, lift.
  rewrite Hs, Hp. cbn [Z.eqb Pos.eqb negb].
  rewrite Ha. cbn [bind]. rewrite Hc. cbn [bind]. rewrite Hi, Hcount.
  reflexivity.
Qed.

Lemma clamp_review_pages_cases max_review_pages pages :
  (forall mp, max_review_pages = Some mp -> mp <> 0 -> mp < pages ->
              clamp_review_pages max_review_pages pages = mp) /\
  (max_review_pages = None \/ max_review_pages = Some 0 \/
   (exists mp, max_review_pages = Some mp /\ pages <= mp) ->
   clamp_review_pages max_review_pages pages = pages) /\
  clamp_review_pages max_review_pages pages <= pages.
Proof.
  unfold clamp_review_pages. repeat split.
  - intros mp -> Hmp Hlt.
    destruct (Z.eqb_spec mp 0); [contradiction|].
    destruct (Z.ltb_spec mp pages); [reflexivity|lia].
  - intros [-> | [-> | (mp & -> & Hle)]]; try reflexivity.
    destruct (Z.ltb_spec mp pages); [lia|].
    rewrite andb_false_r. reflexivity.
  - destruct max_review_pages as [mp|]; [|lia].
    destruct (negb (mp =? 0)); cbn [andb]; [|lia].
    destruct (Z.ltb_spec mp pages); lia.
Qed.

(** C5, amended.  For a declared [reviewCount] below [2^53] in absolute
    value, the number of review pages is the ceiling of [reviewCount / 10]; it is
    replaced by [maxPages] when that is given, is not 0 and is smaller,
    and kept otherwise (a maximum of 0 counts as none).  The pages fetched
    are the first page and one page per offset address; 25 reviews make 3
    pages and, without a maximum, 2 follow-up fetches. *)
Theorem C5_review_page_count (w : World) (url : string)
    (max_review_pages : option Z) (data : HotelData) (agg c : json) (rc : Z) :
  let first_page := client_get w url in
  let pages := (rc + 9) / 10 in
  let total := clamp_review_pages max_review_pages pages in
  status_code first_page = 200 ->
  parse_hotel_page first_page = Ok data ->
  getitem "aggregateRating" (basic_data data) = Ok agg ->
  getitem "reviewCount" agg = Ok c ->
  Json.int c = Ok rc ->
  - 2 ^ 53 < rc < 2 ^ 53 ->
  (count_review_pages rc = Ok pages /\ (pages - 1) * 10 < rc <= pages * 10) /\
  (forall mp, max_review_pages = Some mp -> mp <> 0 -> mp < pages -> total = mp) /\
  (max_review_pages = None \/ max_review_pages = Some 0 \/
   (exists mp, max_review_pages = Some mp /\ pages <= mp) -> total = pages) /\
  pages_fetched (fst (scrape_hotel_reviews w url max_review_pages))
    = url :: review_urls url total /\
  List.length (review_urls url total) = Z.to_nat (total - 1) /\
  (rc = 25 -> pages = 3 /\
              (max_review_pages = None ->
               List.length (review_urls url total) = 2%nat)).
Proof.
  intros first_page pages total Hs Hp Ha Hc Hi Hrc.
  assert (Hcount : count_review_pages rc = Ok pages)
    by (apply count_review_pages_exact; assumption).
  destruct (clamp_review_pages_cases max_review_pages pages) as (K1 & K2 & _).
  assert (Hlen : List.length (review_urls url total) = Z.to_nat (total - 1)).
  { unfold review_urls. rewrite length_map. apply length_range1. }
  split.
  { split; [assumption|].
    assert (S := ceil_quotient_spec rc 10 ltac:(lia)).
    replace (rc + 10 - 1) with (rc + 9) in S by lia. exact S. }
  split; [exact K1|]. split; [exact K2|]. split.
  { rewrite (scrape_hotel_reviews_counted _ _ _ _ _ _ _ _ Hs Hp Ha Hc Hi Hcount).
    cbv zeta. cbn [fst pages_fetched flat_map app].
    f_equal. apply pages_fetched_gets. }
  split; [exact Hlen|].
  intros ->. split; [reflexivity|].
  intros Hmax. rewrite Hlen. unfold total. rewrite K2 by auto. reflexivity.
Qed.

Lemma C5_review_page_count_witness :
  count_review_pages 25 = Ok 3 /\
  pages_fetched (fst (scrape_hotel_reviews soleil_world soleil_url None))
    = [soleil_url; soleil_url_10; soleil_url_20].
Proof.
  destruct (C5_review_page_count soleil_world soleil_url None
              {| basic_data := aggregate (JInt 25);
                 description := Some "A quiet hotel by the sea.";
                 featues := ["Free parking"; "Pool"];
                 reviews := [ {| title := Some "Stay 1";
                                 text := "Lovely pooland staff";
                                 rate := Some "5"; tripDate := "March 2024" |};
                              {| title := None;
                                 text := "Lovely pooland staff";
                                 rate := None; tripDate := "May 2024" |} ] |}
              (JObj [("ratingValue", JStr "4.5"); ("reviewCount", JInt 25)])
              (JInt 25) 25)
    as ((Hc & _) & _ & _ & Hf & _); try reflexivity.
  - lia.
  - split; [exact Hc|exact Hf].
Defined.

(** The claim as stated fails in two places.  A maximum of 0 is given and
    smaller than the 3 pages computed, yet all 3 pages are fetched.  And
    for [10^17 + 1] declared reviews the code counts [10^16] pages, one
    less than the ceiling. *)
Lemma C5_counterexample :
  clamp_review_pages (Some 0) 3 = 3 /\
  pages_fetched (fst (scrape_hotel_reviews soleil_world soleil_url (Some 0)))
    = [soleil_url; soleil_url_10; soleil_url_20] /\
  count_review_pages (10 ^ 17 + 1) = Ok (10 ^ 16) /\
  (10 ^ 17 + 1 + 9) / 10 = 10 ^ 16 + 1.
Proof. by_run. Qed.

(** ** The merged reviews *)

Lemma parse_hotel_page_length (r : Response) (data : HotelData) :
  parse_hotel_page r = Ok data ->
  List.length (reviews data) = List.length (review_divs r).
Proof.
  unfold parse_hotel_page.
  destruct (load_basic_data r) as [basic|e]; cbn [bind]; [|discriminate].
  destruct (for_each parse_review (review_divs r) []) as [rs|e] eqn:E;
    cbn [bind]; [|discriminate].
  intros [= <-]. apply for_each_parse_review_length in E. exact E.
Qed.

(** The merged record holds one review per container of every page
    fetched after the first. *)
Lemma for_each_extend_reviews_length (pages : list Response) :
  forall data merged,
    for_each extend_reviews pages data = Ok merged ->
    List.length (reviews merged) =
    (List.length (reviews data)
     + list_sum (map (fun p => List.length (review_divs p)) pages))%nat.
Proof.
  induction pages as [|p pages IH]; intros data merged; cbn [for_each].
  - intros [= <-]. simpl. lia.
  - unfold extend_reviews at 1.
    destruct (parse_hotel_page p) as [d|e] eqn:E; cbn [bind]; [|discriminate].
    intros H. apply IH in H. rewrite H. cbn [reviews map].
    rewrite length_app, (parse_hotel_page_length _ _ E).
    change (list_sum (?x :: ?l)) with (x + list_sum l)%nat. lia.
Qed.

(** Pages that never show more than the ten reviews of their offset, nor
    more than the declared count leaves there, sum up to at most that
    count. *)
Lemma offsets_sum_bounded (g : Z -> nat) (rc : Z) (first : nat) (n : nat) :
  Z.of_nat first <= Z.min 10 rc ->
  (forall i, 1 <= i <= Z.of_nat n -> Z.of_nat (g i) <= Z.min 10 (rc - 10 * i)) ->
  Z.of_nat (first + list_sum (map g (map (fun k => Z.of_nat (S k)) (seq 0 n))))
  <= Z.min (10 * (Z.of_nat n + 1)) rc.
Proof.
  intros Hfirst. induction n as [|n IH]; intros Hg.
  - simpl. lia.
  - rewrite seq_S, !map_app, list_sum_app.
    change (list_sum (map g (map (fun k => Z.of_nat (S k)) [(0 + n)%nat])))
      with (g (Z.of_nat (S n)) + 0)%nat.
    assert (IH' := IH ltac:(intros i Hi; apply Hg; lia)).
    assert (Hn := Hg (Z.of_nat (S n)) ltac:(lia)).
    lia.
Qed.

(** C7, amended.  The merged reviews of a finalized record are one per
    review container of the pages fetched: the first page and the offset
    pages, none beyond the declared total.  Their number is at most the
    declared [reviewCount] provided no page shows more reviews than it
    should: at most 10, and at most what the declared count leaves at the
    offset of the page. *)
Theorem C7_reviews_bounded_by_declared_count (w : World) (url : string)
    (max_review_pages : option Z) (data : HotelData) (agg c : json) (rc : Z)
    (merged : HotelData) :
  let first_page := client_get w url in
  let total := clamp_review_pages max_review_pages ((rc + 9) / 10) in
  let page := fun i =>
    client_get w (replace "-Reviews-" ("-Reviews-or" ++ str (10 * i) ++ "-") url) in
  status_code first_page = 200 ->
  parse_hotel_page first_page = Ok data ->
  getitem "aggregateRating" (basic_data data) = Ok agg ->
  getitem "reviewCount" agg = Ok c ->
  Json.int c = Ok rc ->
  - 2 ^ 53 < rc < 2 ^ 53 ->
  snd (scrape_hotel_reviews w url max_review_pages) = Ok merged ->
  List.length (reviews merged) =
    (List.length (review_divs first_page)
     + list_sum (map (fun i => List.length (review_divs (page i))) (range1 total)))%nat
  /\ total <= (rc + 9) / 10
  /\ (Z.of_nat (List.length (review_divs first_page)) <= Z.min 10 rc ->
      (forall i, 1 <= i < total ->
         Z.of_nat (List.length (review_divs (page i))) <= Z.min 10 (rc - 10 * i)) ->
      Z.of_nat (List.length (reviews merged)) <= rc).
Proof.
  intros first_page total page Hs Hp Ha Hc Hi Hrc Hrun.
  assert (Hcount : count_review_pages rc = Ok ((rc + 9) / 10))
    by (apply count_review_pages_exact; assumption).
  rewrite (scrape_hotel_reviews_counted _ _ _ _ _ _ _ _ Hs Hp Ha Hc Hi Hcount)
    in Hrun.
  cbv zeta in Hrun. cbn [snd] in Hrun. fold total in Hrun.
  apply for_each_extend_reviews_length in Hrun.
  rewrite (parse_hotel_page_length _ _ Hp) in Hrun.
  unfold review_urls in Hrun. rewrite !map_map in Hrun.
  fold first_page in Hrun.
  change (fun x : Z =>
            List.length (review_divs (client_get w
              (replace "-Reviews-"
                 ("-Reviews-or" ++ str (_review_page_size * x) ++ "-") url))))
    with (fun i => List.length (review_divs (page i))) in Hrun.
  split; [exact Hrun|].
  split; [apply clamp_review_pages_cases|].
  intros Hfirst Hpages. rewrite Hrun. unfold range1.
  assert (B := offsets_sum_bounded
                 (fun i => List.length (review_divs (page i))) rc
                 (List.length (review_divs first_page)) (Z.to_nat (total - 1))
                 Hfirst ltac:(intros i Hrange; apply Hpages; lia)).
  lia.
Qed.

Lemma C7_reviews_bounded_by_declared_count_witness :
  exists merged,
    snd (scrape_hotel_reviews soleil_world soleil_url None) = Ok merged /\
    List.length (reviews merged) = 5%nat /\
    Z.of_nat (List.length (reviews merged)) <= 25.
Proof.
  destruct (scrape_hotel_reviews soleil_world soleil_url None) as [t [merged|e]] eqn:E;
    [|vm_compute in E; discriminate].
  exists merged.
  destruct (C7_reviews_bounded_by_declared_count soleil_world soleil_url None
              {| basic_data := aggregate (JInt 25);
                 description := Some "A quiet hotel by the sea.";
                 featues := ["Free parking"; "Pool"];
                 reviews := [ {| title := Some "Stay 1";
                                 text := "Lovely pooland staff";
                                 rate := Some "5"; tripDate := "March 2024" |};
                              {| title := None;
                                 text := "Lovely pooland staff";
                                 rate := None; tripDate := "May 2024" |} ] |}
              (JObj [("ratingValue", JStr "4.5"); ("reviewCount", JInt 25)])
              (JInt 25) 25 merged)
    as (Hlen & _ & Hbound); try reflexivity.
  - lia.
  - rewrite E. reflexivity.
  - split; [reflexivity|]. split; [exact Hlen|].
    apply Hbound.
    + vm_compute. discriminate.
    + intros i Hi. change (clamp_review_pages None ((25 + 9) / 10)) with 3 in Hi.
      assert (Hc : i = 1 \/ i = 2) by lia.
      destruct Hc as [-> | ->]; vm_compute; discriminate.
Defined.

(** The claim as stated fails: a first page declaring one review and
    showing two containers is finalized with two reviews. *)
Lemma C7_counterexample :
  exists merged,
    snd (scrape_hotel_reviews crowded_world soleil_url None) = Ok merged /\
    getitem "aggregateRating" (basic_data merged)
      = Ok (JObj [("ratingValue", JStr "4.5"); ("reviewCount", JStr "1")]) /\
    Json.int (JStr "1") = Ok 1 /\
    List.length (reviews merged) = 2%nat /\
    ~ Z.of_nat (List.length (reviews merged)) <= 1.
Proof.
  eexists. split; [vm_compute; reflexivity|].
  repeat split. simpl. lia.
Qed.

(** * Further properties of the code *)

(** ** search_responses.py *)

Lemma length_kept_details (items : list json) :
  (List.length (flat_map kept_details items) <= List.length items)%nat.
Proof.
  induction items as [|r items IH]; cbn [flat_map List.length]; [lia|].
  rewrite length_app.
  assert (List.length (kept_details r) <= 1)%nat; [|lia].
  destruct r as [| | | | |? |fields]; cbn; try lia.
  destruct (lookup "details" fields) as [d|]; [destruct (truthy d)|]; cbn; lia.
Qed.

(** X1.  Once the reply is navigated down to its list of raw results, the
    resolver returns, in the order of the reply, the ["details"] of the
    results that have a true one, when every raw result is an object; one
    raw result that is not an object makes it raise [AttributeError].  It
    never returns more locations than there are raw results. *)
Theorem X1_location_details_kept_in_order (w : World) (query : string)
    (data d0 d1 d2 results : json) (items : list json) :
  client_post w query = Some (Decoded data) ->
  getitem0 data = Ok d0 ->
  getitem "data" d0 = Ok d1 ->
  getitem "Typeahead_autocomplete" d1 = Ok d2 ->
  getitem "results" d2 = Ok results ->
  iterate results = Ok items ->
  (forallb is_object items = true ->
   scrape_location_data w query = ([POST query], Ok (flat_map kept_details items)))
  /\ (forallb is_object items = false ->
      scrape_location_data w query = ([POST query], Raise AttributeError))
  /\ (List.length (flat_map kept_details items) <= List.length items)%nat.
Proof.
  intros Hp H0 H1 H2 H3 Hi.
  rewrite (scrape_location_data_navigated _ _ _ _ _ _ _ _ Hp H0 H1 H2 H3 Hi).
  split; [|split].
  - intros Hall. rewrite for_each_sanitize_objects by assumption. reflexivity.
  - intros Hsome. rewrite for_each_sanitize_non_object by assumption. reflexivity.
  - apply length_kept_details.
Qed.

Lemma X1_location_details_kept_in_order_witness :
  scrape_location_data goa_world "Goa"
  = ([POST "Goa"], Ok (flat_map kept_details goa_raw_results)) /\
  flat_map kept_details goa_raw_results
  = [goa_details; JObj [("localizedName", JStr "Goa Velha")]].
Proof.
  split; [|reflexivity].
  exact (proj1 (X1_location_details_kept_in_order goa_world "Goa" goa_reply
                  _ _ _ _ goa_raw_results
                  eq_refl eq_refl eq_refl eq_refl eq_refl eq_refl) eq_refl).
Defined.

(** When the resolver raises, the search paginator passes the exception
    on, except [IndexError], which it takes for an empty answer. *)
Lemma scrape_search_not_located w query max_pages e :
  scrape_location_data w query = ([POST query], Raise e) ->
  scrape_search_hotel_urls w query max_pages
  = ([POST query], match e with
                   | IndexError => Ok []
                   | _ => Raise e
                   end).
Proof.
  intros E. unfold scrape_search_hotel_urls. rewrite E.
  destruct e; reflexivity.
Qed.

(** X2.  A reply that is not the expected document is told apart only in
    part.  A body that [json.loads] refuses raises what [json.loads]
    raises, in the resolver and through the search paginator:
    [UnicodeDecodeError] for bytes that are not text, [JSONDecodeError] for
    a text that is not JSON, [ValueError] for an integer of too many
    digits, [RecursionError] for too deep a nesting.  A decoded reply
    without its ["data"] key raises [KeyError].  But an empty JSON array
    makes the resolver raise [IndexError], which the search paginator takes
    for a place that does not exist: it returns the empty list.  No page
    is fetched in any of these cases. *)
Theorem X2_malformed_location_reply (w : World) (query : string)
    (max_pages : option Z) :
  (forall e,
     client_post w query = None /\ e = UnicodeDecodeError \/
     client_post w query = Some Malformed /\ e = JSONDecodeError \/
     client_post w query = Some LongInteger /\ e = ValueError \/
     client_post w query = Some DeepNesting /\ e = RecursionError ->
     scrape_location_data w query = ([POST query], Raise e) /\
     scrape_search_hotel_urls w query max_pages = ([POST query], Raise e))
  /\ (client_post w query = Some (Decoded (JArr [])) ->
      scrape_location_data w query = ([POST query], Raise IndexError) /\
      scrape_search_hotel_urls w query max_pages = ([POST query], Ok []))
  /\ (forall fields rest,
        client_post w query = Some (Decoded (JArr (JObj fields :: rest))) ->
        lookup "data" fields = None ->
        scrape_location_data w query = ([POST query], Raise KeyError) /\
        scrape_search_hotel_urls w query max_pages = ([POST query], Raise KeyError))
  /\ (forall fields,
        client_post w query = Some (Decoded (JObj fields)) ->
        scrape_location_data w query = ([POST query], Raise KeyError) /\
        scrape_search_hotel_urls w query max_pages = ([POST query], Raise KeyError)).
Proof.
  assert (R : forall e, scrape_location_data w query = ([POST query], Raise e) ->
              scrape_location_data w query = ([POST query], Raise e) /\
              scrape_search_hotel_urls w query max_pages
              = ([POST query], match e with
                               | IndexError => Ok []
                               | _ => Raise e
                               end)).
  { intros e E. split; [assumption|].
    apply scrape_search_not_located. assumption. }
  split; [|split; [|split]].
  - intros e [[H ->] | [[H ->] | [[H ->] | [H ->]]]].
    + apply (R UnicodeDecodeError).
      unfold scrape_location_data, post_json, bind_io. rewrite H. reflexivity.
    + apply (R JSONDecodeError).
      unfold scrape_location_data, post_json, bind_io. rewrite H. reflexivity.
    + apply (R ValueError).
      unfold scrape_location_data, post_json, bind_io. rewrite H. reflexivity.
    + apply (R RecursionError).
      unfold scrape_location_data, post_json, bind_io. rewrite H. reflexivity.
  - intros H. apply (R IndexError).
    unfold scrape_location_data, post_json, bind_io, lift. rewrite H. reflexivity.
  - intros fields rest H Hl. apply (R KeyError).
    unfold scrape_location_data, post_json, bind_io, lift. rewrite H.
    cbn [loads_bytes loads getitem0 index0 bind getitem]. rewrite Hl. reflexivity.
  - intros fields H. apply (R KeyError).
    unfold scrape_location_data, post_json, bind_io, lift. rewrite H. reflexivity.
Qed.

Lemma X2_malformed_location_reply_witness :
  (scrape_location_data (world (Some (JArr [])) []) "Goa"
     = ([POST "Goa"], Raise IndexError) /\
   scrape_search_hotel_urls (world (Some (JArr [])) []) "Goa" None
     = ([POST "Goa"], Ok [])) /\
  (scrape_location_data garbled_world "Goa"
     = ([POST "Goa"], Raise UnicodeDecodeError) /\
   scrape_search_hotel_urls garbled_world "Goa" None
     = ([POST "Goa"], Raise UnicodeDecodeError)).
Proof.
  destruct (X2_malformed_location_reply (world (Some (JArr [])) []) "Goa" None)
    as (_ & H & _).
  destruct (X2_malformed_location_reply garbled_world "Goa" None) as (G & _).
  split; [apply H; reflexivity|].
  apply G. left. split; reflexivity.
Defined.

(** ** scrape_search.py *)

(** X3.  The address of the hotel search page is read from the first
    location kept.  When that location has no ["HOTELS_URL"], the search
    paginator raises [KeyError]; when it has one that is not a string
    ([null] for a place without hotels), or is not an object at all, it
    raises [TypeError].  No page is fetched. *)
Theorem X3_hotels_url_missing (w : World) (query : string) (max_pages : option Z)
    (loc : json) (rest : list json) :
  scrape_location_data w query = ([POST query], Ok (loc :: rest)) ->
  (forall fields, loc = JObj fields -> lookup "HOTELS_URL" fields = None ->
     scrape_search_hotel_urls w query max_pages = ([POST query], Raise KeyError))
  /\ (forall fields v, loc = JObj fields -> lookup "HOTELS_URL" fields = Some v ->
        (forall s, v <> JStr s) ->
        scrape_search_hotel_urls w query max_pages = ([POST query], Raise TypeError))
  /\ (is_object loc = false ->
      scrape_search_hotel_urls w query max_pages = ([POST query], Raise TypeError)).
Proof.
  intros Hloc.
  assert (E : forall e,
             (h <- getitem "HOTELS_URL" loc ;; str_add "https://www.tripadvisor.com" h)
             = Raise e ->
             scrape_search_hotel_urls w query max_pages = ([POST query], Raise e)).
  { intros e He. unfold scrape_search_hotel_urls. rewrite Hloc.
    cbn [bind index0]. unfold bind_io, lift. rewrite He. reflexivity. }
  split; [|split].
  - intros fields -> Hl. apply E. cbn [getitem]. rewrite Hl. reflexivity.
  - intros fields v -> Hl Hv. apply E. cbn [getitem]. rewrite Hl. cbn [bind].
    destruct v; try reflexivity. exfalso. eapply Hv. reflexivity.
  - intros Hobj. apply E. destruct loc; try reflexivity. discriminate.
Qed.

Lemma X3_hotels_url_missing_witness :
  scrape_search_hotel_urls atlantis_world "Atlantis" None
  = ([POST "Atlantis"], Raise TypeError).
Proof.
  refine (proj1 (proj2 (X3_hotels_url_missing atlantis_world "Atlantis" None
                          atlantis_details [] eq_refl))
                _ JNull eq_refl eq_refl _).
  intros s. discriminate.
Defined.

Lemma traverse_cons_inv {A B : Type} (f : A -> result B) x l ps :
  traverse f (x :: l) = Ok ps ->
  exists y ys, f x = Ok y /\ traverse f l = Ok ys /\ ps = y :: ys.
Proof.
  cbn [traverse]. destruct (f x) as [y|e]; cbn [bind]; [|discriminate].
  destruct (traverse f l) as [ys|e]; cbn [bind]; [|discriminate].
  intros [= <-]. eauto.
Qed.

Lemma traverse_length {A B : Type} (f : A -> result B) l :
  forall ps, traverse f l = Ok ps -> List.length ps = List.length l.
Proof.
  induction l as [|x l IH]; intros ps H.
  - injection H as <-. reflexivity.
  - apply traverse_cons_inv in H. destruct H as (y & ys & _ & Hys & ->).
    simpl. f_equal. auto.
Qed.

Lemma traverse_ok_iff {A B : Type} (f : A -> result B) (l : list A) :
  (exists ps, traverse f l = Ok ps) <-> (forall x, In x l -> exists y, f x = Ok y).
Proof.
  induction l as [|x l IH]; cbn [traverse].
  - split; [intros _ x []|eauto].
  - split.
    + intros [ps H]. destruct (f x) as [y|e] eqn:E; cbn [bind] in H; [|discriminate].
      destruct (traverse f l) as [ys|e]; cbn [bind] in H; [|discriminate].
      intros x' [<-|Hin]; [eauto|]. apply IH; eauto.
    + intros H. destruct (H x (or_introl eq_refl)) as [y ->]. cbn [bind].
      destruct (proj2 IH (fun x' Hin => H x' (or_intror Hin))) as [ys ->].
      cbn [bind]. eauto.
Qed.

Lemma traverse_raise_inv {A B : Type} (f : A -> result B) (l : list A) (e : exn) :
  traverse f l = Raise e -> exists x, In x l /\ f x = Raise e.
Proof.
  induction l as [|x l IH]; cbn [traverse]; [discriminate|].
  destruct (f x) as [y|e'] eqn:E; cbn [bind].
  - destruct (traverse f l) as [ys|e']; cbn [bind]; [discriminate|].
    intros [= ->]. destruct (IH eq_refl) as (x' & Hin & Hx'). exists x'.
    split; [right; assumption|assumption].
  - intros [= ->]. exists x. split; [left; reflexivity|assumption].
Qed.

(** [urljoin] raises nothing but [ValueError]. *)
Lemma urljoin_raise w base h e : urljoin w base h = Raise e -> e = ValueError.
Proof.
  unfold urljoin. destruct h as [[|c u]|]; try discriminate.
  destruct (urljoin_ref w base (String c u)); [discriminate|congruence].
Qed.

Lemma primary_preview_ok w response box :
  (exists y, primary_preview w response box = Ok y) <->
  sound_box w response box = true.
Proof.
  unfold primary_preview, sound_box, short_box, joins.
  destruct (card_title_texts box) as [|t0 [|t1 ts]];
    cbn [List.length Nat.ltb Nat.leb negb andb index1 bind].
  - split; [intros [y H]|]; discriminate.
  - split; [intros [y H]|]; discriminate.
  - destruct (urljoin w (url response) (card_title_href box)); cbn [bind].
    + split; eauto.
    + split; [intros [y H]|]; discriminate.
Qed.

Lemma primary_preview_raise w response box e :
  primary_preview w response box = Raise e ->
  e = IndexError /\ short_box box = true \/ e = ValueError.
Proof.
  unfold primary_preview, short_box.
  destruct (card_title_texts box) as [|t0 [|t1 ts]];
    cbn [List.length Nat.ltb Nat.leb index1 bind].
  - intros [= <-]. auto.
  - intros [= <-]. auto.
  - destruct (urljoin w (url response) (card_title_href box)) eqn:E; cbn [bind];
      [discriminate|].
    intros [= <-]. right. eapply urljoin_raise, E.
Qed.

Lemma secondary_preview_ok w response a :
  (exists y, secondary_preview w response a = Ok y) <->
  joins w response (listing_href a) = true.
Proof.
  unfold secondary_preview, joins.
  destruct (urljoin w (url response) (listing_href a)); cbn [bind].
  - split; eauto.
  - split; [intros [y H]|]; discriminate.
Qed.

Lemma secondary_preview_raise w response a e :
  secondary_preview w response a = Raise e -> e = ValueError.
Proof.
  unfold secondary_preview.
  destruct (urljoin w (url response) (listing_href a)) eqn:E; cbn [bind];
    [discriminate|].
  intros [= <-]. eapply urljoin_raise, E.
Qed.

Lemma primary_strategy_ok w response :
  (exists ps, primary_strategy w response = Ok ps) <->
  forallb (sound_box w response) (list_items response) = true.
Proof.
  unfold primary_strategy. rewrite traverse_ok_iff, forallb_forall.
  split; intros H x Hx; apply primary_preview_ok, H, Hx.
Qed.

Lemma secondary_strategy_ok w response :
  (exists ps, secondary_strategy w response = Ok ps) <->
  forallb (fun a => joins w response (listing_href a)) (listing_titles response)
  = true.
Proof.
  unfold secondary_strategy. rewrite traverse_ok_iff, forallb_forall.
  split; intros H x Hx; apply secondary_preview_ok, H, Hx.
Qed.

(** X4.  [parse_search_page] returns exactly when every [span.listItem]
    box has two text nodes in its title link and a link that [urljoin]
    can join, and, on a page without such a box, when the link of every
    [div.listing_title>a] anchor can be joined.  It then returns one
    preview per box, or, when there is no box, one preview per anchor.
    Otherwise it raises [IndexError], and then some box has fewer than two
    title texts, or [ValueError]: one faulty box is enough, and the second
    layout is not tried then. *)
Theorem X4_parse_search_page_outcome (w : World) (response : Response) :
  let boxes := list_items response in
  let anchors := listing_titles response in
  ((exists previews, parse_search_page w response = Ok previews) <->
   forallb (sound_box w response) boxes = true /\
   (boxes = [] ->
    forallb (fun a => joins w response (listing_href a)) anchors = true))
  /\ (forall previews, parse_search_page w response = Ok previews ->
        List.length previews =
        match boxes with
        | [] => List.length anchors
        | _ :: _ => List.length boxes
        end)
  /\ (forall e, parse_search_page w response = Raise e ->
        e = IndexError /\ existsb short_box boxes = true \/ e = ValueError).
Proof.
  intros boxes anchors. rewrite parse_search_page_strategies.
  pose proof (primary_strategy_ok w response) as P1.
  pose proof (secondary_strategy_ok w response) as P2.
  fold boxes in P1. fold anchors in P2.
  assert (N : primary_strategy w response = Ok [] <-> boxes = [])
    by apply traverse_nil_iff.
  destruct (primary_strategy w response) as [[|p ps]|e] eqn:E; cbn [bind first_non_empty].
  - assert (B : boxes = []) by (apply N; reflexivity).
    split; [|split].
    + rewrite P2. rewrite B. cbn [forallb]. tauto.
    + intros previews H. rewrite B.
      unfold secondary_strategy in H. eapply traverse_length, H.
    + intros e H. right. unfold secondary_strategy in H.
      destruct (traverse_raise_inv _ _ _ H) as (a & _ & Ha).
      eapply secondary_preview_raise, Ha.
  - assert (B : boxes <> []).
    { intros B. apply N in B. discriminate. }
    assert (S : forallb (sound_box w response) boxes = true)
      by (apply P1; eauto).
    split; [|split].
    + split; [intros _; split; [exact S|contradiction]|eauto].
    + intros previews [= <-]. unfold primary_strategy in E.
      apply traverse_length in E. fold boxes in E.
      destruct boxes; [contradiction|exact E].
    + discriminate.
  - split; [|split].
    + split; [intros [ps H]; discriminate|].
      intros [S _]. apply P1 in S. destruct S as [ps S]. discriminate.
    + discriminate.
    + intros e' [= <-]. unfold primary_strategy in E.
      destruct (traverse_raise_inv _ _ _ E) as (box & Hin & Hbox).
      destruct (primary_preview_raise _ _ _ _ Hbox) as [[-> Hs]| ->]; [left|auto].
      split; [reflexivity|]. apply existsb_exists. eauto.
Qed.

Lemma X4_parse_search_page_outcome_witness :
  exists previews,
    parse_search_page goa_world goa_page_1 = Ok previews /\
    List.length previews = 2%nat.
Proof.
  destruct (X4_parse_search_page_outcome goa_world goa_page_1) as (H1 & H2 & _).
  destruct (proj2 H1 (conj eq_refl (fun _ => eq_refl))) as [previews H].
  exists previews. split; [exact H|exact (H2 previews H)].
Defined.

(** The search paginator from the point where it paginates. *)
Lemma scrape_search_paginating w query h results T P next max_pages :
  paginating w query h results T P next ->
  scrape_search_hotel_urls w query max_pages =
    (let u := "https://www.tripadvisor.com" ++ h in
     let urls := other_page_urls next (Z.of_nat (List.length results))
                                 (clamp_pages max_pages P) in
     if all_distinct urls
     then (POST query :: GET u :: map GET (started w urls),
           for_each (extend_results w) (as_completed w (map (client_get w) urls))
                    results)
     else ([POST query; GET u], Raise AssertionError)).
Proof.
  intros (((loc & rest & Hloc & Hh) & Hs & Hp & Hne & (m & ms & Hre & Hint))
          & Hjoin & Hcount).
  rewrite (scrape_search_located _ _ _ _ _ _ _ Hloc Hh).
  rewrite (scrape_from_first_page_counted _ _ max_pages _ _ _ _ _ _
             Hs Hp Hne Hre Hint Hjoin Hcount).
  cbv zeta. destruct (all_distinct _); reflexivity.
Qed.

(** The search paginator when, the count parsed, the link to the next
    page does not resolve, or the pages cannot be counted. *)
Lemma scrape_search_counted w query h results T max_pages :
  counted w query h results T ->
  let u := "https://www.tripadvisor.com" ++ h in
  (forall e, urljoin w u (next_page_href (client_get w u)) = Raise e ->
             scrape_search_hotel_urls w query max_pages
             = ([POST query; GET u], Raise e)) /\
  (forall next e, urljoin w u (next_page_href (client_get w u)) = Ok next ->
                  count_pages T (Z.of_nat (List.length results)) = Raise e ->
                  scrape_search_hotel_urls w query max_pages
                  = ([POST query; GET u], Raise e)).
Proof.
  intros ((loc & rest & Hloc & Hh) & Hs & Hp & Hne & (m & ms & Hre & Hint)) u.
  split.
  - intros e Hjoin.
    rewrite (scrape_search_located _ _ _ _ _ _ _ Hloc Hh).
    rewrite (scrape_from_first_page_unjoined _ _ max_pages _ _ _ _ _
               Hs Hp Hne Hre Hint Hjoin). reflexivity.
  - intros next e Hjoin Hcount.
    rewrite (scrape_search_located _ _ _ _ _ _ _ Hloc Hh). subst u.
    unfold scrape_from_first_page, get, bind_io, ret, lift.
    rewrite Hs, Hp. cbn [Z.eqb Pos.eqb negb].
    destruct results as [|x results]; [congruence|].
    rewrite Hre. cbn [index0 bind]. rewrite Hint, Hjoin, Hcount. reflexivity.
Qed.

(** The loop over the responses appends the previews of each page. *)
Lemma for_each_extend_results w l :
  forall acc,
    for_each (extend_results w) l acc =
    (ps <- traverse (parse_search_page w) l ;; Ok (acc ++ List.concat ps)%list).
Proof.
  induction l as [|p l IH]; intros acc; cbn [for_each traverse].
  - cbn [bind List.concat]. rewrite app_nil_r. reflexivity.
  - unfold extend_results at 1.
    destruct (parse_search_page w p) as [more|e]; cbn [bind]; [|reflexivity].
    rewrite IH.
    destruct (traverse (parse_search_page w) l) as [ps|e]; cbn [bind List.concat];
      [|reflexivity].
    rewrite app_assoc. reflexivity.
Qed.

Lemma traverse_permutation {A B : Type} (f : A -> result B) (l l' : list A) :
  Permutation l l' ->
  forall ps, traverse f l = Ok ps ->
             exists ps', traverse f l' = Ok ps' /\ Permutation ps ps'.
Proof.
  induction 1 as [|x l l' Hperm IH|x y l|l l' l'' H1 IH1 H2 IH2]; intros ps H.
  - exists ps. split; [assumption|]. injection H as <-. constructor.
  - apply traverse_cons_inv in H. destruct H as (y & ys & Hx & Hys & ->).
    destruct (IH _ Hys) as (ys' & Hys' & Hp).
    exists (y :: ys'). cbn [traverse]. rewrite Hx, Hys'. split; [reflexivity|].
    constructor. assumption.
  - apply traverse_cons_inv in H. destruct H as (b & ys & Hy & H & ->).
    apply traverse_cons_inv in H. destruct H as (a & zs & Hx & Hzs & ->).
    exists (a :: b :: zs). cbn [traverse]. rewrite Hx, Hy, Hzs.
    split; [reflexivity|constructor].
  - destruct (IH1 _ H) as (ps' & H' & P1).
    destruct (IH2 _ H') as (ps'' & H'' & P2).
    exists ps''. split; [assumption|]. eapply Permutation_trans; eassumption.
Qed.

Lemma Permutation_concat_lists {A : Type} (ps ps' : list (list A)) :
  Permutation ps ps' -> Permutation (List.concat ps) (List.concat ps').
Proof.
  induction 1 as [|x l l' _ IH|x y l|l l' l'' _ IH1 _ IH2]; cbn [List.concat].
  - constructor.
  - apply Permutation_app_head. assumption.
  - rewrite !app_assoc. apply Permutation_app_tail, Permutation_app_comm.
  - eapply Permutation_trans; eassumption.
Qed.

Lemma traverse_map {A B C : Type} (f : B -> result C) (g : A -> B) (l : list A) :
  traverse f (map g l) = traverse (fun x => f (g x)) l.
Proof.
  induction l as [|x l IH]; cbn [map traverse]; [reflexivity|].
  rewrite IH. reflexivity.
Qed.

(** X6.  When the search paginator returns, its list starts with the
    previews of the first page, in the order of the page, followed by the
    previews of all the follow-up pages, page by page in the order the
    responses arrived: a rearrangement of the previews taken in the order
    of the addresses.  No preview is dropped or repeated by the merge. *)
Theorem X6_search_results_are_all_pages (w : World) (query h : string)
    (results : list Preview) (T P : Z) (max_pages : option Z)
    (all : list Preview) :
  let u := "https://www.tripadvisor.com" ++ h in
  counted w query h results T ->
  count_pages T (Z.of_nat (List.length results)) = Ok P ->
  snd (scrape_search_hotel_urls w query max_pages) = Ok all ->
  exists next parsed follow,
    urljoin w u (next_page_href (client_get w u)) = Ok next /\
    traverse (fun a => parse_search_page w (client_get w a))
             (other_page_urls next (Z.of_nat (List.length results))
                              (clamp_pages max_pages P)) = Ok parsed /\
    all = (results ++ follow)%list /\
    Permutation follow (List.concat parsed).
Proof.
  intros u Hcounted Hcount Hall.
  destruct (urljoin w u (next_page_href (client_get w u))) as [next|e] eqn:Hjoin.
  2:{ rewrite (proj1 (scrape_search_counted _ _ _ _ _ max_pages Hcounted) e Hjoin)
        in Hall. discriminate. }
  exists next.
  rewrite (scrape_search_paginating _ _ _ _ _ _ next max_pages
             (conj Hcounted (conj Hjoin Hcount))) in Hall.
  cbv zeta in Hall.
  set (urls := other_page_urls next (Z.of_nat (List.length results))
                               (clamp_pages max_pages P)) in *.
  destruct (all_distinct urls); [|discriminate].
  cbn [snd] in Hall. rewrite for_each_extend_results in Hall.
  destruct (traverse (parse_search_page w)
                     (as_completed w (map (client_get w) urls)))
    as [arrived|e] eqn:E; [|discriminate].
  injection Hall as <-.
  destruct (traverse_permutation _ _ _ (as_completed_perm w _) _ E)
    as (parsed & Hparsed & Hperm).
  rewrite traverse_map in Hparsed.
  exists parsed, (List.concat arrived). repeat split; [assumption|].
  apply Permutation_concat_lists. assumption.
Qed.

Lemma counted_goa : counted goa_world "Goa" "/Hotels-g297604-Goa-Hotels.html"
                            goa_first_previews 5.
Proof.
  unfold counted. cbv zeta.
  split; [exists goa_details, [JObj [("localizedName", JStr "Goa Velha")]];
          split; reflexivity|].
  split; [reflexivity|]. split; [reflexivity|]. split; [discriminate|].
  exists "5", []; split; reflexivity.
Defined.

Lemma paginating_goa : paginating goa_world "Goa" "/Hotels-g297604-Goa-Hotels.html"
                         goa_first_previews 5 3 goa_url_2.
Proof.
  split; [exact counted_goa|]. split; reflexivity.
Defined.

Lemma X6_search_results_are_all_pages_witness :
  exists next parsed follow,
    urljoin goa_world goa_url_1 (next_page_href (client_get goa_world goa_url_1))
      = Ok next /\
    traverse (fun a => parse_search_page goa_world (client_get goa_world a))
             (other_page_urls next 2 3) = Ok parsed /\
    [preview_taj; preview_leela; preview_cidade; preview_alila; preview_grand]
    = (goa_first_previews ++ follow)%list /\
    Permutation follow (List.concat parsed).
Proof.
  exact (X6_search_results_are_all_pages goa_world "Goa"
           "/Hotels-g297604-Goa-Hotels.html" goa_first_previews 5 3 None
           [preview_taj; preview_leela; preview_cidade; preview_alila; preview_grand]
           counted_goa eq_refl eq_refl).
Defined.

(** Whatever the first page holds, the paginator fetches it once and then
    only pairwise distinct follow-up addresses. *)
Lemma scrape_from_first_page_requests w u max_pages :
  exists urls,
    fst (scrape_from_first_page w u max_pages) = GET u :: map GET urls /\
    NoDup urls.
Proof.
  assert (Z0 : exists urls : list string,
             [GET u] = GET u :: map GET urls /\ NoDup urls)
    by (exists []; split; [reflexivity|constructor]).
  unfold scrape_from_first_page, get, bind_io, ret, lift.
  destruct (negb (status_code (client_get w u) =? 200)); [exact Z0|].
  destruct (parse_search_page w (client_get w u)) as [[|p results]|e];
    [exact Z0| |exact Z0].
  destruct (m <- index0 (re_properties (span_texts (client_get w u))) ;;
            int_of_str (replace "," "" m)) as [T|e]; [|exact Z0].
  destruct (urljoin w u (next_page_href (client_get w u))) as [next|e];
    [|exact Z0].
  destruct (count_pages T (Z.of_nat (List.length (p :: results)))) as [P|e];
    [|exact Z0].
  cbv zeta.
  destruct (all_distinct _) eqn:D; [|exact Z0].
  eexists. split; [reflexivity|].
  apply (Permutation_NoDup (Permutation_sym (started_perm w _))).
  apply all_distinct_NoDup. exact D.
Qed.

(** X5.  Every run of the search paginator issues the location query
    once, first, and then only page fetches: none, or the first search
    page followed by follow-up addresses that are pairwise distinct.  The
    address of the first search page is the text
    [https://www.tripadvisor.com] followed by the ["HOTELS_URL"] of the
    first location kept, whatever that text is: nothing makes it an
    address of that site. *)
Theorem X5_search_requests (w : World) (query : string) (max_pages : option Z) :
  fst (scrape_search_hotel_urls w query max_pages) = [POST query] \/
  exists loc rest h urls,
    snd (scrape_location_data w query) = Ok (loc :: rest) /\
    getitem "HOTELS_URL" loc = Ok (JStr h) /\
    fst (scrape_search_hotel_urls w query max_pages)
    = POST query :: GET ("https://www.tripadvisor.com" ++ h) :: map GET urls /\
    NoDup urls.
Proof.
  unfold scrape_search_hotel_urls.
  assert (Hreq := scrape_location_data_requests w query).
  destruct (scrape_location_data w query) as [t located]. cbn [fst] in Hreq.
  subst t. cbn [snd].
  destruct located as [[|loc rest]|e]; cbn [bind index0].
  - left. reflexivity.
  - unfold bind_io, lift.
    destruct (getitem "HOTELS_URL" loc) as [v|e] eqn:E; cbn [bind];
      [|left; reflexivity].
    destruct v as [| | | |h| |]; cbn [str_add]; try (left; reflexivity).
    right.
    destruct (scrape_from_first_page_requests
                w ("https://www.tripadvisor.com" ++ h) max_pages)
      as (urls & Hfst & Hnd).
    destruct (scrape_from_first_page w ("https://www.tripadvisor.com" ++ h)
                                     max_pages) as [t r].
    cbn [fst] in Hfst. subst t. exists loc, rest, h, urls.
    repeat split; try reflexivity; assumption.
  - left. destruct e; reflexivity.
Qed.

Lemma for_each_extend_results_raises w (l : list Response) (p : Response) e :
  In p l -> parse_search_page w p = Raise e ->
  forall acc, exists e', for_each (extend_results w) l acc = Raise e'.
Proof.
  intros Hin Hp. induction l as [|x l IH]; [contradiction|]. intros acc.
  cbn [for_each]. unfold extend_results at 1.
  destruct (parse_search_page w x) as [more|e0] eqn:Ex; cbn [bind]; [|eauto].
  destruct Hin as [->|Hin]; [congruence|]. apply IH. assumption.
Qed.

(** X7.  The follow-up pages are all requested, in the order in which
    their fetches are started, before any is parsed, and one of them that
    cannot be parsed, whatever the order of arrival, makes the search
    paginator raise: the previews already read, those of the first page
    included, are not returned. *)
Theorem X7_search_follow_up_failure (w : World) (query h : string)
    (results : list Preview) (T P : Z) (next : string) (max_pages : option Z)
    (a : string) (e : exn) :
  let u := "https://www.tripadvisor.com" ++ h in
  let urls := other_page_urls next (Z.of_nat (List.length results))
                              (clamp_pages max_pages P) in
  paginating w query h results T P next ->
  all_distinct urls = true ->
  In a urls ->
  parse_search_page w (client_get w a) = Raise e ->
  fst (scrape_search_hotel_urls w query max_pages)
    = POST query :: GET u :: map GET (started w urls) /\
  Permutation (started w urls) urls /\
  exists e', snd (scrape_search_hotel_urls w query max_pages) = Raise e'.
Proof.
  intros u urls Hpag Hd Hin Hraise.
  rewrite (scrape_search_paginating _ _ _ _ _ _ _ max_pages Hpag).
  cbv zeta. fold u urls. rewrite Hd. cbn [fst snd]. split; [reflexivity|].
  split; [apply started_perm|].
  apply (for_each_extend_results_raises w _ (client_get w a) e); [|assumption].
  apply (Permutation_in _ (Permutation_sym (as_completed_perm w _))).
  apply in_map. assumption.
Qed.

(** X8.  A maximum that is not 0 and at most 1, negative ones included,
    leaves no follow-up page: once the link to the next page is resolved
    and the pages are counted, the search paginator has fetched the first
    page only and returns its previews as they are.  The link is resolved
    and the pages are counted all the same: a link that [urljoin] cannot
    split, or a count too large for a [float], makes the run raise. *)
Theorem X8_search_single_page (w : World) (query h : string)
    (results : list Preview) (T : Z) (mp : Z) :
  let u := "https://www.tripadvisor.com" ++ h in
  let link := urljoin w u (next_page_href (client_get w u)) in
  let count := count_pages T (Z.of_nat (List.length results)) in
  counted w query h results T ->
  mp <> 0 -> mp <= 1 ->
  (forall next P, link = Ok next -> count = Ok P ->
     scrape_search_hotel_urls w query (Some mp) = ([POST query; GET u], Ok results))
  /\ (forall e, link = Raise e ->
        scrape_search_hotel_urls w query (Some mp) = ([POST query; GET u], Raise e))
  /\ (forall next e, link = Ok next -> count = Raise e ->
        scrape_search_hotel_urls w query (Some mp) = ([POST query; GET u], Raise e)).
Proof.
  intros u link count Hcounted H0 H1.
  split; [|exact (scrape_search_counted _ _ _ _ _ (Some mp) Hcounted)].
  intros next P Hjoin Hcount.
  rewrite (scrape_search_paginating _ _ _ _ _ _ next (Some mp)
             (conj Hcounted (conj Hjoin Hcount))). cbv zeta.
  assert (Hc : clamp_pages (Some mp) P <= 1).
  { unfold clamp_pages. destruct (Z.eqb_spec mp 0); [contradiction|].
    cbn [negb andb]. destruct (Z.gtb_spec P mp); lia. }
  assert (Hr : range1 (clamp_pages (Some mp) P) = []).
  { unfold range1. replace (Z.to_nat (clamp_pages (Some mp) P - 1)) with 0%nat by lia.
    reflexivity. }
  unfold other_page_urls. rewrite Hr. cbn [map all_distinct].
  rewrite (Permutation_nil (Permutation_sym (as_completed_perm w []))).
  rewrite (Permutation_nil (Permutation_sym (started_perm w []))).
  reflexivity.
Qed.

Lemma counted_goa_unsplit :
  counted goa_world_unsplit "Goa" "/Hotels-g297604-Goa-Hotels.html"
          goa_first_previews 5.
Proof.
  unfold counted. cbv zeta.
  split; [exists goa_details, [JObj [("localizedName", JStr "Goa Velha")]];
          split; reflexivity|].
  split; [reflexivity|]. split; [reflexivity|]. split; [discriminate|].
  exists "5", []; split; reflexivity.
Defined.

Lemma X8_search_single_page_witness :
  scrape_search_hotel_urls goa_world "Goa" (Some (-2))
    = ([POST "Goa"; GET goa_url_1], Ok goa_first_previews) /\
  scrape_search_hotel_urls goa_world_unsplit "Goa" (Some 1)
    = ([POST "Goa"; GET goa_url_1], Raise ValueError).
Proof.
  split.
  - apply (proj1 (X8_search_single_page goa_world "Goa"
                    "/Hotels-g297604-Goa-Hotels.html" goa_first_previews 5 (-2)
                    counted_goa ltac:(lia) ltac:(lia)) goa_url_2 3); reflexivity.
  - apply (proj1 (proj2 (X8_search_single_page goa_world_unsplit "Goa"
                           "/Hotels-g297604-Goa-Hotels.html" goa_first_previews 5 1
                           counted_goa_unsplit ltac:(lia) ltac:(lia)))).
    reflexivity.
Defined.

Lemma paginating_goa_broken :
  paginating goa_world_broken "Goa" "/Hotels-g297604-Goa-Hotels.html"
             goa_first_previews 5 3 goa_url_2.
Proof.
  split; [|split; reflexivity].
  unfold counted. cbv zeta.
  split; [exists goa_details, [JObj [("localizedName", JStr "Goa Velha")]];
          split; reflexivity|].
  split; [reflexivity|]. split; [reflexivity|]. split; [discriminate|].
  exists "5", []; split; reflexivity.
Defined.

Lemma X7_search_follow_up_failure_witness :
  fst (scrape_search_hotel_urls goa_world_broken "Goa" None)
    = [POST "Goa"; GET goa_url_1; GET goa_url_3; GET goa_url_2] /\
  Permutation [goa_url_3; goa_url_2] [goa_url_2; goa_url_3] /\
  exists e', snd (scrape_search_hotel_urls goa_world_broken "Goa" None) = Raise e'.
Proof.
  apply (X7_search_follow_up_failure goa_world_broken "Goa"
           "/Hotels-g297604-Goa-Hotels.html" goa_first_previews 5 3 goa_url_2 None
           goa_url_2 IndexError paginating_goa_broken).
  - reflexivity.
  - left. reflexivity.
  - reflexivity.
Defined.

(** ** The count of properties *)

Lemma all_chars_app p a b :
  all_chars p (a ++ b) = all_chars p a && all_chars p b.
Proof.
  induction a as [|c a IH]; cbn [append all_chars]; [reflexivity|].
  rewrite IH, andb_assoc. reflexivity.
Qed.

Lemma all_chars_take_while p s : all_chars p (take_while p s) = true.
Proof.
  induction s as [|c s IH]; cbn [take_while all_chars]; [reflexivity|].
  destruct (p c) eqn:E; cbn [all_chars]; [|reflexivity].
  rewrite E, IH. reflexivity.
Qed.

Lemma all_chars_weaken (p q : ascii -> bool) s :
  (forall c, p c = true -> q c = true) ->
  all_chars p s = true -> all_chars q s = true.
Proof.
  intros Hpq. induction s as [|c s IH]; cbn [all_chars]; [reflexivity|].
  intros H. apply andb_true_iff in H. destruct H as [Hc Hs].
  rewrite (Hpq _ Hc), (IH Hs). reflexivity.
Qed.

(** The group of a match holds digits and commas only, and a digit. *)
Lemma match_properties_group s g n :
  match_properties s = Some (g, n) ->
  all_chars (fun c => is_digit c || is_comma c) g = true /\
  all_chars is_comma g = false.
Proof.
  unfold match_properties.
  set (d1 := take_while is_digit s).
  set (r1 := drop (String.length d1) s).
  set (c := take_while is_comma r1).
  set (r2 := drop (String.length c) r1).
  set (d2 := take_while is_digit r2).
  set (r3 := drop (String.length d2) r2).
  assert (D1 : all_chars is_digit d1 = true) by apply all_chars_take_while.
  assert (D2 : all_chars is_digit d2 = true) by apply all_chars_take_while.
  assert (Cm : all_chars is_comma c = true) by apply all_chars_take_while.
  assert (W1 : forall x, all_chars is_digit x = true ->
                         all_chars (fun c => is_digit c || is_comma c) x = true).
  { intros x. apply all_chars_weaken. intros ch ->. reflexivity. }
  assert (W2 : forall x, all_chars is_comma x = true ->
                         all_chars (fun c => is_digit c || is_comma c) x = true).
  { intros x. apply all_chars_weaken. intros ch ->. apply orb_true_r. }
  assert (N : forall x, all_chars is_digit x = true -> nonempty x = true ->
                        all_chars is_comma x = false).
  { intros [|ch x]; [discriminate|]. cbn [all_chars]. intros H _.
    apply andb_true_iff in H. destruct H as [H _].
    assert (is_comma ch = false); [|rewrite H0; reflexivity].
    unfold is_digit, is_comma in *.
    destruct (Ascii.eqb_spec ch ","); [subst; discriminate|reflexivity]. }
  destruct c as [|c0 c'] eqn:Ec.
  - destruct (nonempty d1) eqn:Ne; cbn [andb]; [|discriminate].
    destruct (startswith " properties" r1); [|discriminate].
    intros [= <- _]. split; [apply W1; assumption|apply N; assumption].
  - destruct (nonempty d2) eqn:Ne; cbn [andb]; [|discriminate].
    destruct (startswith " properties" r3); [|discriminate].
    intros [= <- _].
    change (String c0 (c' ++ d2)) with (String c0 c' ++ d2). split.
    + rewrite !all_chars_app, (W1 _ D1), (W2 _ Cm), (W1 _ D2). reflexivity.
    + rewrite !all_chars_app, (N _ D2 Ne), !andb_false_r. reflexivity.
Qed.

Lemma findall_properties_group s :
  forall skip m, In m (findall_properties_from skip s) ->
                 exists s' n, match_properties s' = Some (m, n).
Proof.
  induction s as [|c s IH]; intros skip m; cbn [findall_properties_from];
    [contradiction|].
  destruct skip as [|k]; [|apply IH].
  destruct (match_properties (String c s)) as [[g n]|] eqn:E; [|apply IH].
  intros [<-|Hin]; [eauto|]. eapply IH, Hin.
Qed.

(** Removing the commas leaves the digits. *)
Lemma replace_commas g :
  all_chars (fun c => is_digit c || is_comma c) g = true ->
  all_chars is_comma g = false ->
  all_chars is_digit (replace "," "" g) = true /\ replace "," "" g <> "".
Proof.
  unfold replace.
  assert (G : forall g, all_chars (fun c => is_digit c || is_comma c) g = true ->
              all_chars is_digit (replace_from "," "" 0 g) = true /\
              (all_chars is_comma g = false -> replace_from "," "" 0 g <> "")).
  { clear g. induction g as [|c g IH]; cbn [all_chars replace_from].
    - intros _. split; [reflexivity|discriminate].
    - intros H. apply andb_true_iff in H. destruct H as [Hc Hg].
      destruct (IH Hg) as [IH1 IH2].
      unfold startswith. cbn [prefix]. change (String.length "," - 1)%nat with 0%nat.
      unfold is_comma in *.
      destruct (ascii_dec "," c) as [<-|Hn].
      + cbn [Ascii.eqb Bool.eqb andb]. destruct g; cbn [append]; auto.
      + destruct (Ascii.eqb_spec c ","); [congruence|].
        rewrite orb_false_r in Hc. cbn [all_chars andb].
        rewrite Hc, IH1. split; [reflexivity|discriminate]. }
  intros H1 H2. destruct (G g H1) as [A B]. auto.
Qed.

Lemma digits_value_digits s :
  all_chars is_digit s = true ->
  forall acc prev, 0 <= acc -> (prev = true \/ s <> "") ->
                   exists v, digits_value acc prev s = Some v /\ 0 <= v.
Proof.
  induction s as [|c s IH]; cbn [all_chars digits_value]; intros H acc prev Hacc Hne.
  - destruct Hne as [->|]; [eauto|congruence].
  - apply andb_true_iff in H. destruct H as [Hc Hs]. rewrite Hc.
    apply IH; auto.
    unfold is_digit in Hc. apply andb_true_iff in Hc. destruct Hc as [Hlo _].
    apply Nat.leb_le in Hlo. lia.
Qed.

(** A digit is no white space of [int]. *)
Lemma digit_is_plain c : is_digit c = true -> is_int_space c = false.
Proof.
  destruct c as [[] [] [] [] [] [] [] []]; try discriminate; reflexivity.
Qed.

Lemma int_rstrip_digits s :
  all_chars is_digit s = true -> int_rstrip s = s.
Proof.
  induction s as [|c s IH]; cbn [all_chars int_rstrip]; [reflexivity|].
  intros H. apply andb_true_iff in H. destruct H as [Hc Hs].
  rewrite (IH Hs). destruct s; [|reflexivity].
  rewrite (digit_is_plain c Hc). reflexivity.
Qed.

Lemma count_digits_all s :
  all_chars is_digit s = true -> count_digits s = String.length s.
Proof.
  induction s as [|c s IH]; cbn [all_chars count_digits String.length];
    [reflexivity|].
  intros H. apply andb_true_iff in H. destruct H as [Hc Hs].
  rewrite Hc, (IH Hs). reflexivity.
Qed.

(** [int] on a non-empty string of digits: no white space to drop, no
    sign, and a value, unless the digits are too many. *)
Lemma int_of_str_digits s :
  all_chars is_digit s = true -> s <> "" ->
  exists v, 0 <= v /\
            int_of_str s = if (String.length s <=? int_max_str_digits)%nat
                           then Ok v else Raise ValueError.
Proof.
  intros H Hne. destruct s as [|c s]; [congruence|].
  assert (Hc : is_digit c = true).
  { cbn [all_chars] in H. apply andb_true_iff in H. tauto. }
  assert (R := int_rstrip_digits _ H).
  assert (L := count_digits_all _ H).
  destruct (digits_value_digits _ H 0 false ltac:(lia) ltac:(right; discriminate))
    as (v & Hv & Hpos).
  exists v. split; [assumption|]. unfold int_of_str.
  destruct c as [[] [] [] [] [] [] [] []]; try discriminate Hc;
    match goal with
    | |- context [int_lstrip ?x] => change (int_lstrip x) with x
    end;
    rewrite R; cbv beta iota zeta; rewrite Hv, L; reflexivity.
Qed.

(** X9.  Whatever the span texts of the page, every count the expression
    finds is, once its commas are removed, a non-empty text of digits: it
    becomes a non-negative integer when it has no more digits than [int]
    accepts, 4300, and raises [ValueError] when it has more.  The reading
    of the count raises nothing else, but the [IndexError] of a page
    without a match. *)
Theorem X9_matched_count_is_a_number (nodes : list string) (m : string) :
  In m (re_properties nodes) ->
  let digits := replace "," "" m in
  all_chars is_digit digits = true /\
  ((String.length digits <= int_max_str_digits)%nat ->
   exists T, int_of_str digits = Ok T /\ 0 <= T) /\
  ((int_max_str_digits < String.length digits)%nat ->
   int_of_str digits = Raise ValueError).
Proof.
  intros Hin digits. unfold re_properties in Hin. apply in_flat_map in Hin.
  destruct Hin as (node & _ & Hin).
  apply findall_properties_group in Hin. destruct Hin as (s' & n & Hm).
  apply match_properties_group in Hm. destruct Hm as [H1 H2].
  destruct (replace_commas m H1 H2) as [D Hne]. fold digits in D, Hne.
  destruct (int_of_str_digits digits D Hne) as (v & Hv & E).
  split; [exact D|]. rewrite E. split; intros Hlen.
  - apply Nat.leb_le in Hlen. rewrite Hlen. eauto.
  - apply Nat.leb_gt in Hlen. rewrite Hlen. reflexivity.
Qed.

Lemma X9_matched_count_is_a_number_witness :
  exists T, int_of_str (replace "," "" "1,234") = Ok T /\ 0 <= T.
Proof.
  refine (proj1 (proj2 (X9_matched_count_is_a_number
                          ["Hotels"; "about 1,234 properties found"] "1,234" _)) _).
  - cbv. left. reflexivity.
  - apply Nat.leb_le. vm_compute. reflexivity.
Defined.

(** ** scrape_reviews.py: the page parser *)

Lemma for_each_parse_review_complete (l : list ReviewDiv) :
  forall acc,
    (forallb has_body_and_stay l = true ->
     exists rs, for_each parse_review l acc = Ok rs) /\
    (forallb has_body_and_stay l = false ->
     forall rs, for_each parse_review l acc <> Ok rs).
Proof.
  induction l as [|x l IH]; intros acc; cbn [forallb for_each].
  - split; [eauto|discriminate].
  - unfold has_body_and_stay at 1 3.
    destruct (parse_review_cases acc x)
      as [[Hb E] | [(Hb & Hs & E) | (rv & Hb & Hs & E & _)]]; rewrite E; cbn [bind].
    + rewrite Hb. split; discriminate.
    + rewrite Hs. destruct (review_body x); split; discriminate.
    + destruct (review_body x); [|congruence].
      destruct (review_stay x); [|congruence]. cbn [andb]. apply IH.
Qed.

(** X10.  [parse_hotel_page] returns a record exactly for the pages whose
    aggregate-rating script is found and decodes and whose review
    containers all have their body node and their date-of-stay node.
    Without the script it raises [TypeError]; on a script that
    [json.loads] refuses it raises what [json.loads] raises, whatever else
    the page holds: [JSONDecodeError] for a text that is not JSON,
    [ValueError] for an integer of too many digits, [RecursionError] for
    too deep a nesting. *)
Theorem X10_parse_hotel_page_succeeds_iff (r : Response) :
  ((exists data, parse_hotel_page r = Ok data) <->
   (exists basic, aggregate_rating r = Some (Decoded basic)) /\
   forallb has_body_and_stay (review_divs r) = true)
  /\ (aggregate_rating r = None -> parse_hotel_page r = Raise TypeError)
  /\ (aggregate_rating r = Some Malformed ->
      parse_hotel_page r = Raise JSONDecodeError)
  /\ (aggregate_rating r = Some LongInteger ->
      parse_hotel_page r = Raise ValueError)
  /\ (aggregate_rating r = Some DeepNesting ->
      parse_hotel_page r = Raise RecursionError).
Proof.
  unfold parse_hotel_page, load_basic_data.
  destruct (aggregate_rating r) as [[basic| | |]|]; cbn [loads bind].
  - split; [|repeat split; discriminate].
    destruct (for_each_parse_review_complete (review_divs r) []) as [H1 H2].
    destruct (forallb has_body_and_stay (review_divs r)).
    + destruct (H1 eq_refl) as [rs ->]. cbn [bind]. split; eauto.
    + split.
      * intros [data H]. exfalso.
        destruct (for_each parse_review (review_divs r) []) as [rs|e] eqn:E;
          [|discriminate].
        eapply (H2 eq_refl). reflexivity.
      * intros [_ H]. discriminate.
  - split; [|repeat split; try discriminate; reflexivity].
    split; [intros [? H]; discriminate|intros [[? H] _]; discriminate].
  - split; [|repeat split; try discriminate; reflexivity].
    split; [intros [? H]; discriminate|intros [[? H] _]; discriminate].
  - split; [|repeat split; try discriminate; reflexivity].
    split; [intros [? H]; discriminate|intros [[? H] _]; discriminate].
  - split; [|repeat split; try discriminate; reflexivity].
    split; [intros [? H]; discriminate|intros [[? H] _]; discriminate].
Qed.

Lemma X10_parse_hotel_page_succeeds_iff_witness :
  parse_hotel_page (blank 200 soleil_url) = Raise TypeError /\
  parse_hotel_page long_count_page = Raise ValueError /\
  exists data, parse_hotel_page (client_get soleil_world soleil_url) = Ok data.
Proof.
  split; [|split].
  - apply (proj1 (proj2 (X10_parse_hotel_page_succeeds_iff (blank 200 soleil_url)))).
    reflexivity.
  - apply (proj1 (proj2 (proj2 (proj2
             (X10_parse_hotel_page_succeeds_iff long_count_page))))).
    reflexivity.
  - apply (proj2 (proj1 (X10_parse_hotel_page_succeeds_iff
                           (client_get soleil_world soleil_url)))).
    split; [exists (aggregate (JInt 25))|]; reflexivity.
Defined.

Lemma fold_left_append {A : Type} (l : list A) :
  forall acc, fold_left (fun acc x => (acc ++ [x])%list) l acc = (acc ++ l)%list.
Proof.
  induction l as [|x l IH]; intros acc; cbn [fold_left].
  - rewrite app_nil_r. reflexivity.
  - rewrite IH, <- app_assoc. reflexivity.
Qed.

Lemma for_each_parse_review_titles (l : list ReviewDiv) :
  forall acc rs, for_each parse_review l acc = Ok rs ->
                 map title rs = (map title acc ++ map review_title l)%list.
Proof.
  induction l as [|x l IH]; intros acc rs; cbn [for_each].
  - intros [= <-]. cbn [map]. rewrite app_nil_r. reflexivity.
  - destruct (parse_review_cases acc x)
      as [[_ E] | [(_ & _ & E) | (rv & _ & _ & E & Ht)]];
      rewrite E; cbn [bind]; try discriminate.
    intros H. apply IH in H. rewrite H, map_app, <- app_assoc.
    cbn [map app]. rewrite Ht. reflexivity.
Qed.

(** X11.  The record [parse_hotel_page] returns holds the decoded
    script, the description node if there is one, every amenity text in
    the order of the page, and one review per review container, in the
    order of the page and with the container's title or null; a page
    without review containers gives an empty list of reviews. *)
Theorem X11_parse_hotel_page_fields (r : Response) (data : HotelData) :
  parse_hotel_page r = Ok data ->
  aggregate_rating r = Some (Decoded (ScrapeReviews.basic_data data)) /\
  ScrapeReviews.description data = description_text r /\
  featues data = amenity_texts r /\
  List.length (reviews data) = List.length (review_divs r) /\
  map title (reviews data) = map review_title (review_divs r) /\
  (review_divs r = [] -> reviews data = []).
Proof.
  intros H. assert (L := parse_hotel_page_length _ _ H).
  unfold parse_hotel_page, load_basic_data in H.
  destruct (aggregate_rating r) as [[basic| | |]|]; cbn [loads bind] in H;
    try discriminate.
  destruct (for_each parse_review (review_divs r) []) as [rs|e] eqn:E;
    cbn [bind] in H; [|discriminate].
  injection H as <-. cbn [ScrapeReviews.basic_data ScrapeReviews.description
                          featues reviews] in *.
  repeat split.
  - apply fold_left_append.
  - exact L.
  - apply for_each_parse_review_titles in E. exact E.
  - intros Hnil. rewrite Hnil in L. destruct rs; [reflexivity|discriminate].
Qed.

Lemma X11_parse_hotel_page_fields_witness :
  featues soleil_first_record = ["Free parking"; "Pool"] /\
  map title (reviews soleil_first_record) = [Some "Stay 1"; None].
Proof.
  destruct (X11_parse_hotel_page_fields (client_get soleil_world soleil_url)
              soleil_first_record eq_refl) as (_ & _ & Hf & _ & Ht & _).
  split; [exact Hf|exact Ht].
Defined.

(** ** scrape_reviews.py: the fields of a review *)

Lemma tag_rest_positive s n : tag_rest s = Some n -> (1 <= n)%nat.
Proof.
  destruct s as [|c s]; cbn [tag_rest]; [discriminate|].
  destruct (Ascii.eqb c ">"); [intros [= <-]; lia|].
  destruct (tag_rest s); cbn [option_map]; [intros [= <-]; lia|discriminate].
Qed.

Lemma tag_rest_sub_tags_none s :
  forall skip, tag_rest s = None -> tag_rest (sub_tags_from skip s) = None.
Proof.
  induction s as [|c s IH]; intros skip; cbn [tag_rest sub_tags_from];
    [reflexivity|].
  destruct (Ascii.eqb c ">") eqn:Egt; [discriminate|].
  destruct (tag_rest s) as [n|] eqn:Et; cbn [option_map]; [discriminate|].
  intros _. destruct skip as [|k]; [|apply IH; reflexivity].
  assert (K : tag_rest (String c (sub_tags_from 0 s)) = None).
  { cbn [tag_rest]. rewrite Egt, (IH 0%nat eq_refl). reflexivity. }
  destruct (Ascii.eqb c "<"); exact K.
Qed.

Lemma tag_rest_sub_tags_one s :
  tag_rest s = Some 1%nat -> tag_rest (sub_tags_from 0 s) = Some 1%nat.
Proof.
  destruct s as [|c s]; cbn [tag_rest sub_tags_from]; [discriminate|].
  destruct (Ascii.eqb_spec c ">") as [->|Hn].
  - intros _. reflexivity.
  - destruct (tag_rest s) as [n|] eqn:Et; cbn [option_map]; [|discriminate].
    intros [= ->]. apply tag_rest_positive in Et. lia.
Qed.

(** What [re.sub] returns holds no tag. *)
Lemma tag_free_sub_tags s : forall skip, tag_free (sub_tags_from skip s) = true.
Proof.
  induction s as [|c s IH]; intros skip; cbn [sub_tags_from]; [reflexivity|].
  destruct skip as [|k]; [|apply IH].
  destruct (Ascii.eqb c "<") eqn:Elt.
  - destruct (tag_rest s) as [[|[|k]]|] eqn:Et; try apply IH.
    + apply tag_rest_positive in Et. lia.
    + cbn [tag_free]. rewrite Elt, (tag_rest_sub_tags_one _ Et), IH. reflexivity.
    + cbn [tag_free]. rewrite Elt, (tag_rest_sub_tags_none _ 0%nat Et), IH.
      reflexivity.
  - cbn [tag_free]. rewrite Elt, IH. reflexivity.
Qed.

Lemma tag_free_tail c s : tag_free (String c s) = true -> tag_free s = true.
Proof. cbn [tag_free]. intros H. apply andb_true_iff in H. tauto. Qed.

Lemma tag_free_lstrip s : tag_free s = true -> tag_free (lstrip s) = true.
Proof.
  induction s as [|c s IH]; cbn [lstrip]; [auto|].
  intros H. destruct (is_space c); [|assumption].
  apply IH. eapply tag_free_tail, H.
Qed.

Lemma tag_rest_append p t n :
  tag_rest p = Some n -> tag_rest (p ++ t) = Some n.
Proof.
  revert n. induction p as [|c p IH]; intros n; cbn [tag_rest append];
    [discriminate|].
  destruct (Ascii.eqb c ">"); [auto|].
  destruct (tag_rest p) as [k|]; cbn [option_map]; [|discriminate].
  intros [= <-]. rewrite (IH k eq_refl). reflexivity.
Qed.

Lemma tag_free_prefix p t : tag_free (p ++ t) = true -> tag_free p = true.
Proof.
  induction p as [|c p IH]; cbn [append tag_free]; [reflexivity|].
  intros H. apply andb_true_iff in H. destruct H as [Hc Hp].
  rewrite (IH Hp), andb_true_r.
  destruct (Ascii.eqb c "<"); [|reflexivity].
  destruct (tag_rest p) as [[|[|k]]|] eqn:Et; try reflexivity.
  rewrite (tag_rest_append _ t _ Et) in Hc. discriminate.
Qed.

Lemma rstrip_prefix s : exists t, s = rstrip s ++ t.
Proof.
  induction s as [|c s [t IH]]; cbn [rstrip]; [exists ""; reflexivity|].
  destruct (rstrip s) as [|a r] eqn:E.
  - destruct (is_space c).
    + exists (String c s). reflexivity.
    + exists s. reflexivity.
  - exists t. cbn [append]. f_equal. exact IH.
Qed.

Lemma tag_free_strip s : tag_free s = true -> tag_free (strip s) = true.
Proof.
  intros H. unfold strip. apply tag_free_lstrip in H.
  destruct (rstrip_prefix (lstrip s)) as [t E]. rewrite E in H.
  eapply tag_free_prefix, H.
Qed.

(** [strip] leaves no white space at either end. *)
Lemma trimmed_strip s : trimmed (strip s).
Proof.
  unfold strip.
  assert (F : forall x c, first_char (lstrip x) = Some c -> is_space c = false).
  { induction x as [|a x IH]; cbn [lstrip]; [discriminate|].
    destruct (is_space a) eqn:Ea; [exact IH|].
    intros c [= <-]. exact Ea. }
  assert (R1 : forall x c, first_char (rstrip x) = Some c -> first_char x = Some c).
  { intros [|a x] c; cbn [rstrip]; [discriminate|].
    destruct (rstrip x); [destruct (is_space a)|]; cbn [first_char];
      try discriminate; auto. }
  assert (R2 : forall x c, last_char (rstrip x) = Some c -> is_space c = false).
  { induction x as [|a x IH]; cbn [rstrip]; [discriminate|].
    destruct (rstrip x) as [|b r] eqn:E.
    - destruct (is_space a) eqn:Ea; [discriminate|].
      intros c [= <-]. exact Ea.
    - intros c. change (last_char (String a (String b r)))
        with (last_char (String b r)). apply IH. }
  split.
  - intros c H. apply R1 in H. eapply F, H.
  - apply R2.
Qed.

Lemma startswith_dot_head c a b :
  startswith "." (String c a) = startswith "." (String c b).
Proof.
  unfold startswith. cbn [prefix].
  destruct (ascii_dec "." c); [destruct a, b|]; reflexivity.
Qed.

(** The first piece of a split on a dot holds no dot. *)
Lemma split_dot_first s :
  forall cur, exists x rest,
    split_from "." 0 cur s = (cur ++ x) :: rest /\ contains "." x = false.
Proof.
  induction s as [|c s IH]; intros cur; cbn [split_from].
  - exists "", []. rewrite append_nil_r. split; reflexivity.
  - destruct (startswith "." (String c s)) eqn:E.
    + exists "". eexists. rewrite append_nil_r. split; reflexivity.
    + destruct (IH (cur ++ String c "")) as (x & rest & Hs & Hx).
      exists (String c x), rest. rewrite Hs, append_assoc. split; [reflexivity|].
      cbn [contains]. rewrite (startswith_dot_head c x s), E, Hx. reflexivity.
Qed.

(** The fields of the review read from one container. *)
Lemma parse_review_fields (acc : list Review) (d : ReviewDiv) (rs : list Review) :
  parse_review acc d = Ok rs ->
  exists rv body stay,
    rs = (acc ++ [rv])%list /\
    review_body d = Some body /\ text rv = strip (sub_tags body) /\
    review_stay d = Some stay /\ tripDate rv = strip stay /\
    (forall x, rate rv = Some x -> contains "." x = false).
Proof.
  unfold parse_review.
  destruct (review_body d) as [body|]; cbn [bind]; [|discriminate].
  assert (R : exists rate,
             match review_rating d with
             | Some (String c r) =>
                 first <- index0 (split "." (String c r)) ;; Ok (Some first)
             | _ => Ok None
             end = Ok rate /\
             forall x, rate = Some x -> contains "." x = false).
  { destruct (review_rating d) as [[|c r]|];
      try (exists None; split; [reflexivity|discriminate]).
    unfold split.
    destruct (split_dot_first (String c r) "") as (x & rest & -> & Hx).
    cbn [index0 bind append]. exists (Some x). split; [reflexivity|].
    intros y [= <-]. exact Hx. }
  destruct R as (rate & -> & Hrate). cbn [bind].
  destruct (review_stay d) as [stay|]; cbn [bind]; [|discriminate].
  intros [= <-]. eexists _, body, stay. repeat split. exact Hrate.
Qed.

Lemma for_each_parse_review_invariant (P : Review -> Prop) (l : list ReviewDiv) :
  (forall acc d rs, parse_review acc d = Ok rs ->
                    exists rv, rs = (acc ++ [rv])%list /\ P rv) ->
  forall acc rs, Forall P acc -> for_each parse_review l acc = Ok rs -> Forall P rs.
Proof.
  intros Hstep. induction l as [|x l IH]; intros acc rs Hacc; cbn [for_each].
  - intros [= <-]. assumption.
  - destruct (parse_review acc x) as [acc'|e] eqn:E; cbn [bind]; [|discriminate].
    destruct (Hstep _ _ _ E) as (rv & -> & Hrv).
    apply IH. apply Forall_app. split; [assumption|]. constructor; [assumption|].
    constructor.
Qed.

(** X12.  In every review that [parse_hotel_page] returns, the text holds
    no HTML tag (the tag pattern has no match left in it), the text and
    the trip date have no white space at either end, and the rating, when
    there is one, holds no dot. *)
Theorem X12_review_fields_clean (r : Response) (data : HotelData) :
  parse_hotel_page r = Ok data ->
  Forall (fun rv => tag_free (text rv) = true /\
                    trimmed (text rv) /\
                    trimmed (tripDate rv) /\
                    forall x, rate rv = Some x -> contains "." x = false)
         (reviews data).
Proof.
  unfold parse_hotel_page.
  destruct (load_basic_data r) as [basic|e]; cbn [bind]; [|discriminate].
  destruct (for_each parse_review (review_divs r) []) as [rs|e] eqn:E;
    cbn [bind]; [|discriminate].
  intros [= <-]. cbn [reviews].
  eapply for_each_parse_review_invariant; [|constructor|exact E].
  intros acc d rs' H.
  destruct (parse_review_fields _ _ _ H)
    as (rv & body & stay & -> & _ & Ht & _ & Hd & Hr).
  exists rv. split; [reflexivity|]. rewrite Ht, Hd.
  repeat split; try apply trimmed_strip; try exact Hr.
  apply tag_free_strip, tag_free_sub_tags.
Qed.

Lemma X12_review_fields_clean_witness :
  Forall (fun rv => tag_free (text rv) = true /\
                    trimmed (text rv) /\
                    trimmed (tripDate rv) /\
                    forall x, rate rv = Some x -> contains "." x = false)
         soleil_first_reviews.
Proof.
  exact (X12_review_fields_clean (client_get soleil_world soleil_url)
           soleil_first_record eq_refl).
Defined.

(** ** scrape_reviews.py: the paginator *)

(** The review paginator from the point where it paginates. *)
Lemma scrape_hotel_reviews_reviewing w url data rc P max_review_pages :
  reviewing w url data rc P ->
  scrape_hotel_reviews w url max_review_pages =
    (let urls := review_urls url (clamp_review_pages max_review_pages P) in
     (GET url :: map GET urls,
      for_each extend_reviews (map (client_get w) urls) data)).
Proof.
  intros (Hs & Hp & (agg & c & Ha & Hc & Hi) & Hcount).
  apply (scrape_hotel_reviews_counted _ _ _ _ _ _ _ _ Hs Hp Ha Hc Hi Hcount).
Qed.

(** The loop over the responses keeps the first record and appends the
    reviews of each page. *)
Lemma for_each_extend_reviews_pages (l : list Response) :
  forall data,
    for_each extend_reviews l data =
    (pages <- traverse parse_hotel_page l ;;
     Ok {| ScrapeReviews.basic_data := ScrapeReviews.basic_data data;
           ScrapeReviews.description := ScrapeReviews.description data;
           featues := featues data;
           reviews := (reviews data ++ flat_map reviews pages)%list |}).
Proof.
  induction l as [|p l IH]; intros data; cbn [for_each traverse].
  - cbn [bind flat_map]. rewrite app_nil_r. destruct data. reflexivity.
  - unfold extend_reviews at 1.
    destruct (parse_hotel_page p) as [d|e]; cbn [bind]; [|reflexivity].
    rewrite IH.
    destruct (traverse parse_hotel_page l) as [pages|e]; cbn [bind]; [|reflexivity].
    cbn [ScrapeReviews.basic_data ScrapeReviews.description featues reviews flat_map].
    rewrite app_assoc. reflexivity.
Qed.

(** X13.  The record the review paginator returns is the record of the
    first page with, appended to its reviews, the reviews of every
    follow-up page, in the order of the offsets: the aggregate data, the
    description and the amenities come from the first page alone. *)
Theorem X13_reviews_merged_in_offset_order (w : World) (url : string)
    (data : HotelData) (rc P : Z) (max_review_pages : option Z)
    (merged : HotelData) :
  let urls := review_urls url (clamp_review_pages max_review_pages P) in
  reviewing w url data rc P ->
  snd (scrape_hotel_reviews w url max_review_pages) = Ok merged ->
  basics merged = basics data /\
  exists pages,
    traverse (fun a => parse_hotel_page (client_get w a)) urls = Ok pages /\
    reviews merged = (reviews data ++ flat_map reviews pages)%list.
Proof.
  intros urls Hrev Hrun.
  rewrite (scrape_hotel_reviews_reviewing _ _ _ _ _ max_review_pages Hrev) in Hrun.
  cbv zeta in Hrun. fold urls in Hrun. cbn [snd] in Hrun.
  rewrite for_each_extend_reviews_pages, traverse_map in Hrun.
  destruct (traverse (fun a => parse_hotel_page (client_get w a)) urls)
    as [pages|e]; cbn [bind] in Hrun; [|discriminate].
  injection Hrun as <-. split; [reflexivity|].
  exists pages. split; reflexivity.
Qed.

Lemma reviewing_soleil : reviewing soleil_world soleil_url soleil_first_record 25 3.
Proof.
  unfold reviewing. split; [reflexivity|]. split; [reflexivity|].
  split; [|reflexivity].
  exists (JObj [("ratingValue", JStr "4.5"); ("reviewCount", JInt 25)]), (JInt 25).
  repeat split.
Defined.

Lemma X13_reviews_merged_in_offset_order_witness :
  exists merged,
    snd (scrape_hotel_reviews soleil_world soleil_url None) = Ok merged /\
    basics merged = basics soleil_first_record /\
    exists pages,
      traverse (fun a => parse_hotel_page (client_get soleil_world a))
               [soleil_url_10; soleil_url_20] = Ok pages /\
      reviews merged = (soleil_first_reviews ++ flat_map reviews pages)%list.
Proof.
  destruct (snd (scrape_hotel_reviews soleil_world soleil_url None))
    as [merged|e] eqn:E; [|vm_compute in E; discriminate].
  exists merged. split; [reflexivity|].
  exact (X13_reviews_merged_in_offset_order soleil_world soleil_url
           soleil_first_record 25 3 None merged reviewing_soleil E).
Defined.

Lemma traverse_raises {A B : Type} (f : A -> result B) (l : list A) (x : A) e :
  In x l -> f x = Raise e -> exists e', traverse f l = Raise e'.
Proof.
  intros Hin Hx. induction l as [|y l IH]; [contradiction|]. cbn [traverse].
  destruct (f y) as [b|e0] eqn:Ey; cbn [bind]; [|eauto].
  destruct Hin as [->|Hin]; [congruence|].
  destruct (IH Hin) as [e' ->]. cbn [bind]. eauto.
Qed.

(** X14.  The follow-up pages are all requested before any is parsed,
    with no look at their status, and one of them that cannot be parsed
    (an interstitial page without the aggregate script, say) makes the
    review paginator raise: the record of the first page is not
    returned. *)
Theorem X14_reviews_follow_up_failure (w : World) (url : string)
    (data : HotelData) (rc P : Z) (max_review_pages : option Z) (a : string)
    (e : exn) :
  let urls := review_urls url (clamp_review_pages max_review_pages P) in
  reviewing w url data rc P ->
  In a urls ->
  parse_hotel_page (client_get w a) = Raise e ->
  fst (scrape_hotel_reviews w url max_review_pages) = GET url :: map GET urls /\
  exists e', snd (scrape_hotel_reviews w url max_review_pages) = Raise e'.
Proof.
  intros urls Hrev Hin Hraise.
  rewrite (scrape_hotel_reviews_reviewing _ _ _ _ _ max_review_pages Hrev).
  cbv zeta. fold urls. cbn [fst snd]. split; [reflexivity|].
  rewrite for_each_extend_reviews_pages, traverse_map.
  destruct (traverse_raises (fun a => parse_hotel_page (client_get w a))
                            urls a e Hin Hraise) as [e' ->].
  exists e'. reflexivity.
Qed.

Lemma reviewing_soleil_interrupted :
  reviewing soleil_world_interrupted soleil_url soleil_first_record 25 3.
Proof.
  unfold reviewing. split; [reflexivity|]. split; [reflexivity|].
  split; [|reflexivity].
  exists (JObj [("ratingValue", JStr "4.5"); ("reviewCount", JInt 25)]), (JInt 25).
  repeat split.
Defined.

Lemma X14_reviews_follow_up_failure_witness :
  fst (scrape_hotel_reviews soleil_world_interrupted soleil_url None)
    = [GET soleil_url; GET soleil_url_10; GET soleil_url_20] /\
  exists e', snd (scrape_hotel_reviews soleil_world_interrupted soleil_url None)
             = Raise e'.
Proof.
  apply (X14_reviews_follow_up_failure soleil_world_interrupted soleil_url
           soleil_first_record 25 3 None soleil_url_20 TypeError
           reviewing_soleil_interrupted).
  - right. left. reflexivity.
  - reflexivity.
Defined.

(** X16.  A maximum that is not 0 and at most 1, negative ones included,
    leaves no follow-up page: the review paginator fetches the hotel page
    only and returns its record as it is. *)
Theorem X16_reviews_single_page (w : World) (url : string) (data : HotelData)
    (rc P : Z) (mp : Z) :
  reviewing w url data rc P ->
  mp <> 0 -> mp <= 1 ->
  scrape_hotel_reviews w url (Some mp) = ([GET url], Ok data).
Proof.
  intros Hrev H0 H1.
  rewrite (scrape_hotel_reviews_reviewing _ _ _ _ _ (Some mp) Hrev). cbv zeta.
  assert (Hc : clamp_review_pages (Some mp) P <= 1).
  { unfold clamp_review_pages. destruct (Z.eqb_spec mp 0); [contradiction|].
    cbn [negb andb]. destruct (Z.ltb_spec mp P); lia. }
  assert (Hr : range1 (clamp_review_pages (Some mp) P) = []).
  { unfold range1.
    replace (Z.to_nat (clamp_review_pages (Some mp) P - 1)) with 0%nat by lia.
    reflexivity. }
  unfold review_urls. rewrite Hr. reflexivity.
Qed.

Lemma X16_reviews_single_page_witness :
  scrape_hotel_reviews soleil_world soleil_url (Some 1)
  = ([GET soleil_url], Ok soleil_first_record).
Proof.
  apply (X16_reviews_single_page soleil_world soleil_url soleil_first_record
           25 3 1 reviewing_soleil); lia.
Defined.

(** An exception while the declared count is read ends the run after the
    first fetch. *)
Lemma scrape_hotel_reviews_count_raises w url max_review_pages data e :
  status_code (client_get w url) = 200 ->
  parse_hotel_page (client_get w url) = Ok data ->
  (a <- getitem "aggregateRating" (ScrapeReviews.basic_data data) ;;
   c <- getitem "reviewCount" a ;; Json.int c) = Raise e ->
  scrape_hotel_reviews w url max_review_pages = ([GET url], Raise e).
Proof.
  intros Hs Hp He. unfold scrape_hotel_reviews, get, bind_io, lift.
  rewrite Hs, Hp. cbn [Z.eqb Pos.eqb negb]. rewrite He. reflexivity.
Qed.

(** X15.  The declared count is read from the decoded script without
    any check.  A script that is not an object (a JSON-LD array, say)
    raises [TypeError]; one without ["aggregateRating"], or whose
    aggregate has no ["reviewCount"], raises [KeyError]; a null count
    raises [TypeError] and a count written as text that is not an integer
    raises [ValueError].  In each case the hotel page has been fetched and
    parsed, and nothing else is requested or returned. *)
Theorem X15_review_count_unreadable (w : World) (url : string)
    (max_review_pages : option Z) (data : HotelData) :
  status_code (client_get w url) = 200 ->
  parse_hotel_page (client_get w url) = Ok data ->
  (is_object (ScrapeReviews.basic_data data) = false ->
   scrape_hotel_reviews w url max_review_pages = ([GET url], Raise TypeError))
  /\ (forall fields,
        ScrapeReviews.basic_data data = JObj fields ->
        lookup "aggregateRating" fields = None ->
        scrape_hotel_reviews w url max_review_pages = ([GET url], Raise KeyError))
  /\ (forall fields agg,
        ScrapeReviews.basic_data data = JObj fields ->
        lookup "aggregateRating" fields = Some (JObj agg) ->
        (lookup "reviewCount" agg = None ->
         scrape_hotel_reviews w url max_review_pages = ([GET url], Raise KeyError))
        /\ (lookup "reviewCount" agg = Some JNull ->
            scrape_hotel_reviews w url max_review_pages
            = ([GET url], Raise TypeError))
        /\ (forall s, lookup "reviewCount" agg = Some (JStr s) ->
                      int_of_str s = Raise ValueError ->
                      scrape_hotel_reviews w url max_review_pages
                      = ([GET url], Raise ValueError))).
Proof.
  intros Hs Hp.
  assert (R := scrape_hotel_reviews_count_raises w url max_review_pages data).
  split; [|split].
  - intros Hobj. apply R; try assumption.
    destruct (ScrapeReviews.basic_data data); try reflexivity. discriminate.
  - intros fields Hb Hl. apply R; try assumption.
    rewrite Hb. cbn [getitem]. rewrite Hl. reflexivity.
  - intros fields agg Hb Hl. split; [|split].
    + intros Hc. apply R; try assumption.
      rewrite Hb. cbn [getitem]. rewrite Hl. cbn [bind getitem]. rewrite Hc.
      reflexivity.
    + intros Hc. apply R; try assumption.
      rewrite Hb. cbn [getitem]. rewrite Hl. cbn [bind getitem]. rewrite Hc.
      reflexivity.
    + intros s Hc Hv. apply R; try assumption.
      rewrite Hb. cbn [getitem]. rewrite Hl. cbn [bind getitem]. rewrite Hc.
      cbn [bind Json.int]. exact Hv.
Qed.

Lemma X15_review_count_unreadable_witness :
  scrape_hotel_reviews
    (world None [hotel_page soleil_url (aggregate (JStr "1,024")) [full_review "1"]])
    soleil_url None
  = ([GET soleil_url], Raise ValueError).
Proof.
  destruct (X15_review_count_unreadable
              (world None [hotel_page soleil_url (aggregate (JStr "1,024"))
                                      [full_review "1"]])
              soleil_url None
              {| ScrapeReviews.basic_data := aggregate (JStr "1,024");
                 ScrapeReviews.description := Some "A quiet hotel by the sea.";
                 featues := ["Free parking"; "Pool"];
                 reviews := [ {| title := Some "Stay 1";
                                 text := "Lovely pooland staff";
                                 rate := Some "5"; tripDate := "March 2024" |} ] |}
              eq_refl eq_refl) as (_ & _ & H).
  destruct (H _ _ eq_refl eq_refl) as (_ & _ & Hv).
  apply (Hv "1,024"); reflexivity.
Defined.

(** ** scrape_reviews.py: the name of the CSV file *)

Lemma all_chars_sub_non_alnum s :
  forall in_run,
    all_chars (fun c => is_alnum c || Ascii.eqb c "_") (sub_non_alnum in_run s)
    = true.
Proof.
  induction s as [|c s IH]; intros in_run; cbn [sub_non_alnum]; [reflexivity|].
  destruct (is_alnum c) eqn:E.
  - cbn [all_chars]. rewrite E, IH. reflexivity.
  - destruct in_run; [apply IH|]. cbn [all_chars]. rewrite IH. reflexivity.
Qed.

(** Stripping dashes changes nothing where there is no dash. *)
Lemma strip_dash_without_dash s :
  all_chars (fun c => negb (Ascii.eqb c "-")) s = true -> strip_dash s = s.
Proof.
  intros H. unfold strip_dash.
  assert (L : lstrip_dash s = s).
  { destruct s as [|c s]; [reflexivity|]. cbn [lstrip_dash all_chars] in *.
    apply andb_true_iff in H. destruct H as [Hc _].
    apply negb_true_iff in Hc. rewrite Hc. reflexivity. }
  rewrite L. induction s as [|c s IH]; [reflexivity|].
  cbn [rstrip_dash all_chars] in *.
  apply andb_true_iff in H. destruct H as [Hc Hs]. apply negb_true_iff in Hc.
  assert (Ls : lstrip_dash s = s).
  { destruct s as [|c0 s0]; [reflexivity|]. cbn [lstrip_dash all_chars] in *.
    apply andb_true_iff in Hs. destruct Hs as [Hc0 _].
    apply negb_true_iff in Hc0. rewrite Hc0. reflexivity. }
  rewrite (IH Hs Ls). destruct s; [rewrite Hc|]; reflexivity.
Qed.

Lemma name_char_is_no_dash c :
  is_alnum c || Ascii.eqb c "_" = true -> negb (Ascii.eqb c "-") = true.
Proof.
  destruct c as [[] [] [] [] [] [] [] []]; try discriminate; reflexivity.
Qed.

Lemma extract_hotel_name_sub url group1 :
  search_reviews url = Some group1 ->
  extract_hotel_name_from_url url = sub_non_alnum false group1.
Proof.
  intros H. unfold extract_hotel_name_from_url. rewrite H.
  apply strip_dash_without_dash.
  eapply all_chars_weaken; [|apply all_chars_sub_non_alnum].
  apply name_char_is_no_dash.
Qed.

Lemma hotel_name_chars url :
  all_chars (fun c => is_alnum c || Ascii.eqb c "_")
            (extract_hotel_name_from_url url) = true.
Proof.
  destruct (search_reviews url) as [g|] eqn:E.
  - rewrite (extract_hotel_name_sub _ _ E). apply all_chars_sub_non_alnum.
  - unfold extract_hotel_name_from_url. rewrite E. reflexivity.
Qed.

(** X17.  Whatever the address, the hotel name drawn from it holds only
    letters, digits and underscores of ASCII.  When the pattern matches,
    the name is its group with each run of other characters replaced by
    one underscore: no dash is left for the final [strip('-')], which
    never changes it. *)
Theorem X17_hotel_name_is_safe (url : string) :
  all_chars (fun c => is_alnum c || Ascii.eqb c "_")
            (extract_hotel_name_from_url url) = true /\
  forall group1, search_reviews url = Some group1 ->
                 extract_hotel_name_from_url url = sub_non_alnum false group1.
Proof.
  split; [apply hotel_name_chars|apply extract_hotel_name_sub].
Qed.

Lemma X17_hotel_name_is_safe_witness :
  extract_hotel_name_from_url "/Hotel-Reviews-Cafe & Spa (new)-Rome.html"
  = sub_non_alnum false "Cafe & Spa (new)" /\
  sub_non_alnum false "Cafe & Spa (new)" = "Cafe_Spa_new_".
Proof.
  split; [|reflexivity].
  apply (proj2 (X17_hotel_name_is_safe
                  "/Hotel-Reviews-Cafe & Spa (new)-Rome.html")).
  reflexivity.
Defined.

Lemma lazy_group_append name rest :
  all_chars (fun c => negb (Ascii.eqb c "-") && negb (Ascii.eqb c "010")) name = true ->
  lazy_group (name ++ String "-" rest) = Some name.
Proof.
  induction name as [|c name IH]; cbn [all_chars append lazy_group].
  - intros _. reflexivity.
  - intros H. apply andb_true_iff in H. destruct H as [Hc Hn].
    apply andb_true_iff in Hc. destruct Hc as [H1 H2].
    apply negb_true_iff in H1. apply negb_true_iff in H2.
    rewrite H1, H2, (IH Hn). reflexivity.
Qed.

Lemma prefix_append_long p a b :
  (String.length p <= String.length a)%nat -> prefix p (a ++ b) = prefix p a.
Proof.
  revert a. induction p as [|c p IH]; intros a H.
  - destruct a, b; reflexivity.
  - destruct a as [|d a]; [cbn in H; lia|].
    cbn [append prefix]. destruct (ascii_dec c d); [|reflexivity].
    apply IH. cbn in H. lia.
Qed.

(** The search passes over a prefix in which the pattern does not start. *)
Lemma search_reviews_skip pre t :
  contains "Reviews-" (pre ++ "Reviews") = false ->
  search_reviews (pre ++ "Reviews-" ++ t) = search_reviews ("Reviews-" ++ t).
Proof.
  induction pre as [|c pre IH]; [reflexivity|].
  change (String c pre ++ "Reviews") with (String c (pre ++ "Reviews")).
  cbn [contains]. intros H. apply orb_false_iff in H. destruct H as [Hs Hc].
  change (String c pre ++ "Reviews-" ++ t)
    with (String c (pre ++ "Reviews-" ++ t)).
  cbn [search_reviews].
  assert (E : startswith "Reviews-" (String c (pre ++ "Reviews-" ++ t)) = false).
  { etransitivity; [|exact Hs]. unfold startswith.
    change (String c (pre ++ "Reviews-" ++ t))
      with (String c pre ++ ("Reviews" ++ String "-" t)).
    rewrite <- append_assoc.
    change (String c (pre ++ "Reviews")) with (String c pre ++ "Reviews").
    apply prefix_append_long.
    rewrite length_append. cbn. lia. }
  rewrite E. apply IH. exact Hc.
Qed.

Lemma search_reviews_absent url :
  contains "Reviews-" url = false -> search_reviews url = None.
Proof.
  induction url as [|c url IH]; cbn [contains search_reviews].
  - intros _. reflexivity.
  - intros H. apply orb_false_iff in H. destruct H as [Hs Hc].
    rewrite Hs. apply IH. exact Hc.
Qed.

(** X18.  For an address [...Reviews-NAME-...], where [Reviews-] does not
    occur earlier and NAME holds no dash and no line feed, the hotel name
    is NAME with each run of characters other than ASCII letters and
    digits replaced by one underscore.  For an address without
    [Reviews-] the name is [hotel]. *)
Theorem X18_hotel_name_from_address (pre name rest url : string) :
  (contains "Reviews-" (pre ++ "Reviews") = false ->
   all_chars (fun c => negb (Ascii.eqb c "-") && negb (Ascii.eqb c "010")) name
     = true ->
   extract_hotel_name_from_url (pre ++ "Reviews-" ++ name ++ String "-" rest)
   = sub_non_alnum false name)
  /\ (contains "Reviews-" url = false ->
      extract_hotel_name_from_url url = "hotel").
Proof.
  split.
  - intros Hpre Hname. apply extract_hotel_name_sub.
    rewrite (search_reviews_skip _ _ Hpre).
    change ("Reviews-" ++ name ++ String "-" rest)
      with (String "R" ("eviews-" ++ name ++ String "-" rest)).
    cbn [search_reviews].
    change (String "R" ("eviews-" ++ name ++ String "-" rest))
      with ("Reviews-" ++ (name ++ String "-" rest)).
    rewrite startswith_append.
    change (drop 8 ("Reviews-" ++ (name ++ String "-" rest)))
      with (name ++ String "-" rest).
    rewrite (lazy_group_append _ _ Hname). reflexivity.
  - intros H. unfold extract_hotel_name_from_url.
    rewrite (search_reviews_absent _ H). reflexivity.
Qed.

Lemma X18_hotel_name_from_address_witness :
  extract_hotel_name_from_url
    "https://www.tripadvisor.com/Hotel_Review-g190327-d264936-Reviews-1926_Le_Soleil_Hotel_Spa-Sliema_Island_of_Malta.html"
  = "1926_Le_Soleil_Hotel_Spa".
Proof.
  exact (proj1 (X18_hotel_name_from_address
                  "https://www.tripadvisor.com/Hotel_Review-g190327-d264936-"
                  "1926_Le_Soleil_Hotel_Spa" "Sliema_Island_of_Malta.html" "")
               eq_refl eq_refl).
Defined.

(** X19.  [save_to_csv] writes, in the folder [datasets], a file whose
    name is the one it returns: the hotel name followed by
    [_reviews.csv], made of ASCII letters, digits, underscores and a dot
    only, so that no address can move the file out of the folder.  The
    rows are the header [Title, Text, Rating, Trip Date] and then, for
    each review in the order of the record, its title, text, rating and
    trip date in that order, a missing title or rating being an empty
    field. *)
Theorem X19_csv_file_of_reviews (hotel_data : HotelData) (url : string) :
  let file := fst (save_to_csv hotel_data url) in
  folder file = "datasets" /\
  file_name file = snd (save_to_csv hotel_data url) /\
  file_name file = extract_hotel_name_from_url url ++ "_reviews.csv" /\
  all_chars is_name_char (file_name file) = true /\
  contains "/" (file_name file) = false /\
  rows file
  = [Some "Title"; Some "Text"; Some "Rating"; Some "Trip Date"]
    :: map (fun rv => [title rv; Some (text rv); rate rv; Some (tripDate rv)])
           (reviews hotel_data).
Proof.
  cbv zeta. cbn [save_to_csv fst snd folder file_name rows].
  assert (N : all_chars is_name_char
                (extract_hotel_name_from_url url ++ "_reviews.csv") = true).
  { rewrite all_chars_app. apply andb_true_iff. split; [|reflexivity].
    eapply all_chars_weaken; [|apply hotel_name_chars].
    intros c H. unfold is_name_char. rewrite H. reflexivity. }
  repeat split; [exact N|].
  revert N. generalize (extract_hotel_name_from_url url ++ "_reviews.csv").
  intros name. induction name as [|c name IH]; [reflexivity|].
  cbn [all_chars]. intros H. apply andb_true_iff in H. destruct H as [Hc Hn].
  cbn [contains]. rewrite (IH Hn), orb_false_r.
  unfold startswith. cbn [prefix].
  destruct (ascii_dec "/" c) as [<-|]; [discriminate Hc|reflexivity].
Qed.

(** ** scrape_hotel.py *)

(** X20.  The parser of [scrape_hotel.py] reads the same metadata as the
    parser of [scrape_reviews.py]: whenever the latter returns a record,
    the former returns that record without its reviews.  It looks at no
    review container, so it also returns on every page whose aggregate
    script decodes, where the latter may raise. *)
Theorem X20_hotel_parsers_agree (r : Response) :
  (forall data, parse_hotel_page r = Ok data ->
                ScrapeHotel.parse_hotel_page r = Ok (basics data))
  /\ (forall basic, aggregate_rating r = Some (Decoded basic) ->
        ScrapeHotel.parse_hotel_page r =
        Ok {| ScrapeHotel.basic_data := basic;
              ScrapeHotel.description := description_text r;
              ScrapeHotel.features := amenity_texts r |}).
Proof.
  unfold parse_hotel_page, ScrapeHotel.parse_hotel_page, load_basic_data. split.
  - intros data.
    destruct (aggregate_rating r) as [[basic| | |]|]; cbn [loads bind];
      try discriminate.
    destruct (for_each parse_review (review_divs r) []); cbn [bind];
      [|discriminate].
    intros [= <-]. reflexivity.
  - intros basic ->. cbn [loads bind]. rewrite fold_left_append. reflexivity.
Qed.

Lemma X20_hotel_parsers_agree_witness :
  parse_hotel_page undated_page = Raise AttributeError /\
  ScrapeHotel.parse_hotel_page undated_page =
  Ok {| ScrapeHotel.basic_data := aggregate (JInt 2);
        ScrapeHotel.description := Some "A quiet hotel by the sea.";
        ScrapeHotel.features := ["Free parking"; "Pool"] |}.
Proof.
  split; [reflexivity|].
  apply (proj2 (X20_hotel_parsers_agree undated_page)). reflexivity.
Defined.

(** The review paginator returns a record only after a first response of
    status 200 whose page parses, and keeps its metadata. *)
Lemma scrape_hotel_reviews_ok_first_page w url max_review_pages merged :
  snd (scrape_hotel_reviews w url max_review_pages) = Ok merged ->
  status_code (client_get w url) = 200 /\
  exists data, parse_hotel_page (client_get w url) = Ok data /\
               basics merged = basics data.
Proof.
  unfold scrape_hotel_reviews, get, bind_io, lift.
  destruct (Z.eqb_spec (status_code (client_get w url)) 200) as [Hs|Hs];
    cbn [negb]; [|discriminate].
  destruct (parse_hotel_page (client_get w url)) as [data|e]; [|discriminate].
  destruct (a <- getitem "aggregateRating" (ScrapeReviews.basic_data data) ;;
            c <- getitem "reviewCount" a ;; Json.int c) as [rc|e]; [|discriminate].
  destruct (count_review_pages rc) as [P|e]; [|discriminate].
  cbn [snd]. rewrite for_each_extend_reviews_pages.
  destruct (traverse parse_hotel_page _) as [pages|e]; cbn [bind]; [|discriminate].
  intros [= <-]. split; [assumption|]. exists data. split; reflexivity.
Qed.

(** X21.  [scrape_hotel] issues one request, whatever happens: it raises
    [AssertionError] on a status other than 200, and otherwise returns
    what its parser returns on the page.  On every address and site for
    which the review paginator returns a record, [scrape_hotel] returns
    the metadata of that record. *)
Theorem X21_scrape_hotel (w : World) (url : string) :
  fst (ScrapeHotel.scrape_hotel w url) = [GET url] /\
  (status_code (client_get w url) <> 200 ->
   snd (ScrapeHotel.scrape_hotel w url) = Raise AssertionError) /\
  (status_code (client_get w url) = 200 ->
   snd (ScrapeHotel.scrape_hotel w url)
   = ScrapeHotel.parse_hotel_page (client_get w url)) /\
  (forall max_review_pages merged,
     snd (scrape_hotel_reviews w url max_review_pages) = Ok merged ->
     snd (ScrapeHotel.scrape_hotel w url) = Ok (basics merged)).
Proof.
  assert (A : status_code (client_get w url) = 200 ->
              snd (ScrapeHotel.scrape_hotel w url)
              = ScrapeHotel.parse_hotel_page (client_get w url)).
  { intros Hs. unfold ScrapeHotel.scrape_hotel, get, bind_io, lift.
    rewrite Hs. reflexivity. }
  split; [|split; [|split]].
  - unfold ScrapeHotel.scrape_hotel, get, bind_io, lift.
    destruct (negb _); reflexivity.
  - intros Hs. unfold ScrapeHotel.scrape_hotel, get, bind_io, lift.
    destruct (Z.eqb_spec (status_code (client_get w url)) 200); [contradiction|].
    reflexivity.
  - exact A.
  - intros max_review_pages merged H.
    apply scrape_hotel_reviews_ok_first_page in H.
    destruct H as (Hs & data & Hp & Hb).
    rewrite (A Hs), Hb. revert Hp. clear.
    unfold parse_hotel_page, ScrapeHotel.parse_hotel_page, load_basic_data.
    destruct (aggregate_rating (client_get w url)) as [[basic| | |]|];
      cbn [loads bind]; try discriminate.
    destruct (for_each parse_review _ []); cbn [bind]; [|discriminate].
    intros [= <-]. reflexivity.
Qed.

Lemma X21_scrape_hotel_witness :
  ScrapeHotel.scrape_hotel soleil_world soleil_url
  = ([GET soleil_url], Ok (basics soleil_first_record)) /\
  snd (ScrapeHotel.scrape_hotel blocked_world soleil_url) = Raise AssertionError.
Proof.
  destruct (X21_scrape_hotel soleil_world soleil_url) as (Hf & _ & _ & Hm).
  destruct (X21_scrape_hotel blocked_world soleil_url) as (_ & Hb & _).
  split.
  - destruct (snd (scrape_hotel_reviews soleil_world soleil_url None))
      as [merged|e] eqn:E; [|vm_compute in E; discriminate].
    specialize (Hm None merged E).
    destruct (ScrapeHotel.scrape_hotel soleil_world soleil_url) as [t r].
    cbn [fst snd] in *. subst t r. f_equal. f_equal.
    vm_compute in E. injection E as <-. reflexivity.
  - apply Hb. vm_compute. discriminate.
Defined.

(** ** scrape_search.py: the first page again *)

(** X22.  A first search page of status 200 on which neither layout is
    found (no [span.listItem] box, no [div.listing_title>a] anchor) ends
    the search with the empty list, after that single fetch and without
    any exception: the count of properties and the link to the next page
    are not looked at. *)
Theorem X22_search_first_page_empty (w : World) (query : string)
    (max_pages : option Z) (loc : json) (rest : list json) (h : string) :
  let first_page := client_get w ("https://www.tripadvisor.com" ++ h) in
  scrape_location_data w query = ([POST query], Ok (loc :: rest)) ->
  getitem "HOTELS_URL" loc = Ok (JStr h) ->
  status_code first_page = 200 ->
  list_items first_page = [] ->
  listing_titles first_page = [] ->
  scrape_search_hotel_urls w query max_pages
  = ([POST query; GET ("https://www.tripadvisor.com" ++ h)], Ok []).
Proof.
  intros first_page Hloc Hh Hs Hi Ht.
  rewrite (scrape_search_located _ _ _ _ _ _ _ Hloc Hh).
  unfold scrape_from_first_page, get, bind_io, ret, lift. fold first_page.
  rewrite Hs. cbn [Z.eqb Pos.eqb negb].
  unfold parse_search_page. rewrite Hi, Ht. reflexivity.
Qed.

Lemma X22_search_first_page_empty_witness :
  scrape_search_hotel_urls (world (Some goa_reply) [blank 200 goa_url_1]) "Goa" None
  = ([POST "Goa"; GET goa_url_1], Ok []).
Proof.
  apply (X22_search_first_page_empty (world (Some goa_reply) [blank 200 goa_url_1])
           "Goa" None goa_details [JObj [("localizedName", JStr "Goa Velha")]]
           "/Hotels-g297604-Goa-Hotels.html"); reflexivity.
Defined.

Lemma startswith_split old s :
  startswith old s = true -> exists s2, s = old ++ s2.
Proof.
  unfold startswith. revert s. induction old as [|o old IH]; intros s H.
  - exists s. reflexivity.
  - destruct s as [|c s]; [discriminate|]. cbn [prefix] in H.
    destruct (ascii_dec o c) as [->|]; [|discriminate].
    destruct (IH _ H) as [s2 ->]. exists s2. reflexivity.
Qed.

(** [skip] characters are passed over unread. *)
Lemma replace_from_skip old new z s2 :
  replace_from old new (String.length z) (z ++ s2) = replace_from old new 0 s2.
Proof.
  induction z as [|c z IH]; [reflexivity|]. exact IH.
Qed.

(** Replacing a text by itself changes nothing. *)
Lemma replace_same old s : old <> "" -> replace old old s = s.
Proof.
  intros Hold. unfold replace.
  assert (G : forall n s, (String.length s <= n)%nat -> replace_from old old 0 s = s).
  { induction n as [|n IH]; intros [|c t] Hn; try reflexivity; [cbn in Hn; lia|].
    cbn [replace_from].
    destruct (startswith old (String c t)) eqn:E.
    - destruct (startswith_split _ _ E) as [s2 Es].
      destruct old as [|o old']; [congruence|].
      cbn [append] in Es. injection Es as -> ->.
      change (String.length (String o old') - 1)%nat with (String.length old' - 0)%nat.
      rewrite Nat.sub_0_r, replace_from_skip, IH; [reflexivity|].
      cbn [String.length] in Hn. rewrite length_append in Hn. lia.
    - rewrite IH; [reflexivity|]. cbn [String.length] in Hn. lia. }
  apply (G (String.length s)). lia.
Qed.

(** X23.  The first follow-up address is the address of the next-page
    link as it stands, its offset being replaced by itself; on a first
    page without that link it is the address of the first page.  With two
    pages to read, such a page is then fetched a second time and its
    previews are returned twice. *)
Theorem X23_search_first_page_twice (w : World) (query h : string)
    (results : list Preview) (T P : Z) (next : string) (max_pages : option Z) :
  let u := "https://www.tripadvisor.com" ++ h in
  paginating w query h results T P next ->
  (2 <= clamp_pages max_pages P ->
   hd_error (other_page_urls next (Z.of_nat (List.length results))
                             (clamp_pages max_pages P)) = Some next)
  /\ (next_page_href (client_get w u) = None ->
      clamp_pages max_pages P = 2 ->
      next = u /\
      scrape_search_hotel_urls w query max_pages
      = ([POST query; GET u; GET u], Ok (results ++ results)%list)).
Proof.
  intros u Hpag.
  assert (F : forall n, 2 <= n ->
              exists l, other_page_urls next (Z.of_nat (List.length results)) n
                        = next :: l /\ (n = 2 -> l = [])).
  { intros n Hn. unfold other_page_urls, range1.
    destruct (Z.to_nat (n - 1)) as [|k] eqn:E; [lia|].
    cbn [seq map]. rewrite Z.mul_1_r, replace_same by discriminate.
    eexists. split; [reflexivity|]. intros ->.
    assert (k = 0%nat) by lia. subst k. reflexivity. }
  split.
  - intros H2. destruct (F _ H2) as (l & -> & _). reflexivity.
  - intros Hnone H2.
    assert (Hnext : next = u).
    { destruct Hpag as (_ & Hjoin & _). fold u in Hjoin.
      rewrite Hnone in Hjoin. cbn [urljoin] in Hjoin. congruence. }
    split; [exact Hnext|].
    rewrite (scrape_search_paginating _ _ _ _ _ _ _ max_pages Hpag). cbv zeta.
    fold u.
    destruct (F (clamp_pages max_pages P) ltac:(lia)) as (l & -> & Hl).
    rewrite (Hl H2). cbn [all_distinct existsb negb andb map].
    rewrite Hnext.
    rewrite (Permutation_length_1_inv
               (Permutation_sym (as_completed_perm w [client_get w u]))).
    rewrite (Permutation_length_1_inv (Permutation_sym (started_perm w [u]))).
    cbn [for_each map]. unfold extend_results.
    destruct Hpag as ((_ & _ & Hp & _) & _). fold u in Hp. rewrite Hp. reflexivity.
Qed.

Lemma paginating_goa_unlinked :
  paginating goa_world_unlinked "Goa" "/Hotels-g297604-Goa-Hotels.html"
             goa_first_previews 5 3 goa_url_1.
Proof.
  split; [|split; reflexivity].
  unfold counted. cbv zeta.
  split; [exists goa_details, [JObj [("localizedName", JStr "Goa Velha")]];
          split; reflexivity|].
  split; [reflexivity|]. split; [reflexivity|]. split; [discriminate|].
  exists "5", []; split; reflexivity.
Defined.

Lemma X23_search_first_page_twice_witness :
  scrape_search_hotel_urls goa_world_unlinked "Goa" (Some 2)
  = ([POST "Goa"; GET goa_url_1; GET goa_url_1],
     Ok [preview_taj; preview_leela; preview_taj; preview_leela]).
Proof.
  apply (proj2 (X23_search_first_page_twice goa_world_unlinked "Goa"
                  "/Hotels-g297604-Goa-Hotels.html" goa_first_previews 5 3
                  goa_url_1 (Some 2) paginating_goa_unlinked)); reflexivity.
Defined.

(** ** A maximum of 0 *)

(** C10, amended.  A maximum page count of 0 is not a limit: the guard of
    the clamp tests the truth value of the maximum, so both paginators run
    exactly as with no maximum ([None]).  The review paginator then
    fetches all the pages it has computed: the hotel page and one page per
    offset address.  So does the search paginator, the first page and one
    page per follow-up address, when these addresses are pairwise
    distinct; when they are not, its assertion fails and the first page is
    the only one fetched. *)
Theorem C10_zero_maximum_is_no_maximum (w : World) (query h url : string)
    (results : list Preview) (T P : Z) (next : string)
    (data : HotelData) (rc R : Z) :
  let u := "https://www.tripadvisor.com" ++ h in
  let urls := other_page_urls next (Z.of_nat (List.length results)) P in
  let search := scrape_search_hotel_urls w query (Some 0) in
  let review := scrape_hotel_reviews w url (Some 0) in
  (clamp_pages (Some 0) P = P /\
   clamp_review_pages (Some 0) R = R /\
   search = scrape_search_hotel_urls w query None /\
   review = scrape_hotel_reviews w url None)
  /\ (paginating w query h results T P next ->
      List.length urls = Z.to_nat (P - 1) /\
      (all_distinct urls = true ->
       pages_fetched (fst search) = u :: started w urls /\
       Permutation (started w urls) urls) /\
      (all_distinct urls = false ->
       search = ([POST query; GET u], Raise AssertionError)))
  /\ (reviewing w url data rc R ->
      pages_fetched (fst review) = url :: review_urls url R /\
      List.length (review_urls url R) = Z.to_nat (R - 1)).
Proof.
  intros u urls search review.
  split; [repeat split; reflexivity|]. split.
  - intros Hpag. unfold search.
    rewrite (scrape_search_paginating _ _ _ _ _ _ _ (Some 0) Hpag). cbv zeta.
    change (clamp_pages (Some 0) P) with P. fold u urls.
    split; [unfold urls, other_page_urls; rewrite length_map; apply length_range1|].
    split; intros Hd; rewrite Hd; [|reflexivity].
    cbn [fst pages_fetched flat_map app]. rewrite pages_fetched_gets.
    split; [reflexivity|apply started_perm].
  - intros Hrev. unfold review.
    rewrite (scrape_hotel_reviews_reviewing _ _ _ _ _ (Some 0) Hrev). cbv zeta.
    change (clamp_review_pages (Some 0) R) with R.
    cbn [fst pages_fetched flat_map app]. rewrite pages_fetched_gets.
    split; [reflexivity|].
    unfold review_urls. rewrite length_map. apply length_range1.
Qed.

Lemma C10_zero_maximum_is_no_maximum_witness :
  pages_fetched (fst (scrape_search_hotel_urls goa_world "Goa" (Some 0)))
  = [goa_url_1; goa_url_3; goa_url_2] /\
  pages_fetched (fst (scrape_hotel_reviews soleil_world soleil_url (Some 0)))
  = [soleil_url; soleil_url_10; soleil_url_20].
Proof.
  destruct (C10_zero_maximum_is_no_maximum goa_world "Goa"
              "/Hotels-g297604-Goa-Hotels.html" soleil_url goa_first_previews
              5 3 goa_url_2 soleil_first_record 25 3) as (_ & Hs & _).
  destruct (C10_zero_maximum_is_no_maximum soleil_world "Goa"
              "/Hotels-g297604-Goa-Hotels.html" soleil_url goa_first_previews
              5 3 goa_url_2 soleil_first_record 25 3) as (_ & _ & Hr).
  split.
  - exact (proj1 (proj1 (proj2 (Hs paginating_goa)) eq_refl)).
  - exact (proj1 (Hr reviewing_soleil)).
Defined.

(** The claim as stated fails for the search paginator on a first page
    without a link to the next page: 3 pages are computed, the two
    follow-up addresses are the address of the first page twice, and with
    a maximum of 0 the run stops on its assertion with one page fetched. *)
Lemma C10_counterexample :
  count_pages 5 2 = Ok 3 /\
  clamp_pages (Some 0) 3 = 3 /\
  other_page_urls goa_url_1 2 3 = [goa_url_1; goa_url_1] /\
  scrape_search_hotel_urls goa_world_unlinked "Goa" (Some 0)
  = ([POST "Goa"; GET goa_url_1], Raise AssertionError) /\
  pages_fetched (fst (scrape_search_hotel_urls goa_world_unlinked "Goa" (Some 0)))
  = [goa_url_1].
Proof. by_run. Qed.
